(** * BioWatch: the detection-history store and its reports

    A shallow embedding of [data_manager.py] (the history store, the
    species and location summaries, the export) and of the report
    computations of the Reports page of [app.py], with the properties
    the specification states about them, followed by the utilities, the
    detector and the charts.

    Modelling conventions.
    - A Python [dict] with string keys is a [gmap string value].  What
      [json.load] returns from the history file is a [document]: the list
      of such dicts that the application writes, or another JSON document.
    - A finite Python [float] is the rational it stands for ([Q]), and
      NaN a value of its own ([VNaN]); the arithmetic of the reports on
      floats rounds each result to the nearest double ([round64]).
      Infinities are outside the embedding.
    - A Python [int] is a [Z]; the [int64] columns of a frame hold the
      integers from [- 2 ^ 63] to [2 ^ 63 - 1], and their sums wrap.
    - Exceptions are values of [exn]; a computation that touches the
      history file is a function from the state of the data directory to
      an outcome and a new state. *)

From Stdlib Require Import QArith Ascii String.
From stdpp Require Import gmap strings list fin_maps sorting pretty.

#[local] Open Scope string_scope.
#[local] Open Scope Z_scope.
#[local] Open Scope list_scope.

(** ** JSON values and records *)

#[local] Set Warnings "-register-all".

Inductive value : Type :=
  | VNull
  | VBool (b : bool)
  | VInt (z : Z)
  | VFloat (q : Q)
  | VNaN
  | VStr (s : string)
  | VList (l : list value).

(** A detection record as the producer supplies it, a location, and a
    stored history entry are all dicts. *)
Abbreviation dict := (gmap string value).

(** A JSON document: the list of entries that the application writes, or
    a document that is not a list, which [json.load] returns all the
    same.  A list with an element that is not an object is outside this
    embedding. *)
Inductive document : Type :=
  | Log (entries : list dict)
  | Object (fields : dict)
  | Null
  | Boolean (b : bool)
  | Integer (z : Z)
  | Real (q : Q)
  | Text (s : string).

(** [bool(history)]: the empty list, the empty object, [None], [False],
    zero and the empty text are false. *)
Definition truth (history : document) : bool :=
  match history with
  | Log entries => match entries with [] => false | _ => true end
  | Object fields => match map_to_list fields with [] => false | _ => true end
  | Null => false
  | Boolean b => b
  | Integer z => negb (z =? 0)
  | Real q => negb (Qeq_bool q 0)
  | Text s => negb (String.eqb s "")
  end.

(** ** Exceptions and the state of the data directory *)

(** [Unmodelled] is not an exception of the program: it marks a run that
    leaves the part of pandas this embedding covers (see [DataFrame]). *)
Inductive exn : Type :=
  | KeyError (k : string)
  | IOError
  | JSONDecodeError
  | UnicodeDecodeError
  | AttributeError
  | Unmodelled.

(** What the history file holds: bytes that are not text in the encoding
    of [open], text that [json.load] rejects, or a document. *)
Inductive content : Type :=
  | Undecodable
  | Garbage
  | Json (doc : document).

(** [HISTORY_FILE]: absent, or present with its read permission and its
    content. *)
Inductive file : Type :=
  | Absent
  | File (readable : bool) (c : content).

(** A file written by [export_detection_data]: the rows of the frame
    [pd.DataFrame(ex_frame)] whose index labels are [ex_index], in that
    order, without the [datetime] column, in the format [ex_format].  How
    [to_csv] and [to_json] print a cell is not part of this embedding. *)
Inductive export_format : Type := CSV | JSON.

Record export_file : Type := {
  ex_format : export_format;
  ex_frame : list dict;
  ex_index : list nat
}.

(** The data directory: the history file, the exports written so far and
    whether opening a file of the directory for writing succeeds. *)
Record store : Type := {
  history_file : file;
  exports : gmap string export_file;
  write_ok : bool
}.

Definition set_history_file (f : file) (σ : store) : store :=
  {| history_file := f; exports := exports σ; write_ok := write_ok σ |}.

Definition add_export (path : string) (x : export_file) (σ : store) : store :=
  {| history_file := history_file σ;
     exports := <[path := x]> (exports σ);
     write_ok := write_ok σ |}.

(** ** The monad of store computations *)

Inductive outcome (A : Type) : Type :=
  | Raise (e : exn)
  | Return (a : A).
Arguments Raise {A} e.
Arguments Return {A} a.

Definition M (A : Type) : Type := store → outcome A * store.

Definition raise {A} (e : exn) : M A := λ σ, (Raise e, σ).

#[export] Instance M_ret : MRet M := λ A a σ, (Return a, σ).
#[export] Instance M_bind : MBind M := λ A B k m σ,
  match m σ with
  | (Return a, σ') => k a σ'
  | (Raise e, σ') => (Raise e, σ')
  end.

(** [try: m except: handles => h]: run [m]; an exception that [handles]
    accepts is replaced by [h], run in the state [m] left. *)
Definition try_except {A} (m : M A) (handles : exn → bool) (h : M A) : M A :=
  λ σ, match m σ with
       | (Return a, σ') => (Return a, σ')
       | (Raise e, σ') => if handles e then h σ' else (Raise e, σ')
       end.

(** Lifting a pure fallible step. *)
Definition lift {A} (o : outcome A) : M A := λ σ, (o, σ).

(** ** File primitives *)

(** [os.path.exists(HISTORY_FILE)] *)
Definition history_exists : M bool :=
  λ σ, (Return (match history_file σ with Absent => false | File _ _ => true end), σ).

(** [with open(HISTORY_FILE, 'w') as f: json.dump(doc, f)].  Opening
    fails with [IOError] when the directory refuses the write, and the
    file is then left as it was; otherwise the file holds [doc].  A file
    that existed keeps its read permission, a new one is readable. *)
Definition write_history (doc : document) : M unit :=
  λ σ, if write_ok σ
       then (Return (),
             set_history_file
               (match history_file σ with
                | Absent => File true (Json doc)
                | File r _ => File r (Json doc)
                end) σ)
       else (Raise IOError, σ).

(** [with open(HISTORY_FILE, 'r') as f: return json.load(f)]: opening a
    file without read permission is an [IOError], reading bytes that are
    not text a [UnicodeDecodeError], parsing text that is not JSON a
    [JSONDecodeError]; a document is returned whatever it is. *)
Definition read_history : M document :=
  λ σ, match history_file σ with
       | Absent => (Raise IOError, σ)
       | File false _ => (Raise IOError, σ)
       | File true Undecodable => (Raise UnicodeDecodeError, σ)
       | File true Garbage => (Raise JSONDecodeError, σ)
       | File true (Json doc) => (Return doc, σ)
       end.

(** ** [load_detection_history] *)

Definition load_detection_history : M document :=
  ex ← history_exists;
  if negb ex then
    write_history (Log []);; mret (Log [])
  else
    try_except read_history
      (λ e, match e with JSONDecodeError | IOError => true | _ => false end)
      (mret (Log [])).

(** The history file, when there is one, can be read. *)
Definition readable_store (σ : store) : bool :=
  match history_file σ with
  | File false _ => false
  | _ => true
  end.

(** ** [save_detection_results] *)

(** [d[k]] *)
Definition getitem (d : dict) (k : string) : outcome value :=
  match d !! k with
  | Some v => Return v
  | None => Raise (KeyError k)
  end.

(** [d.get(k, default)]; [d.get(k)] is [get d k VNull]. *)
Definition get (d : dict) (k : string) (default : value) : value :=
  match d !! k with
  | Some v => v
  | None => default
  end.

(** [if k in result: entry[k] = result[k]] *)
Definition copy_if_present (result : dict) (k : string) (entry : dict) : dict :=
  match result !! k with
  | Some v => <[k := v]> entry
  | None => entry
  end.

(** The optional descriptive fields, in the order the source copies them. *)
Definition optional_fields : list string :=
  ["scientific_name"; "weight_range"; "height_range"; "conservation_status";
   "habitat"; "description"; "detected_at"]%string.

(** The keys every stored entry carries. *)
Definition core_fields : list string :=
  ["detection_id"; "timestamp"; "image_name"; "species"; "confidence";
   "count"; "latitude"; "longitude"; "location_name"]%string.

(** The dict literal of the loop of [save_detection_results]. *)
Definition core_entry (detection_id timestamp image_name : string)
    (location result : dict) (species confidence : value) : dict :=
  <["location_name" := get location "location_name" (VStr "Unknown")]>
  (<["longitude" := get location "longitude" VNull]>
  (<["latitude" := get location "latitude" VNull]>
  (<["count" := get result "count" (VInt 1)]>
  (<["confidence" := confidence]>
  (<["species" := species]>
  (<["image_name" := VStr image_name]>
  (<["timestamp" := VStr timestamp]>
  (<["detection_id" := VStr detection_id]> ∅)))))))).

(** The entry built for one result, up to [history.append]. *)
Definition make_entry (detection_id timestamp image_name : string)
    (location result : dict) : outcome dict :=
  match getitem result "species" with
  | Raise e => Raise e
  | Return species =>
    match getitem result "confidence" with
    | Raise e => Raise e
    | Return confidence =>
      Return (foldl (λ entry k, copy_if_present result k entry)
                (core_entry detection_id timestamp image_name location
                   result species confidence)
                optional_fields)
    end
  end.

(** [history.append(entry)]: only a list has [append]. *)
Definition append (history : document) (entry : dict) : outcome document :=
  match history with
  | Log entries => Return (Log (entries ++ [entry]))
  | _ => Raise AttributeError
  end.

(** [for result in results: entry = {...}; ...; history.append(entry)] *)
Fixpoint append_results (detection_id timestamp image_name : string)
    (location : dict) (results : list dict) (history : document)
    : outcome document :=
  match results with
  | [] => Return history
  | result :: rest =>
    match make_entry detection_id timestamp image_name location result with
    | Raise e => Raise e
    | Return entry =>
      match append history entry with
      | Raise e => Raise e
      | Return history =>
        append_results detection_id timestamp image_name location rest history
      end
    end
  end.

Definition save_detection_results (detection_id timestamp image_name : string)
    (location : dict) (results : list dict) : M unit :=
  history ← load_detection_history;
  history ← lift (append_results detection_id timestamp image_name
                    location results history);
  write_history history.

(** ** [clear_detection_history] *)

Definition clear_detection_history : M bool :=
  try_except (write_history (Log []);; mret true) (λ _, true) (mret false).

(** ** Timestamps *)

(** A naive [datetime]. *)
Record datetime : Type := {
  year : nat; month : nat; day : nat;
  hour : nat; minute : nat; second : nat
}.

(** A calendar date: year, month, day. *)
Definition date : Type := nat * nat * nat.

(** [.dt.date] *)
Definition date_of (t : datetime) : date := (year t, month t, day t).

Definition digit (c : ascii) : option nat :=
  let n := nat_of_ascii c in
  if ((48 <=? n) && (n <=? 57))%nat then Some (n - 48)%nat else None.

Fixpoint number (cs : list ascii) (acc : nat) : option nat :=
  match cs with
  | [] => Some acc
  | c :: cs => d ← digit c; number cs (10 * acc + d)%nat
  end.

Definition is_leap (y : nat) : bool :=
  ((y mod 4 =? 0) && (negb (y mod 100 =? 0) || (y mod 400 =? 0)))%nat.

Definition days_in_month (y m : nat) : nat :=
  match m with
  | 1 | 3 | 5 | 7 | 8 | 10 | 12 => 31
  | 4 | 6 | 9 | 11 => 30
  | 2 => if is_leap y then 29 else 28
  | _ => 0
  end%nat.

(** The years are those every [pd.Timestamp] can hold in full. *)
Definition valid_datetime (t : datetime) : bool :=
  ((1678 <=? year t) && (year t <=? 2261) &&
   (1 <=? month t) && (month t <=? 12) &&
   (1 <=? day t) && (day t <=? days_in_month (year t) (month t)) &&
   (hour t <? 24) && (minute t <? 60) && (second t <? 60))%nat.

(** [pd.to_datetime] on a string in the format the application writes,
    ["%Y-%m-%d %H:%M:%S"].  [None] stands for any other text: what pandas
    makes of it is not part of this embedding. *)
Definition to_datetime (s : string) : option datetime :=
  match list_ascii_of_string s with
  | [y1; y2; y3; y4; s1; m1; m2; s2; d1; d2; s3; h1; h2; s4; n1; n2; s5; c1; c2] =>
    if bool_decide ([s1; s2; s3; s4; s5] = ["-"; "-"; " "; ":"; ":"]%char) then
      y ← number [y1; y2; y3; y4] 0;
      m ← number [m1; m2] 0;
      d ← number [d1; d2] 0;
      h ← number [h1; h2] 0;
      n ← number [n1; n2] 0;
      c ← number [c1; c2] 0;
      let t := {| year := y; month := m; day := d;
                  hour := h; minute := n; second := c |} in
      if valid_datetime t then Some t else None
    else None
  | _ => None
  end.

(** Comparison of two components, then of the rest. *)
Definition cmp_pair {A B} (cmpA : A → A → comparison)
    (cmpB : B → B → comparison) (x y : A * B) : comparison :=
  match cmpA x.1 y.1 with
  | Eq => cmpB x.2 y.2
  | c => c
  end.

Definition date_compare : date → date → comparison :=
  cmp_pair (cmp_pair Nat.compare Nat.compare) Nat.compare.

Definition time_of (t : datetime) : nat * nat * nat :=
  (hour t, minute t, second t).

Definition datetime_compare (a b : datetime) : comparison :=
  cmp_pair date_compare date_compare (date_of a, time_of a) (date_of b, time_of b).

(** [a <= b] on timestamps *)
Definition datetime_le (a b : datetime) : bool :=
  match datetime_compare a b with Gt => false | _ => true end.

(** ** Double precision *)

(** [floor (log2 (n / d))] *)
Definition ilog2 (n d : positive) : Z :=
  let k := Z.log2 (Zpos n) - Z.log2 (Zpos d) in
  if (if 0 <=? k then Zpos d * 2 ^ k <=? Zpos n
      else Zpos d <=? Zpos n * 2 ^ (- k))
  then k else k - 1.

(** [n / d] rounded to the nearest integer, a tie to the even one. *)
Definition round_half_even (n : Z) (d : positive) : Z :=
  let q := n / Zpos d in
  match 2 * (n mod Zpos d) ?= Zpos d with
  | Lt => q
  | Gt => q + 1
  | Eq => if Z.even q then q else q + 1
  end.

(** [m * 2 ^ e] *)
Definition scale (m e : Z) : Q :=
  if 0 <=? e then inject_Z (m * 2 ^ e)
  else Qred (Qmake m (Z.to_pos (2 ^ (- e)))).

(** The double nearest to [n / d], a tie to the one with the even
    significand: 53 bits for a normal number, a multiple of [2 ^ -1074]
    below.  Overflow is left out: the numbers of the reports are far from
    it. *)
Definition round64_pos (n d : positive) : Q :=
  let e := Z.max (ilog2 n d - 52) (-1074) in
  let m := if 0 <=? e then round_half_even (Zpos n) (d * Z.to_pos (2 ^ e))
           else round_half_even (Zpos n * 2 ^ (- e)) d in
  scale m e.

Definition round64 (x : Q) : Q :=
  let x := Qred x in
  match Qnum x with
  | 0 => 0%Q
  | Zpos n => round64_pos n (Qden x)
  | Zneg n => (- round64_pos n (Qden x))%Q
  end.

(** The sum, difference and quotient of two doubles. *)
Definition fadd (a b : Q) : Q := round64 (a + b).
Definition fsub (a b : Q) : Q := round64 (a - b).
Definition fdiv (a b : Q) : Q := round64 (a / b).

(** ** The data frame of a history *)

(** A row of [pd.DataFrame(history)] for a history whose entries hold the
    documented types: text, a confidence from 0 to 1, a whole count of the
    [int64] range, an identifier and coordinates that may be missing
    ([None], NaN). *)
Record DetectionEvent : Type := {
  detection_id : option string;
  timestamp : datetime;
  image_name : string;
  species : string;
  confidence : Q;
  count : Z;
  latitude : option Q;
  longitude : option Q;
  location_name : string
}.

Definition as_str (v : value) : option string :=
  match v with VStr s => Some s | _ => None end.

(** A text cell that may be missing: a missing key and [null] are both
    [None]. *)
Definition as_str_or_none (o : option value) : option (option string) :=
  match o with
  | None | Some VNull => Some None
  | Some (VStr s) => Some (Some s)
  | Some _ => None
  end.

(** The integers an [int64] column holds. *)
Definition int64 (z : Z) : bool := (- 2 ^ 63 <=? z) && (z <? 2 ^ 63).

Definition as_int (v : value) : option Z :=
  match v with
  | VInt z => if int64 z then Some z else None
  | _ => None
  end.

(** A cell of a [float64] column: the double that the JSON number
    denotes; an integer is converted, without rounding up to [2 ^ 53]. *)
Definition as_float (v : value) : option Q :=
  match v with
  | VFloat q => Some (round64 q)
  | VInt z => if Z.abs z <=? 2 ^ 53 then Some (inject_Z z) else None
  | _ => None
  end.

(** A confidence: a number from 0 to 1, as the data model has it; the
    sums of the mean then stay far from overflow. *)
Definition as_confidence (v : value) : option Q :=
  match as_float v with
  | Some q => if Qle_bool 0 q && Qle_bool q 1 then Some q else None
  | None => None
  end.

(** A cell of a float column: a missing key, [null] and NaN are all
    NaN. *)
Definition as_float_or_nan (o : option value) : option (option Q) :=
  match o with
  | None | Some VNull | Some VNaN => Some None
  | Some v => Some <$> as_float v
  end.

(** The cell of column [k], read at the type of the column. *)
Definition cell {A} (read : value → option A) (d : dict) (k : string)
    : option A :=
  match d !! k with
  | Some v => read v
  | None => None
  end.

Definition to_event (d : dict) : option DetectionEvent :=
  id ← as_str_or_none (d !! "detection_id");
  ts ← cell as_str d "timestamp";
  ts ← to_datetime ts;
  img ← cell as_str d "image_name";
  sp ← cell as_str d "species";
  conf ← cell as_confidence d "confidence";
  cnt ← cell as_int d "count";
  lat ← as_float_or_nan (d !! "latitude");
  lon ← as_float_or_nan (d !! "longitude");
  loc ← cell as_str d "location_name";
  Some {| detection_id := id; timestamp := ts; image_name := img;
          species := sp; confidence := conf; count := cnt;
          latitude := lat; longitude := lon; location_name := loc |}.

(** [pd.DataFrame(history)].  A history with a cell of another type than
    the documented one is outside this embedding: [None]. *)
Definition DataFrame (history : list dict) : option (list DetectionEvent) :=
  mapM to_event history.

(** ** Grouping and aggregation *)

Section groupby.
Context {K A : Type} (cmp : K → K → comparison).

(** Add a row to the group of its key; the groups stay ordered by key,
    the rows of a group stay in frame order. *)
Fixpoint group_insert (k : K) (a : A) (gs : list (K * list A))
    : list (K * list A) :=
  match gs with
  | [] => [(k, [a])]
  | (k', g) :: gs' =>
    match cmp k k' with
    | Eq => (k', g ++ [a]) :: gs'
    | Lt => (k, [a]) :: (k', g) :: gs'
    | Gt => (k', g) :: group_insert k a gs'
    end
  end.

(** [df.groupby(key)] with the defaults [sort=True, dropna=True]: rows
    whose key is missing belong to no group. *)
Definition groupby (key : A → option K) (df : list A) : list (K * list A) :=
  foldl (λ gs a, match key a with
                 | Some k => group_insert k a gs
                 | None => gs
                 end) [] df.
End groupby.

(** The [int64] that a sum of two leaves: the integer of the range that
    differs from [z] by a multiple of [2 ^ 64]. *)
Definition wrap64 (z : Z) : Z := (z + 2 ^ 63) mod 2 ^ 64 - 2 ^ 63.

(** ["sum"] of an [int64] column *)
Definition agg_sum (col : list Z) : Z :=
  foldl (λ sumx val, wrap64 (sumx + val)) 0 col.

(** One step of the compensated summation of ["mean"]: the running sum
    and the compensation for the digits lost so far. *)
Definition mean_step (acc : Q * Q) (val : Q) : Q * Q :=
  let '(sumx, compensation) := acc in
  let y := fsub val compensation in
  let t := fadd sumx y in
  (t, fsub (fsub t sumx) y).

(** ["mean"] of a [float64] column without missing values: the
    compensated sum divided by the number of values. *)
Definition agg_mean (col : list Q) : Q :=
  let sumx := (foldl mean_step (0%Q, 0%Q) col).1 in
  fdiv sumx (round64 (inject_Z (Z.of_nat (length col)))).

(** ["count"]: the number of cells that are not missing *)
Definition agg_count {A} (col : list (option A)) : nat :=
  length (omap id col).

(** ["nunique"] *)
Definition agg_nunique `{EqDecision A} (col : list A) : nat :=
  length (remove_dups col).

(** ** The species summary *)

Record species_row : Type := {
  sp_species : string;
  sp_total_count : Z;
  sp_avg_confidence : Q;
  sp_detections : nat
}.

(** [df.groupby("species").agg(total_count=("count", "sum"),
    avg_confidence=("confidence", "mean"),
    detections=("detection_id", "count")).reset_index()] *)
Definition species_summary (df : list DetectionEvent) : list species_row :=
  (λ '(k, g), {| sp_species := k;
                 sp_total_count := agg_sum (count <$> g);
                 sp_avg_confidence := agg_mean (confidence <$> g);
                 sp_detections := agg_count (detection_id <$> g) |})
  <$> groupby String.compare (λ e, Some (species e)) df.

(** The frame of a loaded history, or the signal that it is outside the
    embedding. *)
Definition frame_of (history : list dict) : M (list DetectionEvent) :=
  match DataFrame history with
  | Some df => mret df
  | None => raise Unmodelled
  end.

(** The frame of a document that is not a list of entries is outside
    the embedding. *)
Definition get_species_summary : M (list species_row) :=
  history ← load_detection_history;
  if negb (truth history) then mret []
  else match history with
       | Log entries => df ← frame_of entries; mret (species_summary df)
       | _ => raise Unmodelled
       end.

(** ** The location summaries *)

Record location_row : Type := {
  loc_location_name : string;
  loc_latitude : Q;
  loc_longitude : Q;
  loc_species_count : nat;
  loc_total_detections : Z
}.

Definition location_key (e : DetectionEvent) : option (string * Q * Q) :=
  match latitude e, longitude e with
  | Some la, Some lo => Some (location_name e, la, lo)
  | _, _ => None
  end.

Definition location_compare : string * Q * Q → string * Q * Q → comparison :=
  cmp_pair (cmp_pair String.compare Qcompare) Qcompare.

(** [df.groupby(["location_name", "latitude", "longitude"]).agg(
    species_count=("species", "nunique"),
    total_detections=("count", "sum")).reset_index()] *)
Definition location_summary (df : list DetectionEvent) : list location_row :=
  (λ '(k, g), {| loc_location_name := k.1.1;
                 loc_latitude := k.1.2;
                 loc_longitude := k.2;
                 loc_species_count := agg_nunique (species <$> g);
                 loc_total_detections := agg_sum (count <$> g) |})
  <$> groupby location_compare location_key df.

Definition get_location_summary : M (list location_row) :=
  history ← load_detection_history;
  if negb (truth history) then mret []
  else match history with
       | Log entries => df ← frame_of entries; mret (location_summary df)
       | _ => raise Unmodelled
       end.

(** The Location Analysis report of the Reports page. *)
Record location_report_row : Type := {
  lr_latitude : Q;
  lr_longitude : Q;
  lr_unique_species : nat;
  lr_total_detections : Z;
  lr_images_analyzed : nat
}.

Definition coordinates_key (e : DetectionEvent) : option (Q * Q) :=
  match latitude e, longitude e with
  | Some la, Some lo => Some (la, lo)
  | _, _ => None
  end.

Definition coordinates_compare : Q * Q → Q * Q → comparison :=
  cmp_pair Qcompare Qcompare.

(** [history_df.groupby(["latitude", "longitude"]).agg(
    unique_species=("species", "nunique"),
    total_detections=("count", "sum"),
    images_analyzed=("image_name", "nunique")).reset_index()] *)
Definition location_report (df : list DetectionEvent) : list location_report_row :=
  (λ '(k, g), {| lr_latitude := k.1;
                 lr_longitude := k.2;
                 lr_unique_species := agg_nunique (species <$> g);
                 lr_total_detections := agg_sum (count <$> g);
                 lr_images_analyzed := agg_nunique (image_name <$> g) |})
  <$> groupby coordinates_compare coordinates_key df.

(** ** The detection timeline *)

Record timeline_row : Type := {
  tl_date : date;
  tl_species_count : nat;
  tl_total_detections : Z;
  tl_images : nat
}.

(** [history_df.groupby("date").agg(species_count=("species", "nunique"),
    total_detections=("count", "sum"),
    images=("image_name", "nunique")).reset_index()], the date being
    [pd.to_datetime(history_df["timestamp"]).dt.date]. *)
Definition timeline_summary (df : list DetectionEvent) : list timeline_row :=
  (λ '(k, g), {| tl_date := k;
                 tl_species_count := agg_nunique (species <$> g);
                 tl_total_detections := agg_sum (count <$> g);
                 tl_images := agg_nunique (image_name <$> g) |})
  <$> groupby date_compare (λ e, Some (date_of (timestamp e))) df.

(** ** [export_detection_data] *)

(** [str.lower], on the letters that matter for the format names. *)
Definition lower_ascii (c : ascii) : ascii :=
  let n := nat_of_ascii c in
  if ((65 <=? n) && (n <=? 90))%nat then ascii_of_nat (n + 32) else c.

Definition lower (s : string) : string :=
  string_of_list_ascii (lower_ascii <$> list_ascii_of_string s).

(** A number printed on at least [w] digits. *)
Definition zfill (w n : nat) : string :=
  let s := pretty n in
  string_of_list_ascii (replicate (w - String.length s) "0"%char) +:+ s.

(** [strftime("%Y%m%d_%H%M%S")], for a year of four digits *)
Definition strftime_compact (t : datetime) : string :=
  zfill 4 (year t) +:+ zfill 2 (month t) +:+ zfill 2 (day t) +:+ "_" +:+
  zfill 2 (hour t) +:+ zfill 2 (minute t) +:+ zfill 2 (second t).

(** [os.path.join] of a directory and a file name, for a directory name
    that is not empty and does not end in a separator, as
    [get_data_directory] returns it. *)
Definition path_join (dir name : string) : string := dir +:+ "/" +:+ name.

(** [pd.to_datetime(df["timestamp"])] *)
Definition row_datetime (d : dict) : option datetime :=
  ts ← cell as_str d "timestamp"; to_datetime ts.

Definition column_to_datetime (history : list dict) : M (list datetime) :=
  match mapM row_datetime history with
  | Some col => mret col
  | None => raise Unmodelled
  end.

(** [df.to_csv(path)] and [df.to_json(path)]: a new file of the data
    directory. *)
Definition write_export (path : string) (x : export_file) : M unit :=
  λ σ, if write_ok σ then (Return (), add_export path x σ)
       else (Raise IOError, σ).

(** A bound of the export: a calendar date or an instant. *)
Inductive bound : Type :=
  | Date (d : date)
  | Datetime (t : datetime).

(** [pd.Timestamp(b)]: the instant itself, and for a calendar date its
    midnight. *)
Definition Timestamp (b : bound) : datetime :=
  match b with
  | Date d => {| year := d.1.1; month := d.1.2; day := d.2;
                 hour := 0; minute := 0; second := 0 |}
  | Datetime t => t
  end.

(** [now] is the reading of [datetime.now()] and [output_dir] the result
    of [get_data_directory()].  The frame carries its index labels, the
    positions of the entries in the log; the file written is the frame of
    the whole log, [ex_frame], restricted to the labels that the filters
    keep, [ex_index]. *)
Definition export_detection_data (start_date end_date : option bound)
    (format : string) (now : datetime) (output_dir : string)
    : M (option string) :=
  history ← load_detection_history;
  if negb (truth history) then mret None
  else match history with
  | Log entries =>
    col ← column_to_datetime entries;
    let df := zip (seq 0 (length entries)) col in
    let df := match start_date with
              | Some s => filter (λ r, datetime_le (Timestamp s) r.2) df
              | None => df
              end in
    let df := match end_date with
              | Some e => filter (λ r, datetime_le r.2 (Timestamp e)) df
              | None => df
              end in
    let index := df.*1 in
    let stamp := strftime_compact now in
    if bool_decide (lower format = "csv") then
      let output_path :=
        path_join output_dir ("detection_export_" +:+ stamp +:+ ".csv") in
      write_export output_path
        {| ex_format := CSV; ex_frame := entries; ex_index := index |};;
      mret (Some output_path)
    else
      let output_path :=
        path_join output_dir ("detection_export_" +:+ stamp +:+ ".json") in
      write_export output_path
        {| ex_format := JSON; ex_frame := entries; ex_index := index |};;
      mret (Some output_path)
  | _ => raise Unmodelled
  end.

(** The path of an export written at [now]. *)
Definition export_path (format : string) (now : datetime) (output_dir : string)
    : string :=
  path_join output_dir
    ("detection_export_" +:+ strftime_compact now +:+
     if bool_decide (lower format = "csv") then ".csv" else ".json").

Definition export_kind (format : string) : export_format :=
  if bool_decide (lower format = "csv") then CSV else JSON.

(** ** What the groups of a frame are *)

Section rows_of.
Context {K A : Type} (cmp : K → K → comparison) (key : A → option K).

(** The key of the row [a] is present and equal to [k]. *)
Definition has_key (k : K) (a : A) : bool :=
  match key a with
  | Some k' => match cmp k' k with Eq => true | _ => false end
  | None => false
  end.

(** The rows of the frame whose key is [k], in frame order. *)
Definition rows_of (k : K) (df : list A) : list A :=
  filter (λ a, has_key k a) df.

(** The rows of the first group whose key equals [k]. *)
Fixpoint find_group (k : K) (gs : list (K * list A)) : list A :=
  match gs with
  | [] => []
  | (k', g) :: gs' =>
    match cmp k' k with
    | Eq => g
    | _ => find_group k gs'
    end
  end.
End rows_of.

(** The laws of a three-way comparison that orders keys. *)
Class CmpOrder {K : Type} (cmp : K → K → comparison) : Prop := {
  cmp_refl x : cmp x x = Eq;
  cmp_antisym x y : cmp y x = CompOpp (cmp x y);
  cmp_eq_compat x y z : cmp x y = Eq → cmp x z = cmp y z;
  cmp_lt_trans x y z : cmp x y = Lt → cmp y z = Lt → cmp x z = Lt
}.

Arguments cmp_refl {K} cmp {_} x.
Arguments cmp_antisym {K} cmp {_} x y.
Arguments cmp_eq_compat {K} cmp {_} x y z.
Arguments cmp_lt_trans {K} cmp {_} x y z.

(** Two groups in key order. *)
Definition key_lt {K A} (cmp : K → K → comparison) (g1 g2 : K * list A) : Prop :=
  cmp g1.1 g2.1 = Lt.

(** ** What the location and date filters select *)

(** The event [e] was recorded at the site [n] with coordinates equal to
    [la], [lo]. *)
Definition at_location (n : string) (la lo : Q) (e : DetectionEvent) : Prop :=
  location_name e = n ∧
  ∃ la' lo', latitude e = Some la' ∧ longitude e = Some lo' ∧
             (la' == la)%Q ∧ (lo' == lo)%Q.


(** [t] lies in the closed interval from [start_date] to [end_date], a
    missing bound being no bound. *)
Definition within (start_date end_date : option datetime) (t : datetime) : bool :=
  match start_date with Some s => datetime_le s t | None => true end &&
  match end_date with Some e => datetime_le t e | None => true end.

(** The timestamp of the entry [d] lies in the interval. *)
Definition row_within (start_date end_date : option datetime) (d : dict) : bool :=
  match row_datetime d with
  | Some t => within start_date end_date t
  | None => false
  end.

(** The positions in [h], in increasing order, of the entries that
    satisfy [p]. *)
Definition positions (p : dict → bool) (h : list dict) : list nat :=
  (filter (λ x : nat * dict, p x.2) (zip (seq 0 (length h)) h)).*1.

(** The exact sum of a column. *)
Definition total (col : list Z) : Z := foldr Z.add 0 col.


(** The calendar date [d] lies in the closed interval of dates from
    [start_date] to [end_date]. *)
Definition date_within (start_date end_date d : date) : bool :=
  match date_compare start_date d, date_compare d end_date with
  | Gt, _ | _, Gt => false
  | _, _ => true
  end.

(** What the entry stored for [result] holds under the key [k]: the
    arguments of the call, the species and confidence of the result, its
    count or 1, the coordinates of the location or [null] and its name or
    Unknown under the nine core keys; what the result holds under the
    seven descriptive keys; nothing under any other key. *)
Definition stored (detection_id timestamp image_name : string)
    (location result : dict) (k : string) : option value :=
  if decide (k = "detection_id") then Some (VStr detection_id)
  else if decide (k = "timestamp") then Some (VStr timestamp)
  else if decide (k = "image_name") then Some (VStr image_name)
  else if decide (k = "species") then result !! "species"
  else if decide (k = "confidence") then result !! "confidence"
  else if decide (k = "count")
       then Some (default (VInt 1) (result !! "count"))
  else if decide (k = "latitude")
       then Some (default VNull (location !! "latitude"))
  else if decide (k = "longitude")
       then Some (default VNull (location !! "longitude"))
  else if decide (k = "location_name")
       then Some (default (VStr "Unknown") (location !! "location_name"))
  else if decide (k ∈ ["scientific_name"; "weight_range"; "height_range";
                       "conservation_status"; "habitat"; "description";
                       "detected_at"])
       then result !! k
  else None.

(** ** Sample data *)

(** A data directory with no history file. *)
Definition fresh_store (w : bool) : store :=
  {| history_file := Absent; exports := ∅; write_ok := w |}.

(** A data directory whose history file holds the log [doc]. *)
Definition store_of (doc : list dict) (w : bool) : store :=
  {| history_file := File true (Json (Log doc)); exports := ∅; write_ok := w |}.

(** A data directory whose history file has the content [c]. *)
Definition store_with (r : bool) (c : content) (w : bool) : store :=
  {| history_file := File r c; exports := ∅; write_ok := w |}.

Definition yellowstone_north : dict :=
  {[ "latitude" := VFloat (449631 # 10000);
     "longitude" := VFloat (-1105989 # 10000);
     "location_name" := VStr "Yellowstone North" ]}.

(** A detection record with a bounding box, as the producer supplies it,
    and without [count] or any descriptive field. *)
Definition bare_result : dict :=
  {[ "species" := VStr "red fox";
     "confidence" := VFloat (9 # 10);
     "bounding_box" := VList [VInt 10; VInt 20; VInt 110; VInt 220] ]}.

(** A detection record with a scientific name and a count. *)
Definition named_result : dict :=
  {[ "species" := VStr "coyote";
     "scientific_name" := VStr "Canis latrans";
     "confidence" := VFloat (6 # 10);
     "count" := VInt 1 ]}.

Definition at_time (y m d h n c : nat) : datetime :=
  {| year := y; month := m; day := d; hour := h; minute := n; second := c |}.



(** An event at the given site and coordinates. *)
Definition event_at (site : string) (la lo : Q) (img sp : string)
    (t : datetime) : DetectionEvent :=
  {| detection_id := Some "run-4"; timestamp := t; image_name := img;
     species := sp; confidence := 8 # 10; count := 1;
     latitude := Some la; longitude := Some lo; location_name := site |}.


(** Two events of one site name at two latitudes. *)
Definition moved_site_log : list DetectionEvent :=
  [ event_at "Ridge" (44 # 1) (-110 # 1) "f.jpg" "elk" (at_time 2025 1 18 7 0 0);
    event_at "Ridge" (45 # 1) (-110 # 1) "g.jpg" "elk" (at_time 2025 1 18 7 5 0) ].

(** An event of 2 January 2025 stored before one of 1 January 2025. *)
Definition late_then_early : list DetectionEvent :=
  [ event_at "Ridge" (44 # 1) (-110 # 1) "h.jpg" "elk" (at_time 2025 1 2 7 0 0);
    event_at "Ridge" (44 # 1) (-110 # 1) "i.jpg" "moose" (at_time 2025 1 1 7 0 0) ].

(** A stored entry with the given timestamp. *)
Definition entry_at (ts : string) : dict :=
  {[ "detection_id" := VStr "run-5"; "timestamp" := VStr ts;
     "image_name" := VStr "j.jpg"; "species" := VStr "elk";
     "confidence" := VFloat (8 # 10); "count" := VInt 1;
     "latitude" := VNull; "longitude" := VNull;
     "location_name" := VStr "Unknown" ]}.

(** Entries of 1 January, 15 January and 1 February 2025. *)
Definition winter_log : list dict :=
  [ entry_at "2025-01-01 12:00:00"; entry_at "2025-01-15 12:00:00";
    entry_at "2025-02-01 12:00:00" ].


(** A stored entry of the site Yellowstone North. *)
Definition stored_entry (id : value) (ts img sp : string) (conf : Q) (cnt : Z)
    : dict :=
  {[ "detection_id" := id; "timestamp" := VStr ts;
     "image_name" := VStr img; "species" := VStr sp;
     "confidence" := VFloat conf; "count" := VInt cnt;
     "latitude" := VFloat (449631 # 10000);
     "longitude" := VFloat (-1105989 # 10000);
     "location_name" := VStr "Yellowstone North" ]}.


(** Two entries of one species and one day whose counts add up to
    [2 ^ 63]. *)
Definition overflow_entries : list dict :=
  [ stored_entry (VStr "run-1") "2025-01-15 10:30:00" "a.jpg" "elk"
      (8 # 10) (2 ^ 63 - 1);
    stored_entry (VStr "run-2") "2025-01-15 11:00:00" "b.jpg" "elk"
      (8 # 10) 1 ].



(** The data directory with the history file [f], the exports [ex] and
    the write permission [w]. *)
Definition directory (f : file) (ex : gmap string export_file) (w : bool)
    : store :=
  {| history_file := f; exports := ex; write_ok := w |}.

(** A history file that holds an object instead of a list. *)
Definition object_store (w : bool) : store :=
  store_with true (Json (Object {[ "species" := VStr "elk" ]})) w.

(** * Further code: utilities, detector, map *)

(** ** Timestamps the application writes and reads *)

(** [strftime("%Y-%m-%d %H:%M:%S")], for a year of four digits: the
    timestamp of an analysis run and the [detected_at] field. *)
Definition strftime_iso (t : datetime) : string :=
  zfill 4 (year t) +:+ "-" +:+ zfill 2 (month t) +:+ "-" +:+ zfill 2 (day t)
  +:+ " " +:+
  zfill 2 (hour t) +:+ ":" +:+ zfill 2 (minute t) +:+ ":" +:+ zfill 2 (second t).

(** The fields a [datetime] can be built from. *)
Definition valid_fields (t : datetime) : bool :=
  ((1 <=? year t) && (Z.of_nat (year t) <=? 9999)%Z &&
   (1 <=? month t) && (month t <=? 12) &&
   (1 <=? day t) && (day t <=? days_in_month (year t) (month t)) &&
   (hour t <? 24) && (minute t <? 60) && (second t <? 60))%nat.

(** The outcomes of the utilities.  [NotEmbedded] is not an exception of
    the program: it marks an input on which the behaviour of a library
    call is outside this embedding. *)
Inductive fault : Type :=
  | MissingKey (k : string)
  | IndexError
  | TypeError
  | ValueError
  | NotEmbedded.

(** [utils.timestamp_to_datetime]: [datetime.strptime(timestamp_str,
    "%Y-%m-%d %H:%M:%S")] on a text of the zero-padded form
    [YYYY-MM-DD HH:MM:SS].  [strptime] also reads some texts that are not
    of this form; they are left out ([NotEmbedded]). *)
Definition timestamp_to_datetime (timestamp_str : string) : fault + datetime :=
  match list_ascii_of_string timestamp_str with
  | [y1; y2; y3; y4; s1; m1; m2; s2; d1; d2; s3; h1; h2; s4; n1; n2; s5; c1; c2] =>
    if bool_decide ([s1; s2; s3; s4; s5] = ["-"; "-"; " "; ":"; ":"]%char) then
      match number [y1; y2; y3; y4] 0, number [m1; m2] 0, number [d1; d2] 0,
            number [h1; h2] 0, number [n1; n2] 0, number [c1; c2] 0 with
      | Some y, Some m, Some d, Some h, Some n, Some c =>
        let t := {| year := y; month := m; day := d;
                    hour := h; minute := n; second := c |} in
        if valid_fields t then inr t else inl ValueError
      | _, _, _, _, _, _ => inl NotEmbedded
      end
    else inl NotEmbedded
  | _ => inl NotEmbedded
  end.

(** [a < b] on timestamps *)
Definition datetime_lt (a b : datetime) : bool :=
  match datetime_compare a b with Lt => true | _ => false end.

(** [min(timestamps)] and [max(timestamps)] of a list with first element
    [t]: the first smallest and the first largest element. *)
Definition min_datetime (t : datetime) (ts : list datetime) : datetime :=
  foldl (λ m x, if datetime_lt x m then x else m) t ts.

Definition max_datetime (t : datetime) (ts : list datetime) : datetime :=
  foldl (λ m x, if datetime_lt m x then x else m) t ts.

(** [[timestamp_to_datetime(record["timestamp"]) for record in history]] *)
Fixpoint history_timestamps (history : list dict) : fault + list datetime :=
  match history with
  | [] => inr []
  | record :: rest =>
    match record !! "timestamp" with
    | None => inl (MissingKey "timestamp")
    | Some (VStr s) =>
      match timestamp_to_datetime s with
      | inl e => inl e
      | inr t =>
        match history_timestamps rest with
        | inl e => inl e
        | inr ts => inr (t :: ts)
        end
      end
    | Some _ => inl TypeError
    end
  end.

(** [end_date.replace(day=1)] *)
Definition first_of_month (t : datetime) : datetime :=
  {| year := year t; month := month t; day := 1;
     hour := hour t; minute := minute t; second := second t |}.

(** [utils.get_date_range_from_history]; [now] is the reading of
    [datetime.now()]. *)
Definition get_date_range_from_history (history : list dict) (now : datetime)
    : fault + (datetime * datetime) :=
  match history with
  | [] => inr (first_of_month now, now)
  | _ =>
    match history_timestamps history with
    | inl e => inl e
    | inr [] => inl ValueError
    | inr (t :: ts) => inr (min_datetime t ts, max_datetime t ts)
    end
  end.

(** ** The species detector of [models.py] *)

Definition CONFIDENCE_THRESHOLD : Q := 5 # 10.

(** An entry of [SPECIES_DATABASE]. *)
Record species_info : Type := {
  scientific_name : string;
  weight_range : string;
  height_range : string;
  habitat : string;
  conservation_status : string;
  diet : string;
  lifespan : string;
  description : string
}.

(** The table, in the order of the source; a Python dict keeps the order
    of insertion. *)
Definition SPECIES_DATABASE : list (string * species_info) :=
  [
  ("white-tailed deer",
   {| scientific_name := "Odocoileus virginianus";
      weight_range := "90-310 lbs (41-140 kg)";
      height_range := "3-3.5 ft (0.9-1.1 m)";
      habitat := "Forests, grasslands, and farmlands";
      conservation_status := "Least Concern";
      diet := "Herbivore - leaves, twigs, fruits, nuts";
      lifespan := "4-5 years in wild";
      description := "Common deer species with white underside to tail, raised when alarmed" |});
  ("red fox",
   {| scientific_name := "Vulpes vulpes";
      weight_range := "8-15 lbs (3.5-7 kg)";
      height_range := "1-1.3 ft (30-40 cm)";
      habitat := "Forests, grasslands, mountains, deserts";
      conservation_status := "Least Concern";
      diet := "Omnivore - small mammals, birds, fruits, insects";
      lifespan := "2-5 years in wild";
      description := "Medium-sized fox with reddish fur and bushy tail with white tip" |});
  ("gray wolf",
   {| scientific_name := "Canis lupus";
      weight_range := "60-145 lbs (27-65 kg)";
      height_range := "2.3-2.8 ft (70-85 cm)";
      habitat := "Forests, mountains, tundra";
      conservation_status := "Least Concern (globally)";
      diet := "Carnivore - large hoofed mammals, smaller animals";
      lifespan := "6-8 years in wild";
      description := "Largest wild canine species, often travel in packs" |});
  ("black bear",
   {| scientific_name := "Ursus americanus";
      weight_range := "126-550 lbs (57-250 kg)";
      height_range := "2.3-3 ft (70-90 cm) at shoulder";
      habitat := "Forests, swamps, mountains";
      conservation_status := "Least Concern";
      diet := "Omnivore - berries, nuts, insects, fish, small mammals";
      lifespan := "18-25 years in wild";
      description := "Medium-sized bear with black or brown fur, excellent tree climbers" |});
  ("eastern cottontail rabbit",
   {| scientific_name := "Sylvilagus floridanus";
      weight_range := "2-4 lbs (0.9-1.8 kg)";
      height_range := "5-7 inches (12-18 cm)";
      habitat := "Meadows, farmlands, suburban areas";
      conservation_status := "Least Concern";
      diet := "Herbivore - grasses, vegetables, fruits";
      lifespan := "2-3 years in wild";
      description := "Small rabbit with grayish-brown fur and white tail underside" |});
  ("eastern gray squirrel",
   {| scientific_name := "Sciurus carolinensis";
      weight_range := "14-21 oz (400-600 g)";
      height_range := "7-10 inches (18-25 cm)";
      habitat := "Deciduous forests, urban parks";
      conservation_status := "Least Concern";
      diet := "Omnivore - nuts, seeds, fruits, insects";
      lifespan := "6-12 years in wild";
      description := "Common tree squirrel with gray fur and bushy tail" |});
  ("raccoon",
   {| scientific_name := "Procyon lotor";
      weight_range := "10-30 lbs (4.5-13.5 kg)";
      height_range := "9-12 inches (23-30 cm)";
      habitat := "Forests, marshes, urban areas";
      conservation_status := "Least Concern";
      diet := "Omnivore - fruits, nuts, insects, small animals";
      lifespan := "2-3 years in wild";
      description := "Medium-sized mammal with distinctive black mask and ringed tail" |});
  ("coyote",
   {| scientific_name := "Canis latrans";
      weight_range := "20-50 lbs (9-23 kg)";
      height_range := "1.5-2 ft (45-60 cm)";
      habitat := "Grasslands, forests, urban areas";
      conservation_status := "Least Concern";
      diet := "Carnivore - small mammals, birds, fruits";
      lifespan := "10-14 years in wild";
      description := "Medium-sized canine with grayish-brown fur, adaptable to various environments" |});
  ("mountain lion",
   {| scientific_name := "Puma concolor";
      weight_range := "75-175 lbs (34-80 kg)";
      height_range := "2-2.5 ft (60-75 cm)";
      habitat := "Mountains, forests, deserts";
      conservation_status := "Least Concern";
      diet := "Carnivore - deer, livestock, smaller mammals";
      lifespan := "8-13 years in wild";
      description := "Large cat with tawny coat, also known as cougar or puma" |});
  ("bobcat",
   {| scientific_name := "Lynx rufus";
      weight_range := "15-35 lbs (7-16 kg)";
      height_range := "1.5-2 ft (45-60 cm)";
      habitat := "Forests, swamps, deserts";
      conservation_status := "Least Concern";
      diet := "Carnivore - rabbits, rodents, birds";
      lifespan := "7-10 years in wild";
      description := "Medium-sized cat with spotted coat and short bobbed tail" |});
  ("great horned owl",
   {| scientific_name := "Bubo virginianus";
      weight_range := "2-5.5 lbs (0.9-2.5 kg)";
      height_range := "18-25 inches (46-63 cm)";
      habitat := "Forests, deserts, urban areas";
      conservation_status := "Least Concern";
      diet := "Carnivore - small mammals, birds";
      lifespan := "13-15 years in wild";
      description := "Large owl with prominent ear tufts, powerful predator" |});
  ("bald eagle",
   {| scientific_name := "Haliaeetus leucocephalus";
      weight_range := "6.5-14 lbs (3-6.3 kg)";
      height_range := "2.3-3.3 ft (70-100 cm)";
      habitat := "Near bodies of water";
      conservation_status := "Least Concern";
      diet := "Carnivore - fish, small mammals, birds";
      lifespan := "20-30 years in wild";
      description := "Large bird of prey with white head and tail, national symbol of USA" |});
  ("red-tailed hawk",
   {| scientific_name := "Buteo jamaicensis";
      weight_range := "1.5-3.5 lbs (0.7-1.6 kg)";
      height_range := "18-26 inches (45-65 cm)";
      habitat := "Open areas, woodlands";
      conservation_status := "Least Concern";
      diet := "Carnivore - small mammals, birds, reptiles";
      lifespan := "10-15 years in wild";
      description := "Common hawk with brick-red tail, often seen soaring" |})
  ].

(** [list(SPECIES_DATABASE.keys())] *)
Definition SPECIES_CLASSES : list string := SPECIES_DATABASE.*1.

(** [SPECIES_DATABASE[name]] *)
Definition species_lookup (name : string) : option species_info :=
  (λ x, x.2.2) <$> list_find (λ x, x.1 = name) SPECIES_DATABASE.

(** Sequencing of steps that may fail. *)
Definition and_then {A B} (x : fault + A) (f : A → fault + B) : fault + B :=
  match x with
  | inl e => inl e
  | inr a => f a
  end.

(** [random.randint(a, b)]: an empty range is a [ValueError]; otherwise
    the number drawn is some number from [a] to [b], here the one that the
    reading [n] of the generator selects. *)
Definition randint (a b : Z) (n : nat) : fault + Z :=
  if (a <=? b)%Z then inr (a + Z.of_nat n mod (b - a + 1)) else inl ValueError.

(** The readings of the random generator and of the clock that one
    detection uses, in the order of their use; [uniform] is the reading of
    [random.random()]. *)
Record draw : Type := {
  pick : nat;
  uniform : Q;
  rand_x : nat;
  rand_y : nat;
  rand_w : nat;
  rand_h : nat;
  clock : datetime
}.

(** [random.uniform(a, b)] *)
Definition random_uniform (a b u : Q) : Q := (a + (b - a) * u)%Q.

(** The result dict of one detection. *)
Definition detection_result (name : string) (info : species_info)
    (confidence : Q) (box_x box_y box_w box_h : Z) (now : datetime) : dict :=
  <["detected_at" := VStr (strftime_iso now)]>
  (<["description" := VStr (description info)]>
  (<["conservation_status" := VStr (conservation_status info)]>
  (<["habitat" := VStr (habitat info)]>
  (<["height_range" := VStr (height_range info)]>
  (<["weight_range" := VStr (weight_range info)]>
  (<["bounding_box" := VList [VInt box_x; VInt box_y; VInt box_w; VInt box_h]]>
  (<["count" := VInt 1]>
  (<["confidence" := VFloat confidence]>
  (<["scientific_name" := VStr (scientific_name info)]>
  (<["species" := VStr name]> ∅)))))))))).

(** [if location: result.update(location)] *)
Definition with_location (location : option dict) (result : dict) : dict :=
  match location with
  | Some l => match map_to_list l with [] => result | _ => l ∪ result end
  | None => result
  end.

(** The loop of [detect_species] from its iteration [i], with [k]
    iterations to go.  The drawing of the box and its label on the
    annotated image is left out: it does not touch the results, and is
    taken to succeed. *)
Fixpoint detect_loop (draws : nat → draw) (width height : Z)
    (location : option dict) (k i : nat) (used_species : list string)
    (detection_results : list dict) : fault + list dict :=
  match k with
  | O => inr detection_results
  | S k' =>
    let available_species :=
      filter (λ s, s ∉ used_species) SPECIES_CLASSES in
    match available_species with
    | [] => inr detection_results
    | _ =>
      let d := draws i in
      and_then (randint 0 (Z.of_nat (length available_species) - 1) (pick d))
      (λ species_idx,
      match available_species !! Z.to_nat species_idx with
      | None => inl IndexError
      | Some species_name =>
        let confidence :=
          random_uniform CONFIDENCE_THRESHOLD (95 # 100) (uniform d) in
        and_then (randint 10 (width / 2) (rand_x d)) (λ box_x,
        and_then (randint 10 (height / 2) (rand_y d)) (λ box_y,
        and_then (randint (width / 8) (width / 3) (rand_w d)) (λ box_w,
        and_then (randint (height / 8) (height / 3) (rand_h d)) (λ box_h,
        let box_x := Z.min box_x (width - box_w - 5) in
        let box_y := Z.min box_y (height - box_h - 5) in
        match species_lookup species_name with
        | None => inl (MissingKey species_name)
        | Some species_info =>
          let result :=
            detection_result species_name species_info confidence
              box_x box_y box_w box_h (clock d) in
          detect_loop draws width height location k' (S i)
            (species_name :: used_species)
            (detection_results ++ [with_location location result])
        end))))
      end)
    end
  end.

(** The result for an image in which nothing was detected. *)
Definition no_detection (now : datetime) : dict :=
  <["detected_at" := VStr (strftime_iso now)]>
  (<["bounding_box" := VNull]>
  (<["count" := VInt 0]>
  (<["confidence" := VFloat 0]>
  (<["species" := VStr "No wildlife detected"]> ∅)))).

(** [detect_species(model, image, location)], its first component: the
    detection results for an image of the given width and height.
    [first] is the reading used for the number of detections, [draws]
    the readings of each detection and [now] the clock after the loop. *)
Definition detect_species (first : nat) (draws : nat → draw) (now : datetime)
    (width height : Z) (location : option dict) : fault + list dict :=
  and_then (randint 1 3 first) (λ num_detections,
  and_then (detect_loop draws width height location
              (Z.to_nat num_detections) 0 [] []) (λ detection_results,
  match detection_results with
  | [] => inr [with_location location (no_detection now)]
  | _ => inr detection_results
  end)).

(** The box lies in the image, five pixels off its right and lower
    edges. *)
Definition in_image (width height x y w h : Z) : Prop :=
  0 ≤ x ∧ 0 ≤ y ∧ 0 ≤ w ∧ 0 ≤ h ∧ x + w ≤ width - 5 ∧ y + h ≤ height - 5.

(** [r] is the result of a detection of the species [name] of the table,
    with count 1, a confidence drawn from the threshold upwards and a box
    in the image. *)
Definition is_detection (width height : Z) (location : option dict)
    (r : dict) (name : string) : Prop :=
  ∃ info u x y w h now,
    species_lookup name = Some info ∧
    in_image width height x y w h ∧
    r = with_location location
          (detection_result name info
             (random_uniform CONFIDENCE_THRESHOLD (95 # 100) u) x y w h now).

(** The keys a location carries. *)
Definition location_fields : list string :=
  ["latitude"; "longitude"; "location_name"].

(** The location carries no other key than those of a location. *)
Definition location_only (location : option dict) : Prop :=
  ∀ l k, location = Some l → is_Some (l !! k) → k ∈ location_fields.

(** All the keys a stored entry can have. *)
Definition entry_fields : list string := core_fields ++ optional_fields.

(** ** The charts of the dashboard *)

(** A chart is drawn from a table, or is the empty chart that the
    functions return for an empty frame. *)
Inductive chart (A : Type) : Type :=
  | EmptyChart
  | Chart (data : list A).

Arguments EmptyChart {A}.
Arguments Chart {A} data.

Record daily_row : Type := {
  dc_date : date;
  dc_species : string;
  dc_count : Z
}.

Definition daily_key (e : DetectionEvent) : option (date * string) :=
  Some (date_of (timestamp e), species e).

Definition daily_compare : date * string → date * string → comparison :=
  cmp_pair date_compare String.compare.

(** [data_df.groupby(["date", "species"])["count"].sum().reset_index()] *)
Definition daily_counts (df : list DetectionEvent) : list daily_row :=
  (λ '(k, g), {| dc_date := k.1;
                 dc_species := k.2;
                 dc_count := agg_sum (count <$> g) |})
  <$> groupby daily_compare daily_key df.

Definition plot_detection_trends (data_df : list DetectionEvent)
    : chart daily_row :=
  match data_df with
  | [] => EmptyChart
  | _ => Chart (daily_counts data_df)
  end.

Record richness_row : Type := {
  rc_location_name : string;
  rc_species_count : nat
}.

(** [data_df.groupby("location_name")["species"].nunique().reset_index()],
    the columns renamed to [location_name], [species_count]. *)
Definition location_species (df : list DetectionEvent) : list richness_row :=
  (λ '(k, g), {| rc_location_name := k;
                 rc_species_count := agg_nunique (species <$> g) |})
  <$> groupby String.compare (λ e, Some (location_name e)) df.

(** The frame of a history always has the column [location_name]. *)
Definition plot_location_heatmap (data_df : list DetectionEvent)
    : chart richness_row :=
  match data_df with
  | [] => EmptyChart
  | _ => Chart (location_species data_df)
  end.

(** ** [visualization.display_map] *)

(** The truth value of a value: [None], [False], zero, the empty text and
    the empty list are false; NaN is true. *)
Definition truthy (v : value) : bool :=
  match v with
  | VNull => false
  | VBool b => b
  | VInt z => negb (z =? 0)
  | VFloat q => negb (Qeq_bool q 0)
  | VNaN => true
  | VStr s => negb (String.eqb s "")
  | VList l => match l with [] => false | _ => true end
  end.

(** The finite number a value is in a sum; NaN, a text or a list is
    none. *)
Definition as_number (v : value) : option Q :=
  match v with
  | VBool b => Some (if b then 1 else 0)%Q
  | VInt z => Some (inject_Z z)
  | VFloat q => Some q
  | _ => None
  end.

Definition is_nan (v : value) : bool :=
  match v with VNaN => true | _ => false end.

(** [loc.get(k)] when it is true. *)
Definition get_truthy (loc : dict) (k : string) : option value :=
  match loc !! k with
  | Some v => if truthy v then Some v else None
  | None => None
  end.

(** [sum(values)], [None] standing for NaN: a sum with a NaN term is
    NaN, and adding a text or a list to a number is a [TypeError]. *)
Definition sum_values (values : list value) : fault + option Q :=
  foldl (λ acc v, and_then acc (λ s,
           if is_nan v then inr None
           else match as_number v with
                | Some q => inr ((λ x, x + q)%Q <$> s)
                | None => inl TypeError
                end)) (inr (Some 0%Q)) values.

Record marker : Type := {
  marker_location : value * value;
  marker_popup : option value
}.

(** What the function shows: an error message, or a map with its centre,
    zoom level, markers and height. *)
Inductive display : Type :=
  | ErrorMessage (message : string)
  | FoliumMap (center : Q * Q) (zoom_start : Z) (markers : list marker)
      (height : Z).

(** The marker of a location, when it has one. *)
Definition marker_of (include_info : bool) (loc : dict) : option marker :=
  match get_truthy loc "latitude", get_truthy loc "longitude" with
  | Some lat, Some lng =>
    Some {| marker_location := (lat, lng);
            marker_popup := if include_info then loc !! "info" else None |}
  | _, _ => None
  end.

(** [folium.Map] refuses a centre with a NaN coordinate with a
    [ValueError]. *)
Definition display_map (locations : list dict) (zoom_start height : Z)
    (include_info : bool) : fault + display :=
  match locations with
  | [] => inr (ErrorMessage "No location data available for map display.")
  | _ =>
    let lat_values := omap (λ loc, get_truthy loc "latitude") locations in
    let lng_values := omap (λ loc, get_truthy loc "longitude") locations in
    match lat_values, lng_values with
    | [], _ | _, [] =>
      inr (ErrorMessage "Invalid location data for map display.")
    | _, _ =>
      and_then (sum_values lat_values) (λ lat_sum,
      and_then (sum_values lng_values) (λ lng_sum,
      match lat_sum, lng_sum with
      | Some lat_sum, Some lng_sum =>
        let center_lat :=
          (lat_sum / inject_Z (Z.of_nat (length lat_values)))%Q in
        let center_lng :=
          (lng_sum / inject_Z (Z.of_nat (length lng_values)))%Q in
        inr (FoliumMap (center_lat, center_lng) zoom_start
               (omap (marker_of include_info) locations) height)
      | _, _ => inl ValueError
      end))
    end
  end.

(** The coordinates of the location, where it has them, are [None] or
    finite numbers, as in a sample location. *)
Definition numeric_coordinates (loc : dict) : Prop :=
  ∀ k v, k ∈ ["latitude"; "longitude"] → loc !! k = Some v →
         v = VNull ∨ is_Some (as_number v).

(** ** [utils.validate_image_format] *)

(** [p.rfind(c)] from the index [i], [found] being the last index found
    so far. *)
Fixpoint rfind_from (c : ascii) (p : list ascii) (i found : Z) : Z :=
  match p with
  | [] => found
  | x :: p' => rfind_from c p' (i + 1) (if Ascii.eqb x c then i else found)
  end.

(** [p.rfind(c)]: the index of the last [c], or -1. *)
Definition rfind (c : ascii) (p : list ascii) : Z := rfind_from c p 0 (-1).

(** [p[i:j]] for [0 <= i] *)
Definition slice (p : list ascii) (i j : Z) : list ascii :=
  drop (Z.to_nat i) (take (Z.to_nat j) p).

(** [os.path.splitext] of a POSIX path: the extension starts at the last
    dot of the last component, unless that component has only dots
    before it. *)
Definition splitext (p : list ascii) : list ascii * list ascii :=
  let sepIndex := rfind "/" p in
  let dotIndex := rfind "." p in
  if (sepIndex <? dotIndex)
  then if forallb (λ x, Ascii.eqb x ".") (slice p (sepIndex + 1) dotIndex)
       then (p, [])
       else (take (Z.to_nat dotIndex) p, drop (Z.to_nat dotIndex) p)
  else (p, []).

Definition valid_extensions : list string := [".jpg"; ".jpeg"; ".png"].

(** [file] is [None] or the name of the uploaded file.  The name is read
    as its bytes, of which [lower] changes the letters A to Z: no other
    character is turned into a letter of the three extensions by
    [str.lower]. *)
Definition validate_image_format (file : option string) : bool :=
  match file with
  | None => false
  | Some name =>
    let file_ext :=
      string_of_list_ascii (splitext (list_ascii_of_string (lower name))).2 in
    bool_decide (file_ext ∈ valid_extensions)
  end.

(** The part of a path after its last slash. *)
Definition last_component (p : list ascii) : list ascii :=
  drop (Z.to_nat (rfind "/" p + 1)) p.

(** A location on the equator. *)
Definition equator_station : dict :=
  {[ "latitude" := VFloat 0; "longitude" := VFloat (10 # 1) ]}.

(** ** [utils.get_sample_locations] *)

(** The dict of one sample location. *)
Definition sample_location (name : string) (la lo : Q) : dict :=
  {[ "latitude" := VFloat la; "longitude" := VFloat lo;
     "location_name" := VStr name ]}.

(** The table, in the order of its keys. *)
Definition get_sample_locations : list (string * dict) :=
  [ ("Yellowstone North",
     sample_location "Yellowstone North" (449631 # 10000) (-1105989 # 10000));
    ("Yellowstone Central",
     sample_location "Yellowstone Central" (444280 # 10000) (-1105885 # 10000));
    ("Yellowstone South",
     sample_location "Yellowstone South" (441350 # 10000) (-1106663 # 10000));
    ("Grand Teton",
     sample_location "Grand Teton" (437904 # 10000) (-1106818 # 10000));
    ("Olympic National Forest",
     sample_location "Olympic National Forest" (478021 # 10000)
       (-1236044 # 10000));
    ("Yosemite Valley",
     sample_location "Yosemite Valley" (377456 # 10000) (-1195936 # 10000));
    ("Glacier National Park",
     sample_location "Glacier National Park" (487596 # 10000)
       (-1137870 # 10000));
    ("Everglades",
     sample_location "Everglades" (252866 # 10000) (-808987 # 10000));
    ("Great Smoky Mountains",
     sample_location "Great Smoky Mountains" (356131 # 10000)
       (-835532 # 10000)) ].

(** Checks of the printed form of one field, used on all its values. *)
Definition two_digits_ok (n : nat) : bool :=
  match list_ascii_of_string (zfill 2 n) with
  | [a; b] => bool_decide (number [a; b] 0 = Some n)
  | _ => false
  end.

Definition four_digits_ok (n : nat) : bool :=
  match list_ascii_of_string (zfill 4 n) with
  | [a; b; c; d] => bool_decide (number [a; b; c; d] 0 = Some n)
  | _ => false
  end.


(** * Properties *)

(** ** The history store *)

(** What a load does, by the state of the history file. *)
Lemma load_detection_history_eq σ :
  load_detection_history σ =
  match history_file σ with
  | Absent =>
    if write_ok σ
    then (Return (Log []), set_history_file (File true (Json (Log []))) σ)
    else (Raise IOError, σ)
  | File true Undecodable => (Raise UnicodeDecodeError, σ)
  | File true (Json doc) => (Return doc, σ)
  | File _ _ => (Return (Log []), σ)
  end.
Proof.
  unfold load_detection_history, mbind, M_bind, history_exists,
    try_except, read_history, write_history, mret, M_ret.
  destruct σ as [[|[] [| |doc]] ex []]; reflexivity.
Qed.

(** A load that returns leaves a store from which the same document is
    loaded again, with the same exports and permissions. *)
Lemma load_detection_history_Return σ σ0 doc :
  load_detection_history σ = (Return doc, σ0) →
  load_detection_history σ0 = (Return doc, σ0) ∧
  exports σ0 = exports σ ∧
  write_ok σ0 = write_ok σ ∧
  readable_store σ0 = readable_store σ ∧
  history_file σ0 ≠ Absent.
Proof.
  rewrite !load_detection_history_eq.
  destruct σ as [[|[] [| |d]] ex []]; simpl; intros [= <- <-]; done.
Qed.

Lemma load_after_write doc σ σ' :
  write_history doc σ = (Return (), σ') →
  load_detection_history σ' =
    (Return (if readable_store σ then doc else Log []), σ') ∧
  exports σ' = exports σ.
Proof.
  unfold write_history. destruct (write_ok σ) eqn:Hw; [|discriminate].
  intros [= <-]. rewrite load_detection_history_eq.
  unfold readable_store.
  destruct σ as [[|[] c] ex w]; done.
Qed.

Lemma write_history_ok doc σ :
  write_ok σ = true → ∃ σ', write_history doc σ = (Return (), σ').
Proof. unfold write_history. intros ->. eauto. Qed.

Lemma save_detection_results_eq id ts img loc results σ :
  save_detection_results id ts img loc results σ =
  match load_detection_history σ with
  | (Return history, σ1) =>
    match append_results id ts img loc results history with
    | Return history' => write_history history' σ1
    | Raise e => (Raise e, σ1)
    end
  | (Raise e, σ1) => (Raise e, σ1)
  end.
Proof.
  unfold save_detection_results, mbind, M_bind, lift.
  destruct (load_detection_history σ) as [[e|h] σ1]; [reflexivity|].
  destruct (append_results _ _ _ _ _ _); reflexivity.
Qed.

(** The loop appends to a list, in input order, the entry of each
    result. *)
Lemma append_results_Forall2 id ts img loc results entries history :
  Forall2 (λ r e, make_entry id ts img loc r = Return e) results entries →
  append_results id ts img loc results (Log history)
    = Return (Log (history ++ entries)).
Proof.
  intros HF. revert history.
  induction HF as [|r e rest entries He _ IH]; simpl; intros history.
  - by rewrite app_nil_r.
  - rewrite He, IH. by rewrite <- app_assoc.
Qed.

Lemma append_results_Return id ts img loc results history history' :
  append_results id ts img loc results (Log history) = Return history' →
  ∃ entries,
    Forall2 (λ r e, make_entry id ts img loc r = Return e) results entries ∧
    history' = Log (history ++ entries).
Proof.
  revert history. induction results as [|r rest IH]; simpl; intros history.
  - intros [= <-]. exists []. by rewrite app_nil_r.
  - destruct (make_entry id ts img loc r) as [|e] eqn:He; [discriminate|].
    intros (entries & HF & ->)%IH. exists (e :: entries). split.
    + by constructor.
    + by rewrite <- app_assoc.
Qed.

(** What a lookup in the entry of a result finds. *)
Lemma copy_fields_lookup (result : dict) ks (entry : dict) k :
  foldl (λ entry k, copy_if_present result k entry) entry ks !! k =
  if decide (k ∈ ks)
  then match result !! k with Some v => Some v | None => entry !! k end
  else entry !! k.
Proof.
  revert entry. induction ks as [|k' ks IH]; intros entry.
  - case_decide as Hk; [by apply elem_of_nil in Hk|done].
  - cbn [foldl]. rewrite IH. unfold copy_if_present.
    destruct (decide (k = k')) as [->|Hne].
    + rewrite (decide_True (P := k' ∈ k' :: ks)) by (apply elem_of_cons; by left).
      destruct (result !! k') eqn:Hr.
      * rewrite lookup_insert_eq. by case_decide.
      * by case_decide.
    + assert (Hi : ∀ v, <[k' := v]> entry !! k = entry !! k)
        by (intros; by rewrite lookup_insert_ne).
      assert (Hc : k ∈ k' :: ks ↔ k ∈ ks)
        by (rewrite elem_of_cons; tauto).
      destruct (decide (k ∈ k' :: ks)), (decide (k ∈ ks)); try tauto;
        destruct (result !! k), (result !! k'); by rewrite ?Hi.
Qed.

Lemma make_entry_eq id ts img loc (result : dict) :
  make_entry id ts img loc result =
  match result !! "species", result !! "confidence" with
  | Some sp, Some cf =>
    Return (foldl (λ entry k, copy_if_present result k entry)
              (core_entry id ts img loc result sp cf) optional_fields)
  | None, _ => Raise (KeyError "species")
  | Some _, None => Raise (KeyError "confidence")
  end.
Proof.
  unfold make_entry, getitem.
  destruct (result !! "species"), (result !! "confidence"); reflexivity.
Qed.

Lemma make_entry_Return id ts img loc (result : dict) :
  is_Some (result !! "species") → is_Some (result !! "confidence") →
  ∃ e, make_entry id ts img loc result = Return e.
Proof.
  intros [sp Hsp] [cf Hcf]. rewrite make_entry_eq, Hsp, Hcf. eauto.
Qed.

Lemma core_entry_lookup id ts img loc (result : dict) sp cf k :
  core_entry id ts img loc result sp cf !! k =
  if decide (k ∈ core_fields)
  then Some (if decide (k = "location_name")
             then get loc "location_name" (VStr "Unknown")
        else if decide (k = "longitude") then get loc "longitude" VNull
        else if decide (k = "latitude") then get loc "latitude" VNull
        else if decide (k = "count") then get result "count" (VInt 1)
        else if decide (k = "confidence") then cf
        else if decide (k = "species") then sp
        else if decide (k = "image_name") then VStr img
        else if decide (k = "timestamp") then VStr ts
        else VStr id)
  else None.
Proof.
  destruct (decide (k ∈ core_fields)) as [Hk|Hk]; unfold core_fields in Hk.
  - repeat (apply elem_of_cons in Hk as [->|Hk]; [by vm_compute|]).
    by apply elem_of_nil in Hk.
  - unfold core_entry.
    repeat (rewrite lookup_insert_ne;
            [|intros <-; apply Hk; rewrite !elem_of_cons; tauto]).
    apply lookup_empty.
Qed.

Lemma optional_not_core k : k ∈ optional_fields → k ∉ core_fields.
Proof.
  unfold optional_fields. intros Hk.
  repeat (apply elem_of_cons in Hk as [->|Hk];
          [apply (bool_decide_unpack _); by vm_compute|]).
  by apply elem_of_nil in Hk.
Qed.

(** The keys and values of a stored entry. *)
Lemma make_entry_lookup id ts img loc (result e : dict) k :
  make_entry id ts img loc result = Return e →
  e !! k =
  if decide (k ∈ optional_fields) then result !! k
  else if decide (k ∈ core_fields)
  then Some (if decide (k = "location_name")
             then get loc "location_name" (VStr "Unknown")
        else if decide (k = "longitude") then get loc "longitude" VNull
        else if decide (k = "latitude") then get loc "latitude" VNull
        else if decide (k = "count") then get result "count" (VInt 1)
        else if decide (k = "confidence") then default VNull (result !! k)
        else if decide (k = "species") then default VNull (result !! k)
        else if decide (k = "image_name") then VStr img
        else if decide (k = "timestamp") then VStr ts
        else VStr id)
  else None.
Proof.
  rewrite make_entry_eq.
  destruct (result !! "species") as [sp|] eqn:Hsp; [|discriminate].
  destruct (result !! "confidence") as [cf|] eqn:Hcf; [|discriminate].
  intros He. assert (e = foldl (λ entry k, copy_if_present result k entry)
    (core_entry id ts img loc result sp cf) optional_fields) as ->
    by congruence. clear He.
  rewrite copy_fields_lookup, core_entry_lookup.
  destruct (decide (k ∈ optional_fields)) as [Ho|Ho].
  - apply optional_not_core in Ho. rewrite decide_False by done.
    by destruct (result !! k).
  - destruct (decide (k ∈ core_fields)); [|done].
    repeat (case_decide; [subst k; by rewrite ?Hsp, ?Hcf|]). done.
Qed.

(** The entry built for a result holds what [stored] says. *)
Lemma make_entry_stored id ts img loc (result e : dict) :
  make_entry id ts img loc result = Return e →
  ∀ k, e !! k = stored id ts img loc result k.
Proof.
  intros He k. rewrite (make_entry_lookup _ _ _ _ _ _ k He).
  rewrite make_entry_eq in He.
  destruct (result !! "species") as [sp|] eqn:Hsp; [|discriminate].
  destruct (result !! "confidence") as [cf|] eqn:Hcf; [|discriminate].
  unfold stored, get, optional_fields, core_fields.
  destruct (decide (k = "detection_id")) as [->|?]; [done|].
  destruct (decide (k = "timestamp")) as [->|?]; [done|].
  destruct (decide (k = "image_name")) as [->|?]; [done|].
  destruct (decide (k = "species")) as [->|?]; [by rewrite Hsp|].
  destruct (decide (k = "confidence")) as [->|?]; [by rewrite Hcf|].
  destruct (decide (k = "count")) as [->|?]; [done|].
  destruct (decide (k = "latitude")) as [->|?]; [done|].
  destruct (decide (k = "longitude")) as [->|?]; [done|].
  destruct (decide (k = "location_name")) as [->|?]; [done|].
  destruct (decide (k ∈ _)) as [Ho|Ho]; [done|].
  rewrite decide_False; [done|].
  rewrite !elem_of_cons, elem_of_nil. tauto.
Qed.

(** The entries of results that have a species and a confidence. *)
Lemma make_entries id ts img loc (results : list dict) :
  Forall (λ r : dict, is_Some (r !! "species") ∧ is_Some (r !! "confidence"))
    results →
  ∃ entries,
    Forall2 (λ r e, make_entry id ts img loc r = Return e) results entries.
Proof.
  induction 1 as [|r rest [Hsp Hcf] _ [es IH]]; [by exists []|].
  destruct (make_entry_Return id ts img loc r Hsp Hcf) as [e He].
  exists (e :: es). by constructor.
Qed.

(** A save onto a log: the file then holds the log followed by the
    entries, and a load returns it when the file can be read. *)
Lemma save_detection_results_entries id ts img loc results entries σ σ0 h :
  load_detection_history σ = (Return (Log h), σ0) →
  write_ok σ = true →
  Forall2 (λ r e, make_entry id ts img loc r = Return e) results entries →
  ∃ σ',
    save_detection_results id ts img loc results σ = (Return (), σ') ∧
    write_history (Log (h ++ entries)) σ0 = (Return (), σ') ∧
    load_detection_history σ' =
      (Return (Log (if readable_store σ then h ++ entries else [])), σ') ∧
    exports σ' = exports σ.
Proof.
  intros Hload Hw HF.
  destruct (load_detection_history_Return _ _ _ Hload)
    as (_ & Hex & Hw0 & Hr0 & _).
  rewrite Hw in Hw0.
  destruct (write_history_ok (Log (h ++ entries)) σ0 Hw0) as [σ' Hwrite].
  exists σ'. split; [|split; [done|]].
  - rewrite save_detection_results_eq, Hload.
    by rewrite (append_results_Forall2 _ _ _ _ _ _ _ HF).
  - destruct (load_after_write _ _ _ Hwrite) as [-> ->].
    rewrite Hr0, Hex. by destruct (readable_store σ).
Qed.

(** C5, as stated, fails.  With no history file and a data directory that
    refuses the write, [load_detection_history] raises the [IOError] of
    the initialising write; and a history file that holds a JSON object,
    a document of another structure than a log, is not read as the empty
    list: the object is returned. *)
Lemma load_detection_history_unwritable :
  load_detection_history (fresh_store false)
    = (Raise IOError, fresh_store false) ∧
  load_detection_history (object_store true)
    = (Return (Object {[ "species" := VStr "elk" ]}), object_store true).
Proof. split; reflexivity. Qed.

(** C5, amended.  An absent history file in a directory that accepts the
    write is initialised to the empty log, the empty list is returned,
    and the next load returns the empty list again.  A file that cannot
    be opened for reading, and a file whose text is not JSON, give the
    empty list and are left as they are.  A file that holds a log gives
    that log. *)
Theorem load_detection_history_recovers :
  (∀ ex,
     load_detection_history (directory Absent ex true)
       = (Return (Log []), directory (File true (Json (Log []))) ex true) ∧
     load_detection_history (directory (File true (Json (Log []))) ex true)
       = (Return (Log []), directory (File true (Json (Log []))) ex true)) ∧
  (∀ c ex w,
     load_detection_history (directory (File false c) ex w)
       = (Return (Log []), directory (File false c) ex w)) ∧
  (∀ ex w,
     load_detection_history (directory (File true Garbage) ex w)
       = (Return (Log []), directory (File true Garbage) ex w)) ∧
  (∀ h ex w,
     load_detection_history (directory (File true (Json (Log h))) ex w)
       = (Return (Log h), directory (File true (Json (Log h))) ex w)).
Proof.
  split; [|split; [|split]]; intros; rewrite ?load_detection_history_eq;
    done.
Qed.

(** C9: [clear_detection_history] never raises; it returns [True] when
    the write of the empty log succeeded and [False] when it failed.  After
    a successful clear the history file holds the empty log and a load
    returns the empty list, whatever the file held before; after a failed
    one nothing has changed. *)
Theorem clear_detection_history_reports (σ : store) :
  ∃ σ',
    clear_detection_history σ = (Return (write_ok σ), σ') ∧
    (write_ok σ = true →
       (∃ r, history_file σ' = File r (Json (Log []))) ∧
       load_detection_history σ' = (Return (Log []), σ')) ∧
    (write_ok σ = false → σ' = σ).
Proof.
  unfold clear_detection_history, try_except, mbind, M_bind, mret, M_ret,
    write_history.
  destruct σ as [f ex [|]]; simpl; eexists; (split; [reflexivity|]).
  - split; [|discriminate]. intros _.
    rewrite load_detection_history_eq.
    destruct f as [|[] c]; simpl; eauto.
  - split; [discriminate|done].
Qed.

(** C6, as stated, fails.  In a data directory that refuses the write the
    save of two results raises [IOError]; and onto a history file that
    can be written but not read the save succeeds and the next load
    returns the empty list, not the two entries. *)
Lemma save_then_load_not_always :
  save_detection_results "id-1" "2025-01-15 10:30:00" "fox.jpg"
    yellowstone_north [bare_result; named_result] (store_of [] false)
    = (Raise IOError, store_of [] false) ∧
  ∃ σ',
    save_detection_results "id-1" "2025-01-15 10:30:00" "fox.jpg"
      yellowstone_north [bare_result; named_result]
      (store_with false (Json (Log [])) true) = (Return (), σ') ∧
    load_detection_history σ' = (Return (Log []), σ').
Proof. split; [by vm_compute|]. eexists. split; by vm_compute. Qed.

(** C6, amended: in a data directory that accepts the write and whose
    history file is absent or can be read, let [h] be the log that a load
    returns.  Saving two results that have a species and a confidence
    succeeds, and the load that follows returns [h], unchanged, followed
    by the entry of the first result and then the entry of the second:
    the entries that hold, key by key, what [stored] says. *)
Theorem save_then_load_roundtrip (σ σ0 : store) (h : list dict)
    (id ts img : string) (loc r1 r2 : dict) :
  load_detection_history σ = (Return (Log h), σ0) →
  readable_store σ = true →
  write_ok σ = true →
  Forall (λ r : dict, is_Some (r !! "species") ∧ is_Some (r !! "confidence"))
    [r1; r2] →
  ∃ e1 e2 σ',
    save_detection_results id ts img loc [r1; r2] σ = (Return (), σ') ∧
    load_detection_history σ' = (Return (Log (h ++ [e1; e2])), σ') ∧
    (∀ k, e1 !! k = stored id ts img loc r1 k) ∧
    (∀ k, e2 !! k = stored id ts img loc r2 k).
Proof.
  intros Hload Hr Hw Hres.
  destruct (make_entries id ts img loc _ Hres) as [entries HF].
  destruct (save_detection_results_entries _ _ _ _ _ _ _ _ _ Hload Hw HF)
    as (σ' & Hsave & _ & Hload' & _).
  rewrite Hr in Hload'.
  apply Forall2_cons_inv_l in HF as (e1 & es & He1 & HF & ->).
  apply Forall2_cons_inv_l in HF as (e2 & es' & He2 & HF & ->).
  apply Forall2_nil_inv_l in HF as ->.
  exists e1, e2, σ'. split; [done|]. split; [done|].
  split; by apply make_entry_stored.
Qed.

(** The theorem at a log of one entry, for a record without descriptive
    fields followed by a record with a scientific name. *)
Lemma save_then_load_roundtrip_witness :
  load_detection_history (store_of [named_result] true)
    = (Return (Log [named_result]), store_of [named_result] true) ∧
  readable_store (store_of [named_result] true) = true ∧
  write_ok (store_of [named_result] true) = true ∧
  Forall (λ r : dict, is_Some (r !! "species") ∧ is_Some (r !! "confidence"))
    [bare_result; named_result] ∧
  ∃ e1 e2 σ',
    save_detection_results "id-1" "2025-01-15 10:30:00" "fox.jpg"
      yellowstone_north [bare_result; named_result]
      (store_of [named_result] true) = (Return (), σ') ∧
    load_detection_history σ'
      = (Return (Log ([named_result] ++ [e1; e2])), σ') ∧
    (∀ k, e1 !! k = stored "id-1" "2025-01-15 10:30:00" "fox.jpg"
                      yellowstone_north bare_result k) ∧
    (∀ k, e2 !! k = stored "id-1" "2025-01-15 10:30:00" "fox.jpg"
                      yellowstone_north named_result k).
Proof.
  assert (H1 : load_detection_history (store_of [named_result] true)
    = (Return (Log [named_result]), store_of [named_result] true))
    by reflexivity.
  assert (H2 : readable_store (store_of [named_result] true) = true)
    by reflexivity.
  assert (H3 : write_ok (store_of [named_result] true) = true)
    by reflexivity.
  assert (H4 : Forall (λ r : dict,
      is_Some (r !! "species") ∧ is_Some (r !! "confidence"))
      [bare_result; named_result]).
  { repeat constructor; eexists; vm_compute; reflexivity. }
  split; [exact H1|]. split; [exact H2|]. split; [exact H3|].
  split; [exact H4|].
  exact (save_then_load_roundtrip _ _ _ _ _ _ _ _ _ H1 H2 H3 H4).
Defined.

(** C10, as stated, fails: in a data directory that refuses the write,
    saving an empty list of results raises [IOError]. *)
Lemma save_nothing_unwritable :
  save_detection_results "id-1" "2025-01-15 10:30:00" "fox.jpg"
    yellowstone_north [] (store_of [bare_result] false)
  = (Raise IOError, store_of [bare_result] false).
Proof. vm_compute. reflexivity. Qed.

(** C10, amended: in a data directory that accepts the write and whose
    history file, if there is one, holds text, saving an empty list of
    results returns, and the load that follows returns what a load
    returned before the call. *)
Theorem save_nothing_keeps_log (σ : store) (id ts img : string) (loc : dict) :
  write_ok σ = true →
  history_file σ ≠ File true Undecodable →
  ∃ doc σ0 σ',
    load_detection_history σ = (Return doc, σ0) ∧
    save_detection_results id ts img loc [] σ = (Return (), σ') ∧
    load_detection_history σ' = (Return doc, σ').
Proof.
  intros Hw Htext.
  rewrite save_detection_results_eq, !load_detection_history_eq.
  destruct σ as [[|r c] ex w]; simpl in Hw; subst w; simpl.
  - eexists _, _, _. split; [done|]. split; [done|].
    by rewrite load_detection_history_eq.
  - destruct r, c as [| |doc]; try done;
      eexists _, _, _; (split; [done|]); unfold write_history; simpl;
      (split; [done|]); by rewrite load_detection_history_eq.
Qed.

(** The theorem at a writable data directory with a log of one entry. *)
Lemma save_nothing_keeps_log_witness :
  write_ok (store_of [bare_result] true) = true ∧
  history_file (store_of [bare_result] true) ≠ File true Undecodable ∧
  ∃ doc σ0 σ',
    load_detection_history (store_of [bare_result] true) = (Return doc, σ0) ∧
    save_detection_results "id-1" "2025-01-15 10:30:00" "fox.jpg"
      yellowstone_north [] (store_of [bare_result] true) = (Return (), σ') ∧
    load_detection_history σ' = (Return doc, σ').
Proof.
  assert (H1 : write_ok (store_of [bare_result] true) = true) by reflexivity.
  assert (H2 : history_file (store_of [bare_result] true)
               ≠ File true Undecodable) by discriminate.
  split; [exact H1|]. split; [exact H2|].
  exact (save_nothing_keeps_log _ _ _ _ _ H1 H2).
Defined.

(** C4, as stated, fails: the entry stored for a record that has a
    bounding box and no count carries a count (the default 1) and no
    bounding box, and with a location that has no coordinates its
    latitude is stored as null. *)
Lemma make_entry_not_field_for_field :
  ∃ σ' e,
    save_detection_results "id-1" "2025-01-15 10:30:00" "fox.jpg" ∅
      [bare_result] (store_of [] true) = (Return (), σ') ∧
    load_detection_history σ' = (Return (Log [e]), σ') ∧
    bare_result !! "count" = None ∧ e !! "count" = Some (VInt 1) ∧
    is_Some (bare_result !! "bounding_box") ∧ e !! "bounding_box" = None ∧
    e !! "latitude" = Some VNull.
Proof.
  eexists _, _. split; [by vm_compute|]. split; [by vm_compute|].
  repeat split; try (by vm_compute). eexists. by vm_compute.
Qed.

(** C4, amended: every list of results that have a species and a
    confidence is saved, whichever descriptive fields they lack, in a
    data directory that accepts the write and whose history file is
    absent or can be read and, if it holds a document, holds a list.  The
    reloaded log is the earlier one followed by one entry per result; the
    entry of a result holds, key by key, what [stored] says: each of the
    seven descriptive fields exactly when the result has it, with the
    value of the result; the nine core keys always, with the arguments of
    the call, the species and confidence of the result and its count, or
    1 when it has none; and no other key. *)
Theorem save_keeps_supplied_descriptive_fields (σ σ0 : store)
    (h : list dict) (id ts img : string) (loc : dict) (results : list dict) :
  load_detection_history σ = (Return (Log h), σ0) →
  readable_store σ = true →
  write_ok σ = true →
  Forall (λ r : dict, is_Some (r !! "species") ∧ is_Some (r !! "confidence"))
    results →
  ∃ entries σ',
    save_detection_results id ts img loc results σ = (Return (), σ') ∧
    load_detection_history σ' = (Return (Log (h ++ entries)), σ') ∧
    Forall2 (λ r e : dict,
        (∀ k, e !! k = stored id ts img loc r k) ∧
        (∀ k, k ∈ optional_fields → e !! k = r !! k) ∧
        (∀ k, is_Some (e !! k) ↔
              k ∈ core_fields ∨ (k ∈ optional_fields ∧ is_Some (r !! k))) ∧
        e !! "species" = r !! "species" ∧
        e !! "confidence" = r !! "confidence" ∧
        e !! "count" = Some (default (VInt 1) (r !! "count")) ∧
        (r !! "scientific_name" = None → e !! "scientific_name" = None))
      results entries.
Proof.
  intros Hload Hr Hw Hres.
  destruct (make_entries id ts img loc _ Hres) as [entries HF].
  destruct (save_detection_results_entries _ _ _ _ _ _ _ _ _ Hload Hw HF)
    as (σ' & Hsave & _ & Hload' & _).
  rewrite Hr in Hload'.
  exists entries, σ'. split; [done|]. split; [done|].
  eapply Forall2_impl; [exact HF|]. intros r e He. simpl.
  pose proof (make_entry_stored _ _ _ _ _ _ He) as Hst.
  split; [done|]. split; [|split; [|split; [|split; [|split]]]].
  - intros k Hk. by rewrite (make_entry_lookup _ _ _ _ _ _ k He), decide_True.
  - intros k. rewrite (make_entry_lookup _ _ _ _ _ _ k He).
    destruct (decide (k ∈ optional_fields)) as [Ho|Ho].
    + pose proof (optional_not_core _ Ho). tauto.
    + destruct (decide (k ∈ core_fields)).
      * split; [by left|by eexists].
      * split; [by intros [? ?]|tauto].
  - by rewrite Hst.
  - by rewrite Hst.
  - by rewrite Hst.
  - by rewrite (make_entry_lookup _ _ _ _ _ _ "scientific_name" He).
Qed.

(** The theorem at an empty log, for a record that lacks
    [scientific_name] and one that has it. *)
Lemma save_keeps_supplied_descriptive_fields_witness :
  load_detection_history (store_of [] true)
    = (Return (Log []), store_of [] true) ∧
  readable_store (store_of [] true) = true ∧
  write_ok (store_of [] true) = true ∧
  Forall (λ r : dict, is_Some (r !! "species") ∧ is_Some (r !! "confidence"))
    [bare_result; named_result] ∧
  ∃ entries σ',
    save_detection_results "id-1" "2025-01-15 10:30:00" "fox.jpg"
      yellowstone_north [bare_result; named_result] (store_of [] true)
      = (Return (), σ') ∧
    load_detection_history σ' = (Return (Log ([] ++ entries)), σ') ∧
    Forall2 (λ r e : dict,
        (∀ k, e !! k = stored "id-1" "2025-01-15 10:30:00" "fox.jpg"
                         yellowstone_north r k) ∧
        (∀ k, k ∈ optional_fields → e !! k = r !! k) ∧
        (∀ k, is_Some (e !! k) ↔
              k ∈ core_fields ∨ (k ∈ optional_fields ∧ is_Some (r !! k))) ∧
        e !! "species" = r !! "species" ∧
        e !! "confidence" = r !! "confidence" ∧
        e !! "count" = Some (default (VInt 1) (r !! "count")) ∧
        (r !! "scientific_name" = None → e !! "scientific_name" = None))
      [bare_result; named_result] entries.
Proof.
  assert (H1 : load_detection_history (store_of [] true)
    = (Return (Log []), store_of [] true)) by reflexivity.
  assert (H2 : readable_store (store_of [] true) = true) by reflexivity.
  assert (H3 : write_ok (store_of [] true) = true) by reflexivity.
  assert (H4 : Forall (λ r : dict,
      is_Some (r !! "species") ∧ is_Some (r !! "confidence"))
      [bare_result; named_result]).
  { repeat constructor; eexists; vm_compute; reflexivity. }
  split; [exact H1|]. split; [exact H2|]. split; [exact H3|].
  split; [exact H4|].
  exact (save_keeps_supplied_descriptive_fields _ _ _ _ _ _ _ _ H1 H2 H3 H4).
Defined.

(** ** From stored entries to frame rows *)

(** Settle the [decide]s of the goal whose proposition is closed. *)
Ltac decide_closed :=
  repeat match goal with
  | |- context [decide ?P] =>
    first
      [ rewrite (decide_True (P := P))
          by (apply (bool_decide_unpack _); vm_compute; exact I)
      | rewrite (decide_False (P := P))
          by (apply (bool_decide_unpack _); vm_compute; exact I) ]
  end.

(** The entry saved for a result of the documented types is read back as
    the frame row with the same fields. *)
Lemma to_event_make_entry id ts img (loc result e : dict) sp v q c t la lo n :
  make_entry id ts img loc result = Return e →
  result !! "species" = Some (VStr sp) →
  result !! "confidence" = Some v →
  as_confidence v = Some q →
  as_int (get result "count" (VInt 1)) = Some c →
  to_datetime ts = Some t →
  as_float_or_nan (loc !! "latitude") = Some la →
  as_float_or_nan (loc !! "longitude") = Some lo →
  as_str (get loc "location_name" (VStr "Unknown")) = Some n →
  to_event e =
    Some {| detection_id := Some id; timestamp := t; image_name := img;
            species := sp; confidence := q; count := c;
            latitude := la; longitude := lo; location_name := n |}.
Proof.
  intros He Hsp Hv Hcf Hc Ht Hla Hlo Hn.
  assert (Hnan : ∀ k, as_float_or_nan (Some (get loc k VNull))
                      = as_float_or_nan (loc !! k)).
  { intros k. unfold get. by destruct (loc !! k). }
  unfold to_event, cell.
  rewrite !(make_entry_lookup _ _ _ _ _ _ _ He), Hsp, Hv.
  decide_closed.
  cbn -[as_float_or_nan to_datetime as_confidence as_int].
  rewrite Ht. cbn -[as_float_or_nan to_datetime as_confidence as_int].
  rewrite Hcf. cbn -[as_float_or_nan to_datetime as_confidence as_int].
  rewrite Hc. cbn -[as_float_or_nan to_datetime as_confidence as_int].
  rewrite !Hnan, Hla, Hlo. simpl. by rewrite Hn.
Qed.

(** ** Key comparisons *)

Section cmp_facts.
Context {K : Type} (cmp : K → K → comparison) `{!CmpOrder cmp}.


Lemma cmp_eq_compat_r x y z : cmp x y = Eq → cmp z x = cmp z y.
Proof.
  intros H. rewrite (cmp_antisym cmp x z), (cmp_antisym cmp y z).
  f_equal. by apply cmp_eq_compat.
Qed.

Lemma cmp_gt_lt x y : cmp x y = Gt → cmp y x = Lt.
Proof. intros H. by rewrite (cmp_antisym cmp), H. Qed.
End cmp_facts.

Lemma string_compare_refl s : String.compare s s = Eq.
Proof.
  induction s as [|c s IH]; [done|]. simpl.
  unfold Ascii.compare. by rewrite N.compare_refl.
Qed.

Lemma string_compare_lt_trans s1 s2 s3 :
  String.compare s1 s2 = Lt → String.compare s2 s3 = Lt →
  String.compare s1 s3 = Lt.
Proof.
  revert s2 s3. induction s1 as [|c1 s1 IH]; intros [|c2 s2] [|c3 s3];
    simpl; try done.
  unfold Ascii.compare.
  destruct (N.compare_spec (N_of_ascii c1) (N_of_ascii c2)) as [E12|L12|G12];
    try done;
  destruct (N.compare_spec (N_of_ascii c2) (N_of_ascii c3)) as [E23|L23|G23];
    try done; intros H12 H23.
  - rewrite E12, E23, N.compare_refl. by eapply IH.
  - rewrite E12. by apply N.compare_lt_iff in L23 as ->.
  - rewrite <- E23. by apply N.compare_lt_iff in L12 as ->.
  - assert (N_of_ascii c1 < N_of_ascii c3)%N as ->%N.compare_lt_iff by lia.
    done.
Qed.

#[export] Instance string_compare_order : CmpOrder String.compare.
Proof.
  split.
  - apply string_compare_refl.
  - intros x y. apply String.compare_antisym.
  - by intros x y z ->%String.compare_eq_iff.
  - apply string_compare_lt_trans.
Qed.

#[export] Instance nat_compare_order : CmpOrder Nat.compare.
Proof.
  split.
  - apply Nat.compare_refl.
  - intros x y. apply Nat.compare_antisym.
  - by intros x y z ->%Nat.compare_eq.
  - intros x y z. rewrite !Nat.compare_lt_iff. lia.
Qed.

#[export] Instance Q_compare_order : CmpOrder Qcompare.
Proof.
  split.
  - intros x. by apply Qeq_alt.
  - intros x y. symmetry. apply Qcompare_antisym.
  - intros x y z H%Qeq_alt. by rewrite H.
  - intros x y z. rewrite <- !Qlt_alt. apply Qlt_trans.
Qed.

#[export] Instance cmp_pair_order {A B} (cmpA : A → A → comparison)
    (cmpB : B → B → comparison) `{!CmpOrder cmpA, !CmpOrder cmpB} :
  CmpOrder (cmp_pair cmpA cmpB).
Proof.
  split; unfold cmp_pair.
  - intros [a b]; simpl. by rewrite (cmp_refl cmpA), (cmp_refl cmpB).
  - intros [a1 b1] [a2 b2]; simpl.
    rewrite (cmp_antisym cmpA a1 a2), (cmp_antisym cmpB b1 b2).
    by destruct (cmpA a1 a2).
  - intros [a1 b1] [a2 b2] [a3 b3]; simpl.
    destruct (cmpA a1 a2) eqn:Ha; try done. intros Hb.
    by rewrite (cmp_eq_compat cmpA a1 a2 a3 Ha),
      (cmp_eq_compat cmpB b1 b2 b3 Hb).
  - intros [a1 b1] [a2 b2] [a3 b3]; simpl.
    destruct (cmpA a1 a2) eqn:H12; try done;
      destruct (cmpA a2 a3) eqn:H23; try done; intros Hb1 Hb2.
    + rewrite (cmp_eq_compat cmpA a1 a2 a3 H12), H23.
      by eapply (cmp_lt_trans cmpB).
    + by rewrite (cmp_eq_compat cmpA a1 a2 a3 H12), H23.
    + by rewrite <- (cmp_eq_compat_r cmpA a2 a3 a1 H23), H12.
    + by rewrite (cmp_lt_trans cmpA _ _ _ H12 H23).
Qed.

#[export] Instance date_compare_order : CmpOrder date_compare.
Proof. unfold date_compare. apply _. Qed.

#[export] Instance location_compare_order : CmpOrder location_compare.
Proof. unfold location_compare. apply _. Qed.

#[export] Instance coordinates_compare_order : CmpOrder coordinates_compare.
Proof. unfold coordinates_compare. apply _. Qed.

(** ** Grouping *)

Section groupby_facts.
Context {K A : Type} (cmp : K → K → comparison) `{!CmpOrder cmp}.
Context (key : A → option K).

Implicit Types (k : K) (a : A) (g : list A) (gs : list (K * list A)).

Lemma group_insert_below k0 k a gs :
  cmp k0 k = Lt →
  Forall (λ x, cmp k0 x.1 = Lt) gs →
  Forall (λ x, cmp k0 x.1 = Lt) (group_insert cmp k a gs).
Proof.
  intros Hk. induction 1 as [|[k' g] gs Hk' Hgs IH]; simpl.
  - by constructor.
  - destruct (cmp k k').
    + by constructor.
    + constructor; [done|]. by constructor.
    + by constructor.
Qed.

Lemma group_insert_sorted k a gs :
  StronglySorted (key_lt cmp) gs →
  StronglySorted (key_lt cmp) (group_insert cmp k a gs).
Proof.
  induction 1 as [|[k' g] gs Hs IH Hall]; simpl.
  - constructor; [constructor|constructor].
  - destruct (cmp k k') eqn:Hc.
    + by constructor.
    + constructor; [by constructor|]. constructor; [done|].
      eapply Forall_impl; [exact Hall|]. intros x Hx.
      by eapply (cmp_lt_trans cmp).
    + constructor; [done|].
      apply group_insert_below; [by apply cmp_gt_lt|done].
Qed.

Lemma group_insert_nonempty k a gs :
  Forall (λ x, x.2 ≠ []) gs →
  Forall (λ x, x.2 ≠ []) (group_insert cmp k a gs).
Proof.
  induction 1 as [|[k' g] gs Hg Hgs IH]; simpl.
  - by constructor.
  - destruct (cmp k k').
    + constructor; [|done]. simpl. by destruct g.
    + constructor; [done|]. by constructor.
    + by constructor.
Qed.

Lemma find_group_below k gs :
  Forall (λ x, cmp k x.1 = Lt) gs → find_group cmp k gs = [].
Proof.
  induction 1 as [|[k' g] gs Hk _ IH]; simpl; [done|].
  simpl in Hk. by rewrite (cmp_antisym cmp k k'), Hk.
Qed.

Lemma find_group_insert k0 k a gs :
  StronglySorted (key_lt cmp) gs →
  find_group cmp k0 (group_insert cmp k a gs) =
  find_group cmp k0 gs ++
    match cmp k k0 with Eq => [a] | _ => [] end.
Proof.
  induction 1 as [|[k' g] gs Hs IH Hall]; simpl.
  - by destruct (cmp k k0).
  - destruct (cmp k k') eqn:Hc; simpl.
    + rewrite (cmp_eq_compat cmp k k' k0 Hc).
      destruct (cmp k' k0); by rewrite ?app_nil_r.
    + destruct (cmp k k0) eqn:Hc0.
      * assert (Hlt : cmp k0 k' = Lt).
        { by rewrite <- (cmp_eq_compat cmp k k0 k' Hc0). }
        rewrite (cmp_antisym cmp k0 k'), Hlt; simpl.
        rewrite find_group_below; [done|].
        eapply Forall_impl; [exact Hall|]. intros x Hx.
        by eapply (cmp_lt_trans cmp).
      * by rewrite app_nil_r.
      * by rewrite app_nil_r.
    + destruct (cmp k' k0) eqn:Hc0.
      * rewrite (cmp_eq_compat_r cmp k' k0 k Hc0) in Hc.
        by rewrite Hc, app_nil_r.
      * apply IH.
      * apply IH.
Qed.

Lemma find_group_elem k g gs :
  StronglySorted (key_lt cmp) gs → (k, g) ∈ gs → find_group cmp k gs = g.
Proof.
  induction 1 as [|[k' g'] gs Hs IH Hall]; simpl.
  - by intros ?%elem_of_nil.
  - intros [[= -> ->]|Hin]%elem_of_cons.
    + by rewrite (cmp_refl cmp).
    + rewrite Forall_forall in Hall.
      rewrite (Hall _ Hin : cmp k' k = Lt). by apply IH.
Qed.

Lemma find_group_cons_inv k a g gs :
  find_group cmp k gs = a :: g →
  ∃ k', (k', a :: g) ∈ gs ∧ cmp k' k = Eq.
Proof.
  induction gs as [|[k' g'] gs IH]; simpl; [done|].
  destruct (cmp k' k) eqn:Hc.
  - intros ->. exists k'. split; [apply elem_of_cons; by left|done].
  - intros (k'' & Hin & Hk)%IH. exists k''. split; [|done].
    apply elem_of_cons. by right.
  - intros (k'' & Hin & Hk)%IH. exists k''. split; [|done].
    apply elem_of_cons. by right.
Qed.

Lemma rows_of_snoc k df a :
  rows_of cmp key k (df ++ [a]) =
  rows_of cmp key k df ++ if has_key cmp key k a then [a] else [].
Proof.
  unfold rows_of. rewrite filter_app. f_equal.
  rewrite filter_cons, filter_nil.
  destruct (has_key cmp key k a); by case_decide.
Qed.

Lemma groupby_snoc df a :
  groupby cmp key (df ++ [a]) =
  match key a with
  | Some k => group_insert cmp k a (groupby cmp key df)
  | None => groupby cmp key df
  end.
Proof. unfold groupby. by rewrite foldl_snoc. Qed.

(** The invariant of the loop over the rows. *)
Lemma groupby_invariant df :
  StronglySorted (key_lt cmp) (groupby cmp key df) ∧
  Forall (λ x, x.2 ≠ []) (groupby cmp key df) ∧
  ∀ k, find_group cmp k (groupby cmp key df) = rows_of cmp key k df.
Proof.
  induction df as [|a df (Hs & Hne & Hfind)] using rev_ind.
  - split; [constructor|]. split; [constructor|done].
  - rewrite groupby_snoc. destruct (key a) as [k|] eqn:Hk.
    + split; [by apply group_insert_sorted|].
      split; [by apply group_insert_nonempty|].
      intros k0. rewrite find_group_insert, Hfind, rows_of_snoc by done.
      unfold has_key. rewrite Hk. by destruct (cmp k k0).
    + split; [done|]. split; [done|].
      intros k0. rewrite Hfind, rows_of_snoc.
      unfold has_key. by rewrite Hk, app_nil_r.
Qed.

(** The groups come in strictly increasing key order. *)
Lemma groupby_sorted df : StronglySorted (key_lt cmp) (groupby cmp key df).
Proof. apply groupby_invariant. Qed.

(** A group holds exactly the rows of its key, and at least one. *)
Lemma groupby_group df k g :
  (k, g) ∈ groupby cmp key df → g = rows_of cmp key k df ∧ g ≠ [].
Proof.
  intros Hin. destruct (groupby_invariant df) as (Hs & Hne & Hfind). split.
  - by rewrite <- Hfind, (find_group_elem k g _ Hs Hin).
  - rewrite Forall_forall in Hne. apply (Hne _ Hin).
Qed.

(** Every row with a key is in the group of its key. *)
Lemma groupby_complete df a k :
  a ∈ df → key a = Some k →
  ∃ k' g, (k', g) ∈ groupby cmp key df ∧ cmp k' k = Eq ∧ a ∈ g.
Proof.
  intros Hin Hk. destruct (groupby_invariant df) as (Hs & Hne & Hfind).
  assert (Ha : a ∈ rows_of cmp key k df).
  { apply list_elem_of_filter. split; [|done].
    unfold has_key. by rewrite Hk, (cmp_refl cmp). }
  rewrite <- Hfind in Ha.
  destruct (find_group cmp k (groupby cmp key df)) as [|a' g] eqn:Hg.
  - by apply elem_of_nil in Ha.
  - apply find_group_cons_inv in Hg as (k' & Hin' & Hc). eauto.
Qed.

(** No two groups have the same key. *)
Lemma groupby_keys_NoDup df : NoDup (groupby cmp key df).*1.
Proof.
  pose proof (groupby_sorted df) as Hs.
  induction Hs as [|[k g] gs Hs IH Hall]; [constructor|].
  rewrite fmap_cons. constructor; [|done]. simpl.
  intros ([k' g'] & -> & Hin)%list_elem_of_fmap.
  rewrite Forall_forall in Hall. specialize (Hall _ Hin).
  unfold key_lt in Hall; simpl in Hall.
  by rewrite (cmp_refl cmp) in Hall.
Qed.
End groupby_facts.

(** ** Aggregates *)

Lemma wrap64_add_l (a b : Z) : wrap64 (wrap64 a + b) = wrap64 (a + b).
Proof.
  unfold wrap64. f_equal.
  replace ((a + 2 ^ 63) mod 2 ^ 64 - 2 ^ 63 + b + 2 ^ 63)
    with ((a + 2 ^ 63) mod 2 ^ 64 + b) by lia.
  rewrite Zplus_mod_idemp_l. f_equal. lia.
Qed.

(** ["sum"] is the exact sum brought into the [int64] range. *)
Lemma agg_sum_wrap (col : list Z) : agg_sum col = wrap64 (total col).
Proof.
  unfold agg_sum. change 0 with (wrap64 0) at 1.
  rewrite <- (Z.add_0_l (total col)). generalize 0 as a.
  induction col as [|x col IH]; intros a; simpl.
  - by rewrite Z.add_0_r.
  - rewrite wrap64_add_l, IH. f_equal. lia.
Qed.

(** A sum of the [int64] range is exact. *)
Lemma wrap64_int64 (z : Z) : int64 z = true → wrap64 z = z.
Proof.
  unfold int64, wrap64. intros [H1 H2]%andb_prop.
  apply Z.leb_le in H1. apply Z.ltb_lt in H2.
  rewrite Z.mod_small; lia.
Qed.

Lemma wrap64_wrap64 (z : Z) : wrap64 (wrap64 z) = wrap64 z.
Proof.
  apply wrap64_int64. unfold int64, wrap64.
  pose proof (Z.mod_pos_bound (z + 2 ^ 63) (2 ^ 64) ltac:(lia)).
  apply andb_true_intro. split; [apply Z.leb_le|apply Z.ltb_lt]; lia.
Qed.

Lemma total_app (l1 l2 : list Z) : total (l1 ++ l2) = total l1 + total l2.
Proof. unfold total. induction l1; simpl; lia. Qed.

Lemma total_Permutation (l l' : list Z) : l ≡ₚ l' → total l = total l'.
Proof. unfold total. induction 1; simpl; lia. Qed.

Lemma agg_sum_Permutation (l l' : list Z) : l ≡ₚ l' → agg_sum l = agg_sum l'.
Proof. intros Hl. by rewrite !agg_sum_wrap, (total_Permutation _ _ Hl). Qed.

(** ["count"] is the number of rows with a cell. *)
Lemma agg_count_filter {A B} (f : A → option B) (l : list A) :
  agg_count (f <$> l) = length (filter (λ a, is_Some (f a)) l).
Proof.
  unfold agg_count. induction l as [|a l IH]; [done|]. csimpl.
  destruct (f a) eqn:Hf; simpl.
  - rewrite filter_cons_True by (by rewrite Hf). simpl. by rewrite IH.
  - rewrite filter_cons_False by (rewrite Hf; by intros [? ?]). done.
Qed.

Lemma filter_Forall {A} (P : A → Prop) `{!∀ x, Decision (P x)} (l : list A) :
  Forall P l → filter P l = l.
Proof.
  induction 1 as [|x l Hx _ IH]; [done|].
  by rewrite filter_cons_True, IH.
Qed.

(** ["nunique"] is the number of distinct values of the column. *)
Lemma agg_nunique_distinct `{Countable A} (col : list A) :
  agg_nunique col = size (list_to_set (C := gset A) col).
Proof.
  unfold agg_nunique.
  rewrite <- (size_list_to_set (C := gset A)) by apply NoDup_remove_dups.
  f_equal. apply set_eq. intros x.
  by rewrite !elem_of_list_to_set, elem_of_remove_dups.
Qed.

Lemma agg_nunique_Permutation `{Countable A} (l l' : list A) :
  l ≡ₚ l' → agg_nunique l = agg_nunique l'.
Proof.
  intros Hl. rewrite !agg_nunique_distinct. f_equal. apply set_eq. intros x.
  by rewrite !elem_of_list_to_set, Hl.
Qed.

(** ** The species summary *)

Lemma species_has_key s e :
  has_key String.compare (λ e, Some (species e)) s e = true ↔ species e = s.
Proof.
  unfold has_key. destruct (String.compare (species e) s) eqn:Hc.
  - by apply String.compare_eq_iff in Hc.
  - split; [done|]. intros He. by rewrite He, string_compare_refl in Hc.
  - split; [done|]. intros He. by rewrite He, string_compare_refl in Hc.
Qed.

Lemma species_rows_of s df :
  rows_of String.compare (λ e, Some (species e)) s df =
  filter (λ e, species e = s) df.
Proof.
  unfold rows_of. apply list_filter_iff. intros e.
  rewrite <- species_has_key. by destruct (has_key _ _ s e).
Qed.







(** ** The detection timeline *)

Lemma date_compare_eq_iff (d1 d2 : date) : date_compare d1 d2 = Eq ↔ d1 = d2.
Proof.
  destruct d1 as [[y1 m1] d1], d2 as [[y2 m2] d2].
  unfold date_compare, cmp_pair; simpl. split.
  - destruct (Nat.compare_spec y1 y2); try done.
    destruct (Nat.compare_spec m1 m2); try done.
    destruct (Nat.compare_spec d1 d2); try done. by subst.
  - intros [= -> -> ->]. by rewrite !Nat.compare_refl.
Qed.

Lemma date_rows_of d df :
  rows_of date_compare (λ e, Some (date_of (timestamp e))) d df =
  filter (λ e, date_of (timestamp e) = d) df.
Proof.
  unfold rows_of. apply list_filter_iff. intros e. unfold has_key.
  pose proof (date_compare_eq_iff (date_of (timestamp e)) d) as Hd.
  destruct (date_compare (date_of (timestamp e)) d); simpl;
    (split; [intros H|intros H%Hd]; try done; by apply Hd).
Qed.

Lemma timeline_summary_elem r df :
  r ∈ timeline_summary df ↔
  ∃ d, filter (λ e, date_of (timestamp e) = d) df ≠ [] ∧
       r = let rows := filter (λ e, date_of (timestamp e) = d) df in
           {| tl_date := d;
              tl_species_count := agg_nunique (species <$> rows);
              tl_total_detections := agg_sum (count <$> rows);
              tl_images := agg_nunique (image_name <$> rows) |}.
Proof.
  set (key := λ e : DetectionEvent, Some (date_of (timestamp e))).
  unfold timeline_summary. rewrite list_elem_of_fmap. split.
  - intros ([k g] & -> & Hin).
    apply (groupby_group date_compare key) in Hin as [-> Hne].
    unfold key in *. rewrite date_rows_of in *. by exists k.
  - intros (d & Hne & ->).
    destruct (filter _ df) as [|e g] eqn:Hg; [done|]. clear Hne.
    assert (He : e ∈ filter (λ e, date_of (timestamp e) = d) df)
      by (rewrite Hg; apply elem_of_cons; by left).
    apply list_elem_of_filter in He as [Hd He].
    destruct (groupby_complete date_compare key df e d He)
      as (k & g' & Hin & ->%date_compare_eq_iff & _).
    { unfold key. by rewrite Hd. }
    exists (d, g'). split; [|done].
    apply (groupby_group date_compare key) in Hin as [-> _].
    unfold key. by rewrite date_rows_of, Hg.
Qed.

Lemma timeline_summary_sorted df :
  StronglySorted (λ r1 r2, date_compare (tl_date r1) (tl_date r2) = Lt)
    (timeline_summary df).
Proof.
  unfold timeline_summary.
  apply (StronglySorted_fmap _ (key_lt date_compare)).
  - by intros [k1 g1] [k2 g2].
  - apply (groupby_sorted date_compare
             (λ e : DetectionEvent, Some (date_of (timestamp e)))).
Qed.

Lemma timeline_summary_NoDup df : NoDup (timeline_summary df).
Proof.
  pose proof (timeline_summary_sorted df) as Hs.
  induction Hs as [|r l Hs IH Hall]; constructor; [|done].
  intros Hin. rewrite Forall_forall in Hall. specialize (Hall _ Hin).
  simpl in Hall. by rewrite (cmp_refl date_compare) in Hall.
Qed.

(** The timeline does not depend on the order of the log. *)
Lemma timeline_summary_Permutation df df' :
  df ≡ₚ df' → timeline_summary df = timeline_summary df'.
Proof.
  intros Hp.
  apply (StronglySorted_unique_strong
           (λ r1 r2, date_compare (tl_date r1) (tl_date r2) = Lt)).
  - intros r1 r2 _ _ H12 H21.
    by rewrite (cmp_antisym date_compare), H12 in H21.
  - apply timeline_summary_sorted.
  - apply timeline_summary_sorted.
  - apply NoDup_Permutation; [apply timeline_summary_NoDup..|].
    intros r. rewrite !timeline_summary_elem.
    assert (Hf : ∀ d, filter (λ e, date_of (timestamp e) = d) df
                      ≡ₚ filter (λ e, date_of (timestamp e) = d) df')
      by (intros d; by rewrite Hp).
    split; intros (d & Hne & ->); exists d; simpl.
    + split.
      * intros Hnil. apply Hne. apply Permutation_nil.
        by rewrite <- Hnil, (Hf d).
      * f_equal; [apply agg_nunique_Permutation|apply agg_sum_Permutation
                 |apply agg_nunique_Permutation]; by rewrite (Hf d).
    + split.
      * intros Hnil. apply Hne. apply Permutation_nil.
        by rewrite <- Hnil, (Hf d).
      * f_equal; [apply agg_nunique_Permutation|apply agg_sum_Permutation
                 |apply agg_nunique_Permutation]; by rewrite (Hf d).
Qed.

(** C8, as stated, fails: two entries of one day whose counts add up to
    [2 ^ 63] are reported with the total [- 2 ^ 63]. *)
Lemma timeline_total_wraps :
  ∃ df r, DataFrame overflow_entries = Some df ∧
          timeline_summary df = [r] ∧
          tl_date r = (2025, 1, 15)%nat ∧
          tl_total_detections r = - 2 ^ 63 ∧
          total (count <$> df) = 2 ^ 63.
Proof. eexists _, _. split; [vm_compute; reflexivity|]. by vm_compute. Qed.

(** C8, amended: the timeline has one row for each calendar date on which
    an event of the log was recorded and no other; the row of a date
    reports the number of distinct species, the sum of the counts brought
    into the [int64] range, which is the sum when the sum lies in that
    range, and the number of distinct image names of the events of that
    date; the rows come in strictly increasing date order and are the
    same for every order of the log, so the log that stores 2 January
    before 1 January gives 1 January first. *)
Theorem timeline_summary_correct (df : list DetectionEvent) :
  (∀ d, (∃ r, r ∈ timeline_summary df ∧ tl_date r = d) ↔
        (∃ e, e ∈ df ∧ date_of (timestamp e) = d)) ∧
  (∀ r, r ∈ timeline_summary df →
     let rows := filter (λ e, date_of (timestamp e) = tl_date r) df in
     tl_species_count r = size (list_to_set (C := gset string) (species <$> rows)) ∧
     tl_total_detections r = wrap64 (total (count <$> rows)) ∧
     (int64 (total (count <$> rows)) = true →
        tl_total_detections r = total (count <$> rows)) ∧
     tl_images r = size (list_to_set (C := gset string) (image_name <$> rows))) ∧
  StronglySorted (λ r1 r2, date_compare (tl_date r1) (tl_date r2) = Lt)
    (timeline_summary df) ∧
  (∀ df', df' ≡ₚ df → timeline_summary df' = timeline_summary df) ∧
  tl_date <$> timeline_summary late_then_early = [(2025, 1, 1); (2025, 1, 2)]%nat ∧
  tl_date <$> timeline_summary (reverse late_then_early)
    = [(2025, 1, 1); (2025, 1, 2)]%nat.
Proof.
  set (key := λ e : DetectionEvent, Some (date_of (timestamp e))).
  split; [|split; [|split; [|split; [|split]]]].
  - intros d. split.
    + intros (r & Hr & <-). unfold timeline_summary in Hr.
      apply list_elem_of_fmap in Hr as ([k g] & -> & Hin).
      apply (groupby_group date_compare key) in Hin as [-> Hne]. simpl.
      unfold key in Hne |- *. rewrite date_rows_of in Hne.
      destruct (filter _ df) as [|e g] eqn:Hg; [done|].
      assert (He : e ∈ filter (λ e, date_of (timestamp e) = k) df)
        by (rewrite Hg; apply elem_of_cons; by left).
      apply list_elem_of_filter in He as [He ?]. eauto.
    + intros (e & He & <-).
      destruct (groupby_complete date_compare key df e _ He eq_refl)
        as (k & g & Hin & Hk%date_compare_eq_iff & _).
      eexists. split.
      * unfold timeline_summary. apply list_elem_of_fmap.
        exists (k, g). split; [reflexivity|exact Hin].
      * done.
  - intros r Hr. unfold timeline_summary in Hr.
    apply list_elem_of_fmap in Hr as ([k g] & -> & Hin).
    apply (groupby_group date_compare key) in Hin as [-> _]. simpl.
    unfold key. rewrite date_rows_of, <- !agg_nunique_distinct, agg_sum_wrap.
    split; [done|]. split; [done|]. split; [|done].
    by intros ?%wrap64_int64.
  - apply timeline_summary_sorted.
  - intros df'. apply timeline_summary_Permutation.
  - by vm_compute.
  - by vm_compute.
Qed.

(** ** The location summaries *)


(** ** The location summaries *)

Lemma Qcompare_eq_iff (x y : Q) : (x ?= y)%Q = Eq ↔ (x == y)%Q.
Proof. symmetry. apply Qeq_alt. Qed.

Lemma location_has_key k e :
  has_key location_compare location_key k e = true ↔
  at_location k.1.1 k.1.2 k.2 e.
Proof.
  destruct k as [[n la] lo]. unfold has_key, location_key, at_location; simpl.
  destruct (latitude e) as [la'|], (longitude e) as [lo'|];
    try (split; [done|by intros (_ & ? & ? & ? & ? & _)]).
  unfold location_compare, cmp_pair; simpl.
  pose proof (String.compare_eq_iff (location_name e) n) as Hn.
  pose proof (string_compare_refl n) as Hn'.
  pose proof (Qcompare_eq_iff la' la) as Hla.
  pose proof (Qcompare_eq_iff lo' lo) as Hlo.
  split.
  - destruct (String.compare (location_name e) n); try done.
    destruct (la' ?= la)%Q; try done.
    destruct (lo' ?= lo)%Q; try done.
    intros _. split; [by apply Hn|]. exists la', lo'. tauto.
  - intros (-> & ? & ? & [= <-] & [= <-] & Ha%Hla & Ho%Hlo).
    by rewrite Hn', Ha, Ho.
Qed.





(** ** The export *)


(** ** The export *)

Lemma filter_all {A} (P : A → Prop) `{!∀ x, Decision (P x)} (l : list A) :
  (∀ x, P x) → filter P l = l.
Proof.
  intros HP. induction l as [|x l IH]; [done|].
  by rewrite filter_cons, decide_True, IH.
Qed.

(** Filtering the frame on its datetime column keeps the index labels of
    the entries whose timestamp passes the filter. *)
Lemma filter_datetime_column (p : datetime → bool) (h : list dict) col :
  Forall2 (λ d t, row_datetime d = Some t) h col →
  ∀ ix : list nat,
  (filter (λ r : nat * datetime, p r.2) (zip ix col)).*1 =
  (filter (λ x : nat * dict, from_option p false (row_datetime x.2))
     (zip ix h)).*1.
Proof.
  induction 1 as [|d t h col Hd _ IH]; intros [|i ix]; try done.
  change (zip (i :: ix) (t :: col)) with ((i, t) :: zip ix col).
  change (zip (i :: ix) (d :: h)) with ((i, d) :: zip ix h).
  rewrite !filter_cons. cbn [snd]. rewrite Hd. cbn [from_option].
  destruct (p t); simpl.
  - f_equal. apply IH.
  - apply IH.
Qed.

Lemma export_index_eq (start_date end_date : option bound)
    (h : list dict) col :
  Forall2 (λ d t, row_datetime d = Some t) h col →
  (let df := zip (seq 0 (length h)) col in
   let df := match start_date with
             | Some s => filter (λ r, datetime_le (Timestamp s) r.2) df
             | None => df
             end in
   let df := match end_date with
             | Some e =>
               filter (λ r : nat * datetime, datetime_le r.2 (Timestamp e)) df
             | None => df
             end in
   df.*1)
  = positions (row_within (Timestamp <$> start_date) (Timestamp <$> end_date))
      h.
Proof.
  intros HF. simpl.
  set (ps := λ t, match start_date with
                  | Some s => datetime_le (Timestamp s) t | None => true end).
  set (pe := λ t, match end_date with
                  | Some e => datetime_le t (Timestamp e) | None => true end).
  transitivity
    ((filter (λ r : nat * datetime, pe r.2)
        (filter (λ r : nat * datetime, ps r.2)
           (zip (seq 0 (length h)) col))).*1).
  { unfold ps, pe. destruct start_date, end_date; simpl;
      rewrite ?(filter_all (λ _ : nat * datetime, True)) by done; done. }
  rewrite list_filter_filter.
  rewrite (list_filter_iff _ (λ r : nat * datetime, ps r.2 && pe r.2)).
  2:{ intros r. rewrite andb_True. tauto. }
  rewrite (filter_datetime_column (λ t, ps t && pe t) h col HF).
  unfold positions. f_equal. apply list_filter_iff. intros [i d].
  unfold row_within, within, ps, pe. simpl.
  by destruct (row_datetime d), start_date, end_date.
Qed.

(** An export of a log without entries, or of another document that
    Python takes for false, writes nothing. *)
Lemma export_detection_data_empty start_date end_date format now dir
    σ σ0 doc :
  load_detection_history σ = (Return doc, σ0) →
  truth doc = false →
  export_detection_data start_date end_date format now dir σ = (Return None, σ0).
Proof.
  intros Hload Ht. unfold export_detection_data, mbind, M_bind.
  by rewrite Hload, Ht.
Qed.

Lemma export_detection_data_written start_date end_date format now dir
    σ σ0 (h : list dict) col :
  load_detection_history σ = (Return (Log h), σ0) →
  h ≠ [] →
  mapM row_datetime h = Some col →
  write_ok σ = true →
  export_detection_data start_date end_date format now dir σ =
  (Return (Some (export_path format now dir)),
   add_export (export_path format now dir)
     {| ex_format := export_kind format;
        ex_frame := h;
        ex_index := positions (row_within (Timestamp <$> start_date)
                                 (Timestamp <$> end_date)) h |} σ0).
Proof.
  intros Hload Hne Hcol Hw.
  assert (Hw0 : write_ok σ0 = true).
  { apply load_detection_history_Return in Hload as (_ & _ & -> & _). done. }
  pose proof (export_index_eq start_date end_date h col
                (proj1 (mapM_Some _ _ _) Hcol)) as Hrows. simpl in Hrows.
  unfold export_detection_data, mbind, M_bind. rewrite Hload.
  destruct h as [|d h]; [done|].
  cbn [truth negb].
  unfold column_to_datetime. rewrite Hcol. unfold mret, M_ret.
  rewrite Hrows. unfold export_path, export_kind, write_export.
  destruct (bool_decide (lower format = "csv")); by rewrite Hw0.
Qed.

Lemma datetime_le_refl t : datetime_le t t = true.
Proof.
  unfold datetime_le, datetime_compare.
  by rewrite (cmp_refl (cmp_pair date_compare date_compare)).
Qed.

(** The positions that [positions] lists. *)
Lemma positions_elem (p : dict → bool) (h : list dict) (i : nat) :
  i ∈ positions p h ↔ ∃ d, h !! i = Some d ∧ p d = true.
Proof.
  unfold positions. rewrite list_elem_of_fmap. split.
  - intros ([j d] & -> & [Hp Hin]%list_elem_of_filter). simpl in *.
    apply list_elem_of_lookup in Hin as [n Hn].
    apply lookup_zip_Some in Hn as [Hj Hd].
    apply lookup_seq in Hj as [-> _]. simpl.
    exists d. split; [done|]. by apply Is_true_true.
  - intros (d & Hd & Hp). exists (i, d). split; [done|].
    apply list_elem_of_filter. split; [simpl; by apply Is_true_true|].
    apply list_elem_of_lookup. exists i. apply lookup_zip_Some.
    split; [|done]. apply lookup_seq. split; [done|].
    by apply lookup_lt_Some in Hd.
Qed.

(** They come in log order, each once. *)
Lemma positions_sorted (p : dict → bool) (h : list dict) :
  StronglySorted lt (positions p h).
Proof.
  unfold positions. generalize 0%nat as n.
  induction h as [|d h IH]; intros n; [constructor|].
  change (zip (seq n (length (d :: h))) (d :: h))
    with ((n, d) :: zip (seq (S n) (length h)) h).
  assert (Hlt : Forall (lt n)
    (filter (λ x : nat * dict, p x.2) (zip (seq (S n) (length h)) h)).*1).
  { apply Forall_forall. intros i ([j d'] & -> & [_ Hin]%list_elem_of_filter)
      %list_elem_of_fmap. simpl.
    apply list_elem_of_lookup in Hin as [m Hm].
    apply lookup_zip_Some in Hm as [Hj _].
    apply lookup_seq in Hj as [-> _]. lia. }
  rewrite filter_cons. destruct (decide _); [|apply IH].
  rewrite fmap_cons. constructor; [apply IH|done].
Qed.

(** Every position of a log passes the filter that keeps everything. *)
Lemma positions_all (p : dict → bool) (h : list dict) :
  Forall (λ d, p d = true) h → positions p h = seq 0 (length h).
Proof.
  intros Hall. unfold positions. rewrite filter_Forall.
  - apply fst_zip. by rewrite length_seq.
  - apply Forall_forall. intros [i d] Hin. simpl.
    apply list_elem_of_lookup in Hin as [m Hm].
    apply lookup_zip_Some in Hm as [_ Hd].
    rewrite Forall_forall in Hall. apply Is_true_true, Hall.
    by eapply list_elem_of_lookup_2.
Qed.

(** A calendar date as a lower bound admits the whole day; as an upper
    bound it admits the days before and, of the day itself, midnight. *)
Lemma date_bound_lower (s : date) (t : datetime) :
  datetime_le (Timestamp (Date s)) t = true ↔ date_compare s (date_of t) ≠ Gt.
Proof.
  unfold datetime_le, datetime_compare, cmp_pair. simpl.
  destruct s as [[y m] d]. simpl.
  change (date_of {| year := y; month := m; day := d;
                     hour := 0; minute := 0; second := 0 |}) with (y, m, d).
  destruct (date_compare (y, m, d) (date_of t)); try done.
  split; [done|]. intros _.
  unfold time_of, date_compare, cmp_pair. simpl.
  by destruct (hour t), (minute t), (second t).
Qed.

Lemma date_bound_upper (e : date) (t : datetime) :
  datetime_le t (Timestamp (Date e)) = true ↔
  date_compare (date_of t) e = Lt ∨
  (date_of t = e ∧ time_of t = (0, 0, 0)%nat).
Proof.
  unfold datetime_le, datetime_compare, cmp_pair. simpl.
  destruct e as [[y m] d]. simpl.
  change (date_of {| year := y; month := m; day := d;
                     hour := 0; minute := 0; second := 0 |}) with (y, m, d).
  pose proof (date_compare_eq_iff (date_of t) (y, m, d)) as Heq.
  destruct (date_compare (date_of t) (y, m, d)).
  - assert (Hd : date_of t = (y, m, d)) by (by apply Heq).
    unfold time_of, date_compare, cmp_pair. simpl.
    destruct (hour t) as [|?], (minute t) as [|?], (second t) as [|?];
      simpl; split; try done; try (by right); try (by intros [?|[_ [=]]]).
  - split; [by left|done].
  - split; [done|]. intros [?|[Hd _]]; [done|]. by apply Heq in Hd.
Qed.

(** C3, as stated, fails: for a log whose only event is of 1 January 2025
    and the range 1 to 28 February 2025, the export returns a path and
    writes a file without rows. *)
Lemma export_of_empty_selection_returns_path :
  ∃ σ' x,
    export_detection_data (Some (Date (2025, 2, 1)%nat))
      (Some (Date (2025, 2, 28)%nat)) "csv" (at_time 2025 3 1 9 0 0) "data"
      (store_of [entry_at "2025-01-01 12:00:00"] true)
    = (Return (Some "data/detection_export_20250301_090000.csv"), σ') ∧
    exports σ' !! "data/detection_export_20250301_090000.csv" = Some x ∧
    ex_frame x = [entry_at "2025-01-01 12:00:00"] ∧
    ex_index x = [].
Proof.
  exists (add_export "data/detection_export_20250301_090000.csv"
            {| ex_format := CSV;
               ex_frame := [entry_at "2025-01-01 12:00:00"];
               ex_index := [] |}
            (store_of [entry_at "2025-01-01 12:00:00"] true)).
  eexists. split; [vm_compute; reflexivity|].
  split; [apply lookup_insert_eq|]. split; reflexivity.
Qed.

(** C3, amended.  Whenever the load of the log returns an empty log, or
    another document that Python takes for false, the export returns no
    path, writes no file and does not raise.  Whenever the load returns a
    log that is not empty, whose timestamps are in the application's
    format, in a data directory that accepts the write, the export
    returns a path and writes a file there, also when no event is
    selected: the file then has no rows. *)
Theorem export_returns_no_path_for_empty_log :
  (∀ (σ σ0 : store) (doc : document) (start_date end_date : option bound)
     (format : string) (now : datetime) (output_dir : string),
     load_detection_history σ = (Return doc, σ0) →
     truth doc = false →
     export_detection_data start_date end_date format now output_dir σ
       = (Return None, σ0) ∧
     exports σ0 = exports σ) ∧
  (∀ (σ σ0 : store) (h : list dict) (start_date end_date : option bound)
     (format : string) (now : datetime) (output_dir : string),
     load_detection_history σ = (Return (Log h), σ0) →
     h ≠ [] →
     is_Some (mapM row_datetime h) →
     write_ok σ = true →
     ∃ path σ' x,
       export_detection_data start_date end_date format now output_dir σ
         = (Return (Some path), σ') ∧
       exports σ' !! path = Some x ∧
       ex_frame x = h ∧
       ex_index x = positions (row_within (Timestamp <$> start_date)
                                 (Timestamp <$> end_date)) h).
Proof.
  split.
  - intros σ σ0 doc start_date end_date format now output_dir Hload Ht.
    split; [by apply (export_detection_data_empty _ _ _ _ _ _ _ doc)|].
    by apply load_detection_history_Return in Hload as (_ & -> & _).
  - intros σ σ0 h start_date end_date format now output_dir
      Hload Hne [col Hcol] Hw.
    eexists _, _, _. split.
    + by eapply export_detection_data_written.
    + split; [apply lookup_insert_eq|done].
Qed.

(** The theorem at the empty log, and at the log of one event of
    1 January 2025 with the range 1 to 28 February 2025. *)
Lemma export_returns_no_path_for_empty_log_witness :
  (export_detection_data (Some (Date (2025, 2, 1)%nat))
     (Some (Date (2025, 2, 28)%nat)) "csv" (at_time 2025 3 1 9 0 0) "data"
     (store_of [] true) = (Return None, store_of [] true) ∧
   exports (store_of [] true) = exports (store_of [] true)) ∧
  ∃ path σ' x,
    export_detection_data (Some (Date (2025, 2, 1)%nat))
      (Some (Date (2025, 2, 28)%nat)) "csv" (at_time 2025 3 1 9 0 0) "data"
      (store_of [entry_at "2025-01-01 12:00:00"] true)
      = (Return (Some path), σ') ∧
    exports σ' !! path = Some x ∧
    ex_frame x = [entry_at "2025-01-01 12:00:00"] ∧
    ex_index x
      = positions (row_within (Timestamp <$> Some (Date (2025, 2, 1)%nat))
                     (Timestamp <$> Some (Date (2025, 2, 28)%nat)))
          [entry_at "2025-01-01 12:00:00"].
Proof.
  assert (H1 : load_detection_history (store_of [] true)
                 = (Return (Log []), store_of [] true)) by reflexivity.
  assert (H2 : truth (Log []) = false) by reflexivity.
  assert (H3 : load_detection_history
                 (store_of [entry_at "2025-01-01 12:00:00"] true)
               = (Return (Log [entry_at "2025-01-01 12:00:00"]),
                  store_of [entry_at "2025-01-01 12:00:00"] true))
    by reflexivity.
  assert (H4 : [entry_at "2025-01-01 12:00:00"] ≠ []) by discriminate.
  assert (H5 : is_Some (mapM row_datetime [entry_at "2025-01-01 12:00:00"]))
    by (eexists; vm_compute; reflexivity).
  assert (H6 : write_ok (store_of [entry_at "2025-01-01 12:00:00"] true)
               = true) by reflexivity.
  split.
  - exact (proj1 export_returns_no_path_for_empty_log _ _ _ _ _ _ _ _ H1 H2).
  - exact (proj2 export_returns_no_path_for_empty_log _ _ _ _ _ _ _ _
             H3 H4 H5 H6).
Defined.

(** C7, as stated, fails.  With the range 10 to 31 January 2025 given as
    calendar dates, an event of 31 January 2025 at noon, whose date lies
    within the range, is not exported; and in a data directory that
    refuses the write the export raises [IOError]. *)
Lemma export_end_date_is_its_midnight :
  (∃ σ' x,
     export_detection_data (Some (Date (2025, 1, 10)%nat))
       (Some (Date (2025, 1, 31)%nat)) "csv" (at_time 2025 3 1 9 0 0) "data"
       (store_of [entry_at "2025-01-31 12:00:00"] true)
     = (Return (Some "data/detection_export_20250301_090000.csv"), σ') ∧
     exports σ' !! "data/detection_export_20250301_090000.csv" = Some x ∧
     ex_index x = [] ∧
     (date_of <$> row_datetime (entry_at "2025-01-31 12:00:00"))
       = Some (2025, 1, 31)%nat ∧
     date_within (2025, 1, 10)%nat (2025, 1, 31)%nat (2025, 1, 31)%nat
       = true) ∧
  export_detection_data (Some (Date (2025, 1, 10)%nat))
    (Some (Date (2025, 1, 31)%nat)) "csv" (at_time 2025 3 1 9 0 0) "data"
    (store_of winter_log false)
  = (Raise IOError, store_of winter_log false).
Proof.
  split; [|vm_compute; reflexivity].
  exists (add_export "data/detection_export_20250301_090000.csv"
            {| ex_format := CSV;
               ex_frame := [entry_at "2025-01-31 12:00:00"];
               ex_index := [] |}
            (store_of [entry_at "2025-01-31 12:00:00"] true)).
  eexists. split; [vm_compute; reflexivity|].
  split; [apply lookup_insert_eq|].
  split; [reflexivity|]. split; vm_compute; reflexivity.
Qed.

(** C7, amended.  For a log that loads, with timestamps in the
    application's format, in a data directory that accepts the write, the
    export of an empty log returns no path, and the export of any other
    log writes the rows of the frame of the log at exactly the positions,
    in log order and each once, of the entries whose timestamp is not
    before the instant of [start_date] and not after the instant of
    [end_date], a missing bound excluding nothing and a timestamp equal
    to a bound being kept.  The instant of a bound given as a calendar
    date is its midnight: as [start_date] it admits the whole day, as
    [end_date] the days before it and, of the day itself, midnight only.
    Of the entries of 1 January, 15 January and 1 February 2025, the
    range 10 to 31 January keeps the one of 15 January alone. *)
Theorem export_keeps_events_in_range (σ σ0 : store) (h : list dict)
    (start_date end_date : option bound) (format : string)
    (now : datetime) (output_dir : string) :
  load_detection_history σ = (Return (Log h), σ0) →
  is_Some (mapM row_datetime h) →
  write_ok σ = true →
  ((h = [] ∧
    export_detection_data start_date end_date format now output_dir σ
      = (Return None, σ0)) ∨
   (∃ path σ' x,
     export_detection_data start_date end_date format now output_dir σ
       = (Return (Some path), σ') ∧
     exports σ' !! path = Some x ∧
     ex_frame x = h ∧
     ex_index x = positions (row_within (Timestamp <$> start_date)
                               (Timestamp <$> end_date)) h ∧
     StronglySorted lt (ex_index x) ∧
     ∀ i, i ∈ ex_index x ↔
          ∃ d t, h !! i = Some d ∧ row_datetime d = Some t ∧
            (∀ s, start_date = Some s → datetime_le (Timestamp s) t = true) ∧
            (∀ e, end_date = Some e → datetime_le t (Timestamp e) = true))) ∧
  (∀ t, within None None t = true ∧ within (Some t) (Some t) t = true) ∧
  (∀ s t, datetime_le (Timestamp (Date s)) t = true ↔
          date_compare s (date_of t) ≠ Gt) ∧
  (∀ e t, datetime_le t (Timestamp (Date e)) = true ↔
          date_compare (date_of t) e = Lt ∨
          (date_of t = e ∧ time_of t = (0, 0, 0)%nat)) ∧
  positions (row_within (Some (Timestamp (Date (2025, 1, 10)%nat)))
               (Some (Timestamp (Date (2025, 1, 31)%nat)))) winter_log
    = [1%nat] ∧
  winter_log !! 1%nat = Some (entry_at "2025-01-15 12:00:00").
Proof.
  intros Hload [col Hcol] Hw.
  split; [|split; [|split; [|split; [|split]]]].
  - destruct (decide (h = [])) as [->|Hne].
    { left. split; [done|].
      by apply (export_detection_data_empty _ _ _ _ _ _ _ (Log [])). }
    right. eexists _, _, _.
    split; [by eapply export_detection_data_written|].
    split; [apply lookup_insert_eq|]. split; [done|]. split; [done|].
    split; [apply positions_sorted|]. simpl.
    intros i. rewrite positions_elem. unfold row_within, within.
    split.
    + intros (d & Hd & Hp). exists d.
      destruct (row_datetime d) as [t|]; [|done].
      exists t. split; [done|]. split; [done|].
      apply andb_prop in Hp as [Hs He].
      split; intros ? ->; done.
    + intros (d & t & Hd & Ht & Hs & He). exists d. split; [done|].
      rewrite Ht. apply andb_true_intro. split.
      * destruct start_date as [s|]; [|done]. by apply Hs.
      * destruct end_date as [e|]; [|done]. by apply He.
  - intros t. unfold within. by rewrite datetime_le_refl.
  - apply date_bound_lower.
  - apply date_bound_upper.
  - by vm_compute.
  - reflexivity.
Qed.

(** The theorem at the three winter entries and the range 10 to
    31 January 2025: the file written holds the row at position 1, the
    entry of 15 January. *)
Lemma export_keeps_events_in_range_witness :
  load_detection_history (store_of winter_log true)
    = (Return (Log winter_log), store_of winter_log true) ∧
  is_Some (mapM row_datetime winter_log) ∧
  write_ok (store_of winter_log true) = true ∧
  (∃ σ' x,
     export_detection_data (Some (Date (2025, 1, 10)%nat))
       (Some (Date (2025, 1, 31)%nat)) "csv" (at_time 2025 3 1 9 0 0) "data"
       (store_of winter_log true)
     = (Return (Some "data/detection_export_20250301_090000.csv"), σ') ∧
     exports σ' !! "data/detection_export_20250301_090000.csv" = Some x ∧
     ex_frame x = winter_log ∧ ex_index x = [1%nat]) ∧
  ((winter_log = [] ∧
    export_detection_data (Some (Date (2025, 1, 10)%nat))
      (Some (Date (2025, 1, 31)%nat)) "csv" (at_time 2025 3 1 9 0 0) "data"
      (store_of winter_log true)
      = (Return None, store_of winter_log true)) ∨
   (∃ path σ' x,
     export_detection_data (Some (Date (2025, 1, 10)%nat))
       (Some (Date (2025, 1, 31)%nat)) "csv" (at_time 2025 3 1 9 0 0) "data"
       (store_of winter_log true)
       = (Return (Some path), σ') ∧
     exports σ' !! path = Some x ∧
     ex_frame x = winter_log ∧
     ex_index x
       = positions (row_within (Timestamp <$> Some (Date (2025, 1, 10)%nat))
                      (Timestamp <$> Some (Date (2025, 1, 31)%nat)))
           winter_log ∧
     StronglySorted lt (ex_index x) ∧
     ∀ i, i ∈ ex_index x ↔
          ∃ d t, winter_log !! i = Some d ∧ row_datetime d = Some t ∧
            (∀ s, Some (Date (2025, 1, 10)%nat) = Some s →
                  datetime_le (Timestamp s) t = true) ∧
            (∀ e, Some (Date (2025, 1, 31)%nat) = Some e →
                  datetime_le t (Timestamp e) = true))) ∧
  (∀ t, within None None t = true ∧ within (Some t) (Some t) t = true) ∧
  (∀ s t, datetime_le (Timestamp (Date s)) t = true ↔
          date_compare s (date_of t) ≠ Gt) ∧
  (∀ e t, datetime_le t (Timestamp (Date e)) = true ↔
          date_compare (date_of t) e = Lt ∨
          (date_of t = e ∧ time_of t = (0, 0, 0)%nat)) ∧
  positions (row_within (Some (Timestamp (Date (2025, 1, 10)%nat)))
               (Some (Timestamp (Date (2025, 1, 31)%nat)))) winter_log
    = [1%nat] ∧
  winter_log !! 1%nat = Some (entry_at "2025-01-15 12:00:00").
Proof.
  assert (H1 : load_detection_history (store_of winter_log true)
                 = (Return (Log winter_log), store_of winter_log true))
    by reflexivity.
  assert (H3 : is_Some (mapM row_datetime winter_log))
    by (eexists; vm_compute; reflexivity).
  assert (H4 : write_ok (store_of winter_log true) = true) by reflexivity.
  split; [exact H1|]. split; [exact H3|]. split; [exact H4|].
  split.
  { exists (add_export "data/detection_export_20250301_090000.csv"
              {| ex_format := CSV; ex_frame := winter_log;
                 ex_index := [1%nat] |}
              (store_of winter_log true)).
    eexists. split; [vm_compute; reflexivity|].
    split; [apply lookup_insert_eq|]. split; reflexivity. }
  exact (export_keeps_events_in_range (store_of winter_log true)
           (store_of winter_log true) winter_log
           (Some (Date (2025, 1, 10)%nat)) (Some (Date (2025, 1, 31)%nat))
           "csv" (at_time 2025 3 1 9 0 0) "data" H1 H3 H4).
Defined.

(** * Further properties of the store and the reports *)

(** ** Saving *)

(** The loop stops at the first result without a species or a
    confidence, with the [KeyError] of the key that is looked up first. *)
Lemma append_results_KeyError id ts img loc (complete : list dict)
    (r : dict) (rest : list dict) (history : list dict) :
  Forall (λ r : dict, is_Some (r !! "species") ∧ is_Some (r !! "confidence"))
    complete →
  r !! "species" = None ∨ r !! "confidence" = None →
  append_results id ts img loc (complete ++ r :: rest) (Log history)
  = Raise (KeyError (match r !! "species" with
                      | Some _ => "confidence"
                      | None => "species"
                      end)).
Proof.
  intros Hall Hr. revert history.
  induction Hall as [|c complete [[sp Hsp] [cf Hcf]] _ IH]; intros history.
  - simpl. rewrite make_entry_eq.
    destruct (r !! "species") as [sp|]; [|done].
    destruct (r !! "confidence") as [cf|]; [|done].
    by destruct Hr.
  - simpl. rewrite make_entry_eq, Hsp, Hcf. simpl. apply IH.
Qed.

(** X1: a batch of results in which some result has no species or no
    confidence is refused as a whole: the save raises the [KeyError] of
    the first such result, for the key species when it has no species
    and for the key confidence otherwise, and writes nothing, so the log
    is the one loaded before, also for the results of the batch that
    were complete. *)
Theorem save_refuses_whole_batch (σ σ0 : store) (h : list dict)
    (id ts img : string) (loc : dict) (complete : list dict) (r : dict)
    (rest : list dict) :
  load_detection_history σ = (Return (Log h), σ0) →
  Forall (λ r : dict, is_Some (r !! "species") ∧ is_Some (r !! "confidence"))
    complete →
  r !! "species" = None ∨ r !! "confidence" = None →
  save_detection_results id ts img loc (complete ++ r :: rest) σ
    = (Raise (KeyError (match r !! "species" with
                      | Some _ => "confidence"
                      | None => "species"
                      end)),
       σ0) ∧
  load_detection_history σ0 = (Return (Log h), σ0).
Proof.
  intros Hload Hall Hr. split.
  - by rewrite save_detection_results_eq, Hload,
      (append_results_KeyError _ _ _ _ _ _ _ _ Hall Hr).
  - by apply load_detection_history_Return in Hload as [? _].
Qed.

(** The theorem at a log of one entry, for a complete record followed by
    one without species, and for one followed by a record without
    confidence. *)
Lemma save_refuses_whole_batch_witness :
  load_detection_history (store_of [named_result] true)
    = (Return (Log [named_result]), store_of [named_result] true) ∧
  Forall (λ r : dict, is_Some (r !! "species") ∧ is_Some (r !! "confidence"))
    [bare_result] ∧
  (yellowstone_north !! "species" = None ∨
   yellowstone_north !! "confidence" = None) ∧
  (save_detection_results "id-1" "2025-01-15 10:30:00" "fox.jpg"
     yellowstone_north ([bare_result] ++ yellowstone_north :: [named_result])
     (store_of [named_result] true)
   = (Raise (KeyError "species"), store_of [named_result] true) ∧
   load_detection_history (store_of [named_result] true)
   = (Return (Log [named_result]), store_of [named_result] true)) ∧
  save_detection_results "id-1" "2025-01-15 10:30:00" "fox.jpg"
    yellowstone_north
    ([bare_result] ++ {[ "species" := VStr "elk" ]} :: [named_result])
    (store_of [named_result] true)
  = (Raise (KeyError "confidence"), store_of [named_result] true).
Proof.
  assert (H1 : load_detection_history (store_of [named_result] true)
    = (Return (Log [named_result]), store_of [named_result] true))
    by reflexivity.
  assert (H2 : Forall (λ r : dict,
      is_Some (r !! "species") ∧ is_Some (r !! "confidence")) [bare_result]).
  { repeat constructor; eexists; vm_compute; reflexivity. }
  assert (H3 : yellowstone_north !! "species" = None ∨
               yellowstone_north !! "confidence" = None)
    by (left; vm_compute; reflexivity).
  assert (H4 : ({[ "species" := VStr "elk" ]} : dict) !! "species" = None ∨
               ({[ "species" := VStr "elk" ]} : dict) !! "confidence" = None)
    by (right; vm_compute; reflexivity).
  split; [exact H1|]. split; [exact H2|]. split; [exact H3|].
  split.
  - exact (save_refuses_whole_batch _ _ _ "id-1" "2025-01-15 10:30:00"
             "fox.jpg" yellowstone_north _ _ [named_result] H1 H2 H3).
  - exact (proj1 (save_refuses_whole_batch _ _ _ "id-1" "2025-01-15 10:30:00"
             "fox.jpg" yellowstone_north _ _ [named_result] H1 H2 H4)).
Defined.

Lemma append_results_app id ts img loc (rs1 rs2 : list dict) history :
  append_results id ts img loc (rs1 ++ rs2) history =
  match append_results id ts img loc rs1 history with
  | Return history' => append_results id ts img loc rs2 history'
  | Raise e => Raise e
  end.
Proof.
  revert history. induction rs1 as [|r rs1 IH]; intros history; [done|].
  simpl. destruct (make_entry id ts img loc r); [done|].
  destruct (append history a); [done|]. apply IH.
Qed.

(** X2: when the history file is absent or can be read, two saves of one
    analysis run that both succeed leave the store that the single save
    of the two lists of results, one after the other, leaves. *)
Theorem save_twice_is_save_of_both (σ σ1 σ2 : store) (id ts img : string)
    (loc : dict) (rs1 rs2 : list dict) :
  readable_store σ = true →
  save_detection_results id ts img loc rs1 σ = (Return (), σ1) →
  save_detection_results id ts img loc rs2 σ1 = (Return (), σ2) →
  save_detection_results id ts img loc (rs1 ++ rs2) σ = (Return (), σ2).
Proof.
  intros Hr. rewrite !save_detection_results_eq.
  destruct (load_detection_history σ) as [[e|doc] σ0] eqn:Hload; [done|].
  apply load_detection_history_Return in Hload as (_ & _ & _ & Hr0 & _).
  rewrite Hr in Hr0. rewrite append_results_app.
  destruct (append_results id ts img loc rs1 doc) as [|doc1]; [done|].
  intros Hw. apply load_after_write in Hw as H1. destruct H1 as [H1 _].
  rewrite Hr0 in H1. rewrite H1.
  destruct (append_results id ts img loc rs2 doc1) as [|doc2]; [done|].
  unfold write_history in *.
  destruct (write_ok σ0) eqn:Hw0; [|done]. injection Hw as <-. simpl.
  rewrite Hw0. intros [= <-]. f_equal. unfold set_history_file. simpl.
  by destruct (history_file σ0).
Qed.

(** The theorem at an empty log, for one record and then another. *)
Lemma save_twice_is_save_of_both_witness :
  ∃ σ1 σ2,
    readable_store (store_of [] true) = true ∧
    save_detection_results "id-1" "2025-01-15 10:30:00" "fox.jpg"
      yellowstone_north [bare_result] (store_of [] true) = (Return (), σ1) ∧
    save_detection_results "id-1" "2025-01-15 10:30:00" "fox.jpg"
      yellowstone_north [named_result] σ1 = (Return (), σ2) ∧
    save_detection_results "id-1" "2025-01-15 10:30:00" "fox.jpg"
      yellowstone_north ([bare_result] ++ [named_result]) (store_of [] true)
      = (Return (), σ2).
Proof.
  eexists _, _.
  assert (H1 : readable_store (store_of [] true) = true) by reflexivity.
  split; [exact H1|].
  assert (H2 : save_detection_results "id-1" "2025-01-15 10:30:00" "fox.jpg"
      yellowstone_north [bare_result] (store_of [] true)
      = (Return (), snd (save_detection_results "id-1" "2025-01-15 10:30:00"
           "fox.jpg" yellowstone_north [bare_result] (store_of [] true))))
    by (vm_compute; reflexivity).
  split; [exact H2|].
  assert (H3 : save_detection_results "id-1" "2025-01-15 10:30:00" "fox.jpg"
      yellowstone_north [named_result]
      (snd (save_detection_results "id-1" "2025-01-15 10:30:00"
           "fox.jpg" yellowstone_north [bare_result] (store_of [] true)))
      = (Return (), snd (save_detection_results "id-1" "2025-01-15 10:30:00"
           "fox.jpg" yellowstone_north [named_result]
           (snd (save_detection_results "id-1" "2025-01-15 10:30:00"
              "fox.jpg" yellowstone_north [bare_result] (store_of [] true))))))
    by (vm_compute; reflexivity).
  split; [exact H3|].
  exact (save_twice_is_save_of_both _ _ _ _ _ _ _ _ _ H1 H2 H3).
Defined.

(** ** The frame after a save *)

(** X3.  The frame after a save: in a data directory that accepts the
    write, whose history file is absent or can be read and whose loaded
    log is read as the frame [df], the save of results of the documented
    types succeeds and the log that is loaded next is read as [df]
    followed by one row per result, in order, with the identifier,
    instant, image name and location of the call, the species and
    confidence of the result, and its count, 1 when it has none. *)
Theorem frame_after_save id ts img (loc : dict) results
    (typed : list (string * Q * Z)) σ σ0 h df t la lo n :
  load_detection_history σ = (Return (Log h), σ0) →
  readable_store σ = true → write_ok σ = true →
  DataFrame h = Some df →
  to_datetime ts = Some t →
  as_float_or_nan (loc !! "latitude") = Some la →
  as_float_or_nan (loc !! "longitude") = Some lo →
  as_str (get loc "location_name" (VStr "Unknown")) = Some n →
  Forall2 (λ (r : dict) x,
             r !! "species" = Some (VStr x.1.1) ∧
             (∃ v, r !! "confidence" = Some v ∧
                   as_confidence v = Some x.1.2) ∧
             as_int (get r "count" (VInt 1)) = Some x.2) results typed →
  ∃ σ' history,
    save_detection_results id ts img loc results σ = (Return (), σ') ∧
    load_detection_history σ' = (Return (Log history), σ') ∧
    DataFrame history =
      Some (df ++ ((λ x, {| detection_id := Some id; timestamp := t;
                            image_name := img; species := x.1.1;
                            confidence := x.1.2; count := x.2;
                            latitude := la; longitude := lo;
                            location_name := n |}) <$> typed)).
Proof.
  intros Hload Hr Hw Hdf Ht Hla Hlo Hn HF.
  set (row := λ x : string * Q * Z, _).
  assert (∃ entries,
    Forall2 (λ r e, make_entry id ts img loc r = Return e) results entries ∧
    Forall2 (λ e x, to_event e = Some (row x)) entries typed)
    as (entries & HE & HT).
  { induction HF
      as [|r x results typed (Hs & (v & Hv & Hc) & Hi) _ (entries & HE & HT)].
    - exists []. split; constructor.
    - destruct (make_entry_Return id ts img loc r) as [e He]; [by eexists..|].
      exists (e :: entries). split; [by constructor|].
      constructor; [|done].
      apply (to_event_make_entry _ _ _ _ _ _ _ _ _ _ _ _ _ _ He Hs Hv Hc Hi
               Ht Hla Hlo Hn). }
  destruct (save_detection_results_entries _ _ _ _ _ _ _ _ _ Hload Hw HE)
    as (σ' & Hsave & _ & Hload' & _).
  rewrite Hr in Hload'.
  exists σ', (h ++ entries).
  split; [done|]. split; [done|].
  unfold DataFrame in *. apply mapM_Some. apply mapM_Some in Hdf.
  apply Forall2_app; [done|].
  apply Forall2_fmap_r. done.
Qed.

(** The theorem at a data directory without history file, for a record
    without count saved with a location without coordinates or name: the
    count is 1, the coordinates are missing and the site is Unknown. *)
Lemma frame_after_save_witness :
  load_detection_history (fresh_store true)
    = (Return (Log []), store_of [] true) ∧
  readable_store (fresh_store true) = true ∧
  write_ok (fresh_store true) = true ∧
  DataFrame [] = Some [] ∧
  to_datetime "2025-01-15 10:30:00" = Some (at_time 2025 1 15 10 30 0) ∧
  as_float_or_nan ((∅ : dict) !! "latitude") = Some None ∧
  as_float_or_nan ((∅ : dict) !! "longitude") = Some None ∧
  as_str (get ∅ "location_name" (VStr "Unknown")) = Some "Unknown" ∧
  Forall2 (λ (r : dict) (x : string * Q * Z),
             r !! "species" = Some (VStr x.1.1) ∧
             (∃ v, r !! "confidence" = Some v ∧
                   as_confidence v = Some x.1.2) ∧
             as_int (get r "count" (VInt 1)) = Some x.2)
    [bare_result] [("red fox", round64 (9 # 10), 1)] ∧
  ∃ σ' history,
    save_detection_results "id-1" "2025-01-15 10:30:00" "fox.jpg" ∅
      [bare_result] (fresh_store true) = (Return (), σ') ∧
    load_detection_history σ' = (Return (Log history), σ') ∧
    DataFrame history =
      Some ([] ++ ((λ x : string * Q * Z,
                    {| detection_id := Some "id-1";
                       timestamp := at_time 2025 1 15 10 30 0;
                       image_name := "fox.jpg"; species := x.1.1;
                       confidence := x.1.2; count := x.2;
                       latitude := None; longitude := None;
                       location_name := "Unknown" |})
                   <$> [("red fox", round64 (9 # 10), 1)])).
Proof.
  assert (H0 : load_detection_history (fresh_store true)
    = (Return (Log []), store_of [] true)) by reflexivity.
  assert (H1 : readable_store (fresh_store true) = true) by reflexivity.
  assert (H2 : write_ok (fresh_store true) = true) by reflexivity.
  assert (H3 : DataFrame [] = Some []) by reflexivity.
  assert (H4 : to_datetime "2025-01-15 10:30:00"
               = Some (at_time 2025 1 15 10 30 0))
    by (vm_compute; reflexivity).
  assert (H5 : as_float_or_nan ((∅ : dict) !! "latitude") = Some None)
    by reflexivity.
  assert (H6 : as_float_or_nan ((∅ : dict) !! "longitude") = Some None)
    by reflexivity.
  assert (H7 : as_str (get ∅ "location_name" (VStr "Unknown"))
               = Some "Unknown") by reflexivity.
  assert (H8 : Forall2 (λ (r : dict) (x : string * Q * Z),
             r !! "species" = Some (VStr x.1.1) ∧
             (∃ v, r !! "confidence" = Some v ∧
                   as_confidence v = Some x.1.2) ∧
             as_int (get r "count" (VInt 1)) = Some x.2)
    [bare_result] [("red fox", round64 (9 # 10), 1)]).
  { constructor; [|constructor].
    split; [vm_compute; reflexivity|].
    split; [|vm_compute; reflexivity].
    exists (VFloat (9 # 10)). split; vm_compute; reflexivity. }
  split; [exact H0|]. split; [exact H1|]. split; [exact H2|].
  split; [exact H3|].
  split; [exact H4|]. split; [exact H5|]. split; [exact H6|].
  split; [exact H7|]. split; [exact H8|].
  exact (frame_after_save _ _ _ _ _ _ _ _ _ _ _ _ _ _
           H0 H1 H2 H3 H4 H5 H6 H7 H8).
Defined.

(** ** Totals of the reports *)

Section groupby_totals.
Context {K A : Type} (cmp : K → K → comparison) (key : A → option K).

Lemma group_insert_rows (k : K) (a : A) gs :
  concat (group_insert cmp k a gs).*2 ≡ₚ a :: concat gs.*2.
Proof.
  induction gs as [|[k' g] gs IH]; simpl; [done|].
  destruct (cmp k k'); simpl.
  - rewrite <- app_assoc. simpl. symmetry. apply Permutation_middle.
  - done.
  - rewrite IH. symmetry. apply Permutation_middle.
Qed.

(** The groups share out the rows that have a key. *)
Lemma groupby_rows df :
  concat (groupby cmp key df).*2 ≡ₚ filter (λ a, is_Some (key a)) df.
Proof.
  induction df as [|a df IH] using rev_ind; [done|].
  rewrite groupby_snoc, filter_app, filter_cons, filter_nil.
  destruct (key a) as [k|] eqn:Hk.
  - rewrite decide_True by (by eexists).
    rewrite group_insert_rows, IH. by rewrite <- Permutation_cons_append.
  - rewrite decide_False by (by intros [? ?]).
    by rewrite app_nil_r.
Qed.
End groupby_totals.

Lemma wrap64_add_r (a b : Z) : wrap64 (a + wrap64 b) = wrap64 (a + b).
Proof. by rewrite Z.add_comm, wrap64_add_l, Z.add_comm. Qed.

Lemma total_nonneg (l : list Z) : Forall (Z.le 0) l → 0 ≤ total l.
Proof. unfold total. induction 1; simpl; lia. Qed.

(** The [int64] sum of the group totals is the [int64] sum of the rows
    of the groups. *)
Lemma agg_sum_groups {K R} (f : K * list DetectionEvent → R) (tot : R → Z)
    (gs : list (K * list DetectionEvent)) :
  (∀ x, tot (f x) = agg_sum (count <$> x.2)) →
  agg_sum (tot <$> (f <$> gs)) = agg_sum (count <$> concat gs.*2).
Proof.
  intros Hf. rewrite !agg_sum_wrap.
  induction gs as [|[k g] gs IH]; [done|].
  rewrite !fmap_cons. cbn [concat snd].
  rewrite fmap_app, total_app. pose proof (Hf (k, g)) as Hkg.
  simpl in Hkg. change (total (?a :: ?l)) with (a + total l).
  rewrite Hkg, agg_sum_wrap, wrap64_add_l.
  by rewrite <- wrap64_add_r, IH, wrap64_add_r.
Qed.

(** When no count is negative and the sum of all counts is in the
    [int64] range, no sum wraps and the group totals add up exactly. *)
Lemma total_groups {K R} (f : K * list DetectionEvent → R) (tot : R → Z)
    (gs : list (K * list DetectionEvent)) :
  (∀ x, tot (f x) = agg_sum (count <$> x.2)) →
  Forall (λ e, 0 ≤ count e) (concat gs.*2) →
  int64 (total (count <$> concat gs.*2)) = true →
  total (tot <$> (f <$> gs)) = total (count <$> concat gs.*2).
Proof.
  intros Hf. induction gs as [|[k g] gs IH]; [done|].
  rewrite !fmap_cons. cbn [concat snd].
  rewrite fmap_app, total_app, Forall_app. intros [Hg Hgs] Hsum.
  assert (H1 : 0 ≤ total (count <$> g)).
  { apply total_nonneg, Forall_fmap. by eapply Forall_impl. }
  assert (H2 : 0 ≤ total (count <$> concat gs.*2)).
  { apply total_nonneg, Forall_fmap. by eapply Forall_impl. }
  unfold int64 in Hsum. apply andb_prop in Hsum as [_ Hlt%Z.ltb_lt].
  pose proof (Hf (k, g)) as Hkg. simpl in Hkg.
  change (total (?a :: ?l)) with (a + total l).
  rewrite Hkg, agg_sum_wrap, wrap64_int64, IH; [done|done|..].
  - unfold int64. apply andb_true_intro.
    split; [apply Z.leb_le|apply Z.ltb_lt]; lia.
  - unfold int64. apply andb_true_intro.
    split; [apply Z.leb_le|apply Z.ltb_lt]; lia.
Qed.

(** The report of a frame adds up to the sum of the counts of the rows
    that have a key, as an [int64] sum and, when nothing wraps,
    exactly. *)
Lemma report_totals {K R} (cmp : K → K → comparison)
    (key : DetectionEvent → option K) (f : K * list DetectionEvent → R)
    (tot : R → Z) (df : list DetectionEvent) :
  (∀ x, tot (f x) = agg_sum (count <$> x.2)) →
  let keyed := filter (λ e, is_Some (key e)) df in
  agg_sum (tot <$> (f <$> groupby cmp key df)) = agg_sum (count <$> keyed) ∧
  (Forall (λ e, 0 ≤ count e) df →
   int64 (total (count <$> keyed)) = true →
   total (tot <$> (f <$> groupby cmp key df)) = total (count <$> keyed)).
Proof.
  intros Hf keyed.
  pose proof (groupby_rows cmp key df) as Hrows. fold keyed in Hrows.
  split.
  - rewrite agg_sum_groups by done.
    apply agg_sum_Permutation. by rewrite Hrows.
  - intros Hpos Hsum.
    assert (Hp : total (count <$> concat (groupby cmp key df).*2)
                 = total (count <$> keyed))
      by (apply total_Permutation; by rewrite Hrows).
    rewrite <- Hp.
    apply total_groups; [done| |by rewrite Hp].
    rewrite Hrows. unfold keyed. apply Forall_forall.
    intros e [_ He]%list_elem_of_filter.
    rewrite Forall_forall in Hpos. by apply Hpos.
Qed.

Lemma count_groups {K R} (f : K * list DetectionEvent → R) (number : R → nat)
    (gs : list (K * list DetectionEvent)) :
  (∀ x, number (f x) = agg_count (detection_id <$> x.2)) →
  sum_list (number <$> (f <$> gs))
  = length (filter (λ e, is_Some (detection_id e)) (concat gs.*2)).
Proof.
  intros Hf. induction gs as [|[k g] gs IH]; [done|].
  rewrite !fmap_cons. cbn [concat snd].
  rewrite filter_app, length_app, <- IH. pose proof (Hf (k, g)) as Hkg.
  simpl in Hkg. simpl. by rewrite Hkg, agg_count_filter.
Qed.

(** X4: the species summary shares out the log.  Its total counts add up
    to the sum of the counts of the log, as [int64] sums and, when no
    count is negative and the sum is in the [int64] range, exactly; its
    detection events add up to the number of events with a
    [detection_id]; and it has as many rows as the log has distinct
    species: the figures Total Animal Detections and Total Species
    Detected of the dashboard. *)
Theorem species_summary_totals (df : list DetectionEvent) :
  agg_sum (sp_total_count <$> species_summary df) = agg_sum (count <$> df) ∧
  (Forall (λ e, 0 ≤ count e) df → int64 (total (count <$> df)) = true →
   total (sp_total_count <$> species_summary df) = total (count <$> df)) ∧
  sum_list (sp_detections <$> species_summary df)
    = length (filter (λ e, is_Some (detection_id e)) df) ∧
  length (species_summary df) = agg_nunique (species <$> df).
Proof.
  set (key := λ e : DetectionEvent, Some (species e)).
  pose proof (groupby_rows String.compare key df) as Hrows.
  rewrite (filter_all _ df) in Hrows by (intros e; by eexists).
  pose proof (report_totals String.compare key
    (λ '(k, g), {| sp_species := k;
                   sp_total_count := agg_sum (count <$> g);
                   sp_avg_confidence := agg_mean (confidence <$> g);
                   sp_detections := agg_count (detection_id <$> g) |})
    sp_total_count df) as Htot.
  simpl in Htot. rewrite (filter_all _ df) in Htot by (intros e; by eexists).
  destruct Htot as [Hsum Hexact]; [by intros [k g]|].
  split; [exact Hsum|]. split; [exact Hexact|]. split.
  - unfold species_summary. fold key. rewrite count_groups.
    + by rewrite Hrows.
    + by intros [k g].
  - unfold species_summary. fold key. rewrite length_fmap.
    rewrite <- (length_fmap fst).
    rewrite agg_nunique_distinct.
    rewrite <- (size_list_to_set (C := gset string))
      by apply (groupby_keys_NoDup String.compare key).
    f_equal. apply set_eq. intros s. rewrite !elem_of_list_to_set.
    rewrite !list_elem_of_fmap. split.
    + intros ([k g] & -> & Hin). simpl.
      apply (groupby_group String.compare key) in Hin as [-> Hne].
      destruct (rows_of String.compare key k df) as [|e g] eqn:Hg; [done|].
      assert (He : e ∈ rows_of String.compare key k df)
        by (rewrite Hg; apply elem_of_cons; by left).
      unfold key in He. rewrite species_rows_of in He.
      apply list_elem_of_filter in He as [He ?]. eauto.
    + intros (e & -> & He).
      destruct (groupby_complete String.compare key df e (species e) He eq_refl)
        as (k & g & Hin & Hk%String.compare_eq_iff & _).
      exists (k, g). by split.
Qed.

(** X5: the timeline shares out the log: its daily totals add up to the
    sum of the counts of the log, the Total Animal Detections of the
    dashboard, and so to the grand total of the species summary, as
    [int64] sums and, when no count is negative and the sum is in the
    [int64] range, exactly. *)
Theorem timeline_summary_totals (df : list DetectionEvent) :
  agg_sum (tl_total_detections <$> timeline_summary df)
    = agg_sum (count <$> df) ∧
  agg_sum (tl_total_detections <$> timeline_summary df)
    = agg_sum (sp_total_count <$> species_summary df) ∧
  (Forall (λ e, 0 ≤ count e) df → int64 (total (count <$> df)) = true →
   total (tl_total_detections <$> timeline_summary df)
     = total (count <$> df) ∧
   total (tl_total_detections <$> timeline_summary df)
     = total (sp_total_count <$> species_summary df)).
Proof.
  set (key := λ e : DetectionEvent, Some (date_of (timestamp e))).
  set (skey := λ e : DetectionEvent, Some (species e)).
  pose proof (report_totals date_compare key
    (λ '(k, g), {| tl_date := k;
                   tl_species_count := agg_nunique (species <$> g);
                   tl_total_detections := agg_sum (count <$> g);
                   tl_images := agg_nunique (image_name <$> g) |})
    tl_total_detections df) as Htl.
  pose proof (report_totals String.compare skey
    (λ '(k, g), {| sp_species := k;
                   sp_total_count := agg_sum (count <$> g);
                   sp_avg_confidence := agg_mean (confidence <$> g);
                   sp_detections := agg_count (detection_id <$> g) |})
    sp_total_count df) as Hsp.
  simpl in Htl, Hsp.
  rewrite (filter_all _ df) in Htl by (intros e; by eexists).
  rewrite (filter_all _ df) in Hsp by (intros e; by eexists).
  destruct Htl as [Htl Htl']; [by intros [k g]|].
  destruct Hsp as [Hsp Hsp']; [by intros [k g]|].
  split; [exact Htl|]. split.
  - etrans; [exact Htl|]. symmetry. exact Hsp.
  - intros Hpos Hsum. split; [by apply Htl'|].
    etrans; [by apply Htl'|]. symmetry. by apply Hsp'.
Qed.

Lemma location_key_is_Some e :
  is_Some (location_key e) ↔ is_Some (latitude e) ∧ is_Some (longitude e).
Proof.
  unfold location_key. rewrite <- !not_eq_None_Some.
  destruct (latitude e), (longitude e); intuition congruence.
Qed.

Lemma coordinates_key_is_Some e :
  is_Some (coordinates_key e) ↔ is_Some (latitude e) ∧ is_Some (longitude e).
Proof.
  unfold coordinates_key. rewrite <- !not_eq_None_Some.
  destruct (latitude e), (longitude e); intuition congruence.
Qed.

(** X6: the two location reports count the same events: the total
    detections of the location summary and those of the Location Analysis
    report both add up to the sum of the counts of the events that have a
    latitude and a longitude, whatever the other events of the log, as
    [int64] sums and, when no count is negative and the sum is in the
    [int64] range, exactly. *)
Theorem location_totals (df : list DetectionEvent) :
  let placed := filter (λ e, is_Some (latitude e) ∧ is_Some (longitude e)) df in
  agg_sum (loc_total_detections <$> location_summary df)
    = agg_sum (count <$> placed) ∧
  agg_sum (lr_total_detections <$> location_report df)
    = agg_sum (count <$> placed) ∧
  (Forall (λ e, 0 ≤ count e) df → int64 (total (count <$> placed)) = true →
   total (loc_total_detections <$> location_summary df)
     = total (count <$> placed) ∧
   total (lr_total_detections <$> location_report df)
     = total (count <$> placed)).
Proof.
  pose proof (report_totals location_compare location_key
    (λ '(k, g), {| loc_location_name := k.1.1;
                   loc_latitude := k.1.2;
                   loc_longitude := k.2;
                   loc_species_count := agg_nunique (species <$> g);
                   loc_total_detections := agg_sum (count <$> g) |})
    loc_total_detections df) as Hloc.
  pose proof (report_totals coordinates_compare coordinates_key
    (λ '(k, g), {| lr_latitude := k.1;
                   lr_longitude := k.2;
                   lr_unique_species := agg_nunique (species <$> g);
                   lr_total_detections := agg_sum (count <$> g);
                   lr_images_analyzed := agg_nunique (image_name <$> g) |})
    lr_total_detections df) as Hlr.
  simpl in Hloc, Hlr.
  rewrite (list_filter_iff _ _ df location_key_is_Some) in Hloc.
  rewrite (list_filter_iff _ _ df coordinates_key_is_Some) in Hlr.
  destruct Hloc as [Hloc Hloc']; [by intros [k g]|].
  destruct Hlr as [Hlr Hlr']; [by intros [k g]|].
  simpl. split; [exact Hloc|]. split; [exact Hlr|].
  intros Hpos Hsum. split; [by apply Hloc'|by apply Hlr'].
Qed.

(** ** More on the export *)

Lemma load_nonempty_keeps_store σ σ0 (h : list dict) :
  load_detection_history σ = (Return (Log h), σ0) → h ≠ [] →
  σ0 = σ ∧ history_file σ = File true (Json (Log h)).
Proof.
  rewrite load_detection_history_eq.
  destruct σ as [[|[] [| |doc]] ex [|]]; simpl; intros [= <- <-]; done.
Qed.

(** X7: an export of a non-empty log adds one file to the data directory
    and changes nothing else: the history file and every other export
    are as before, and the log loads as before.  The file is a CSV file
    named [detection_export_<time>.csv] when the format, in any letter
    case, is csv, and a JSON file named [detection_export_<time>.json]
    for every other format name. *)
Theorem export_adds_one_file (σ σ0 : store) (h : list dict)
    (start_date end_date : option bound) (format : string)
    (now : datetime) (output_dir : string) :
  load_detection_history σ = (Return (Log h), σ0) →
  h ≠ [] →
  is_Some (mapM row_datetime h) →
  write_ok σ = true →
  ∃ path σ' x,
    export_detection_data start_date end_date format now output_dir σ
      = (Return (Some path), σ') ∧
    exports σ' !! path = Some x ∧
    history_file σ' = history_file σ ∧
    (∀ p, p ≠ path → exports σ' !! p = exports σ !! p) ∧
    load_detection_history σ' = (Return (Log h), σ') ∧
    (lower format = "csv" →
       ex_format x = CSV ∧
       path = output_dir +:+ "/detection_export_" +:+ strftime_compact now
              +:+ ".csv") ∧
    (lower format ≠ "csv" →
       ex_format x = JSON ∧
       path = output_dir +:+ "/detection_export_" +:+ strftime_compact now
              +:+ ".json").
Proof.
  intros Hload Hne [col Hcol] Hw.
  destruct (load_nonempty_keeps_store _ _ _ Hload Hne) as [-> Hfile].
  eexists _, _, _. split; [by eapply export_detection_data_written|].
  split; [apply lookup_insert_eq|]. split; [done|].
  split; [by intros p Hp; apply lookup_insert_ne|].
  split.
  { rewrite load_detection_history_eq. simpl. by rewrite Hfile. }
  unfold export_kind, export_path, path_join. simpl.
  split; intros Hf.
  - by rewrite bool_decide_eq_true_2.
  - by rewrite bool_decide_eq_false_2.
Qed.

(** The theorem at the three winter entries, for the format name XML. *)
Lemma export_adds_one_file_witness :
  load_detection_history (store_of winter_log true)
    = (Return (Log winter_log), store_of winter_log true) ∧
  winter_log ≠ [] ∧
  is_Some (mapM row_datetime winter_log) ∧
  write_ok (store_of winter_log true) = true ∧
  ∃ path σ' x,
    export_detection_data None (Some (Date (2025, 1, 31)%nat)) "XML"
      (at_time 2025 3 1 9 0 0) "data" (store_of winter_log true)
      = (Return (Some path), σ') ∧
    exports σ' !! path = Some x ∧
    history_file σ' = history_file (store_of winter_log true) ∧
    (∀ p, p ≠ path → exports σ' !! p = exports (store_of winter_log true) !! p) ∧
    load_detection_history σ' = (Return (Log winter_log), σ') ∧
    (lower "XML" = "csv" →
       ex_format x = CSV ∧
       path = "data" +:+ "/detection_export_"
              +:+ strftime_compact (at_time 2025 3 1 9 0 0) +:+ ".csv") ∧
    (lower "XML" ≠ "csv" →
       ex_format x = JSON ∧
       path = "data" +:+ "/detection_export_"
              +:+ strftime_compact (at_time 2025 3 1 9 0 0) +:+ ".json").
Proof.
  assert (H1 : load_detection_history (store_of winter_log true)
                 = (Return (Log winter_log), store_of winter_log true))
    by reflexivity.
  assert (H2 : winter_log ≠ []) by discriminate.
  assert (H3 : is_Some (mapM row_datetime winter_log))
    by (eexists; vm_compute; reflexivity).
  assert (H4 : write_ok (store_of winter_log true) = true) by reflexivity.
  split; [exact H1|]. split; [exact H2|]. split; [exact H3|].
  split; [exact H4|].
  exact (export_adds_one_file (store_of winter_log true)
           (store_of winter_log true) winter_log None
           (Some (Date (2025, 1, 31)%nat)) "XML" (at_time 2025 3 1 9 0 0)
           "data" H1 H2 H3 H4).
Defined.

(** X8: an export without bounds writes the rows of the frame of the
    whole log, at every position, in log order. *)
Theorem export_without_bounds_is_whole_log (σ σ0 : store) (h : list dict)
    (format : string) (now : datetime) (output_dir : string) :
  load_detection_history σ = (Return (Log h), σ0) →
  h ≠ [] →
  is_Some (mapM row_datetime h) →
  write_ok σ = true →
  ∃ path σ' x,
    export_detection_data None None format now output_dir σ
      = (Return (Some path), σ') ∧
    exports σ' !! path = Some x ∧
    ex_frame x = h ∧
    ex_index x = seq 0 (length h).
Proof.
  intros Hload Hne [col Hcol] Hw.
  eexists _, _, _. split; [by eapply export_detection_data_written|].
  split; [apply lookup_insert_eq|]. split; [done|]. simpl.
  apply positions_all. apply mapM_Some in Hcol.
  clear -Hcol. induction Hcol as [|d t h col Hd _ IH]; constructor; [|done].
  unfold row_within, within. by rewrite Hd.
Qed.

(** The theorem at the three winter entries. *)
Lemma export_without_bounds_is_whole_log_witness :
  load_detection_history (store_of winter_log true)
    = (Return (Log winter_log), store_of winter_log true) ∧
  winter_log ≠ [] ∧
  is_Some (mapM row_datetime winter_log) ∧
  write_ok (store_of winter_log true) = true ∧
  ∃ path σ' x,
    export_detection_data None None "json" (at_time 2025 3 1 9 0 0) "data"
      (store_of winter_log true) = (Return (Some path), σ') ∧
    exports σ' !! path = Some x ∧
    ex_frame x = winter_log ∧
    ex_index x = seq 0 (length winter_log).
Proof.
  assert (H1 : load_detection_history (store_of winter_log true)
                 = (Return (Log winter_log), store_of winter_log true))
    by reflexivity.
  assert (H2 : winter_log ≠ []) by discriminate.
  assert (H3 : is_Some (mapM row_datetime winter_log))
    by (eexists; vm_compute; reflexivity).
  assert (H4 : write_ok (store_of winter_log true) = true) by reflexivity.
  split; [exact H1|]. split; [exact H2|]. split; [exact H3|].
  split; [exact H4|].
  exact (export_without_bounds_is_whole_log (store_of winter_log true)
           (store_of winter_log true) winter_log "json"
           (at_time 2025 3 1 9 0 0) "data" H1 H2 H3 H4).
Defined.

(** ** Printed and parsed timestamps *)

Lemma list_ascii_of_string_app s1 s2 :
  list_ascii_of_string (s1 +:+ s2)
  = list_ascii_of_string s1 ++ list_ascii_of_string s2.
Proof. induction s1 as [|c s1 IH]; simpl; [done|]. by rewrite IH. Qed.

Lemma two_digits_all : forallb two_digits_ok (seq 0 100) = true.
Proof. vm_compute. reflexivity. Qed.

Lemma four_digits_all : forallb four_digits_ok (seq 1000 (9 * 1000)) = true.
Proof. vm_compute. reflexivity. Qed.

Lemma two_digits (n : nat) :
  (n < 100)%nat →
  ∃ a b, list_ascii_of_string (zfill 2 n) = [a; b] ∧ number [a; b] 0 = Some n.
Proof.
  intros Hn. pose proof two_digits_all as Hall.
  rewrite forallb_forall in Hall.
  specialize (Hall n). unfold two_digits_ok in Hall.
  destruct (list_ascii_of_string (zfill 2 n)) as [|a [|b [|c l]]];
    try (by discriminate Hall; apply in_seq; lia).
  exists a, b. split; [done|].
  eapply bool_decide_eq_true_1. apply Hall. apply in_seq. lia.
Qed.

Lemma four_digits (n : nat) :
  (1000 ≤ n)%nat → (Z.of_nat n < 10000)%Z →
  ∃ a b c d, list_ascii_of_string (zfill 4 n) = [a; b; c; d] ∧
             number [a; b; c; d] 0 = Some n.
Proof.
  intros Hn Hn'. pose proof four_digits_all as Hall.
  rewrite forallb_forall in Hall.
  specialize (Hall n). unfold four_digits_ok in Hall.
  destruct (list_ascii_of_string (zfill 4 n)) as [|a [|b [|c [|d [|e l]]]]];
    try (by discriminate Hall; apply in_seq; lia).
  exists a, b, c, d. split; [done|].
  eapply bool_decide_eq_true_1. apply Hall. apply in_seq. lia.
Qed.

Lemma valid_fields_bounds t :
  valid_fields t = true →
  (1 ≤ year t)%nat ∧ (Z.of_nat (year t) < 10000)%Z ∧
  (month t < 100)%nat ∧ (day t < 100)%nat ∧ (hour t < 100)%nat ∧
  (minute t < 100)%nat ∧ (second t < 100)%nat.
Proof.
  unfold valid_fields. rewrite !andb_true_iff.
  rewrite !Nat.leb_le, !Nat.ltb_lt, Z.leb_le.
  intros ((((((((? & ?) & ?) & ?) & ?) & Hd) & ?) & ?) & ?).
  assert (days_in_month (year t) (month t) ≤ 31)%nat.
  { unfold days_in_month.
    destruct (month t) as [|[|[|[|[|[|[|[|[|[|[|[|[|m]]]]]]]]]]]]];
      try destruct (is_leap (year t)); lia. }
  lia.
Qed.

Lemma valid_datetime_fields t : valid_datetime t = true → valid_fields t = true.
Proof.
  unfold valid_datetime, valid_fields. rewrite !andb_true_iff.
  rewrite !Nat.leb_le, !Nat.ltb_lt, Z.leb_le. lia.
Qed.

(** The characters of a printed timestamp. *)
Lemma strftime_iso_chars t :
  (1000 ≤ year t)%nat → valid_fields t = true →
  ∃ y1 y2 y3 y4 m1 m2 d1 d2 h1 h2 n1 n2 c1 c2,
    list_ascii_of_string (strftime_iso t) =
      [y1; y2; y3; y4; "-"; m1; m2; "-"; d1; d2; " "; h1; h2; ":"; n1; n2;
       ":"; c1; c2]%char ∧
    number [y1; y2; y3; y4] 0 = Some (year t) ∧
    number [m1; m2] 0 = Some (month t) ∧
    number [d1; d2] 0 = Some (day t) ∧
    number [h1; h2] 0 = Some (hour t) ∧
    number [n1; n2] 0 = Some (minute t) ∧
    number [c1; c2] 0 = Some (second t).
Proof.
  intros Hy (? & ? & ? & ? & ? & ? & ?)%valid_fields_bounds.
  destruct (four_digits (year t)) as (y1 & y2 & y3 & y4 & Hys & Hyn); [done..|].
  destruct (two_digits (month t)) as (m1 & m2 & Hms & Hmn); [done|].
  destruct (two_digits (day t)) as (d1 & d2 & Hds & Hdn); [done|].
  destruct (two_digits (hour t)) as (h1 & h2 & Hhs & Hhn); [done|].
  destruct (two_digits (minute t)) as (n1 & n2 & Hns & Hnn); [done|].
  destruct (two_digits (second t)) as (c1 & c2 & Hcs & Hcn); [done|].
  exists y1, y2, y3, y4, m1, m2, d1, d2, h1, h2, n1, n2, c1, c2.
  split; [|done]. unfold strftime_iso.
  rewrite !list_ascii_of_string_app, Hys, Hms, Hds, Hhs, Hns, Hcs. done.
Qed.

(** X9: a timestamp printed by the application for a date with a year of
    four digits is read back as the same instant by
    [timestamp_to_datetime], and by the [pd.to_datetime] of the timeline
    and the export when its year is one a [pd.Timestamp] holds. *)
Theorem printed_timestamp_is_read_back (t : datetime) :
  (1000 ≤ year t)%nat →
  valid_fields t = true →
  timestamp_to_datetime (strftime_iso t) = inr t ∧
  (valid_datetime t = true → to_datetime (strftime_iso t) = Some t).
Proof.
  intros Hy Hv.
  destruct (strftime_iso_chars t Hy Hv)
    as (y1 & y2 & y3 & y4 & m1 & m2 & d1 & d2 & h1 & h2 & n1 & n2 & c1 & c2
        & Hs & Hyn & Hmn & Hdn & Hhn & Hnn & Hcn).
  split.
  - unfold timestamp_to_datetime. rewrite Hs.
    rewrite bool_decide_eq_true_2 by done.
    rewrite Hyn, Hmn, Hdn, Hhn, Hnn, Hcn.
    destruct t; simpl in *. by rewrite Hv.
  - intros Hv'. unfold to_datetime. rewrite Hs.
    rewrite bool_decide_eq_true_2 by done.
    rewrite Hyn, Hmn, Hdn, Hhn, Hnn, Hcn. simpl.
    destruct t; simpl in *. by rewrite Hv'.
Qed.

(** The theorem at 15 January 2025, 10:30:00. *)
Lemma printed_timestamp_is_read_back_witness :
  (1000 ≤ year (at_time 2025 1 15 10 30 0))%nat ∧
  valid_fields (at_time 2025 1 15 10 30 0) = true ∧
  timestamp_to_datetime (strftime_iso (at_time 2025 1 15 10 30 0))
    = inr (at_time 2025 1 15 10 30 0) ∧
  (valid_datetime (at_time 2025 1 15 10 30 0) = true →
   to_datetime (strftime_iso (at_time 2025 1 15 10 30 0))
     = Some (at_time 2025 1 15 10 30 0)).
Proof.
  assert (H1 : (1000 ≤ year (at_time 2025 1 15 10 30 0))%nat)
    by (simpl; lia).
  assert (H2 : valid_fields (at_time 2025 1 15 10 30 0) = true)
    by (vm_compute; reflexivity).
  split; [exact H1|]. split; [exact H2|].
  exact (printed_timestamp_is_read_back (at_time 2025 1 15 10 30 0) H1 H2).
Defined.

(** ** The date range of a history *)

Section cmp_le_facts.
Context {K : Type} (cmp : K → K → comparison) `{!CmpOrder cmp}.

Lemma cmp_not_gt_trans x y z :
  cmp x y ≠ Gt → cmp y z ≠ Gt → cmp x z ≠ Gt.
Proof.
  destruct (cmp x y) eqn:Hxy; [| |done]; intros _.
  - by rewrite (cmp_eq_compat cmp x y z Hxy).
  - destruct (cmp y z) eqn:Hyz; [| |done]; intros _.
    + by rewrite <- (cmp_eq_compat_r cmp y z x Hyz), Hxy.
    + by rewrite (cmp_lt_trans cmp x y z Hxy Hyz).
Qed.
End cmp_le_facts.

Lemma datetime_le_trans a b c :
  datetime_le a b = true → datetime_le b c = true → datetime_le a c = true.
Proof.
  unfold datetime_le, datetime_compare. intros Hab Hbc.
  pose proof (cmp_not_gt_trans (cmp_pair date_compare date_compare)
    (date_of a, time_of a) (date_of b, time_of b) (date_of c, time_of c)) as H.
  destruct (cmp_pair date_compare date_compare (date_of a, time_of a)
              (date_of b, time_of b)); try done;
  destruct (cmp_pair date_compare date_compare (date_of b, time_of b)
              (date_of c, time_of c)); try done;
  destruct (cmp_pair date_compare date_compare (date_of a, time_of a)
              (date_of c, time_of c)); try done; by destruct H.
Qed.

Lemma datetime_lt_le a b : datetime_lt a b = true → datetime_le a b = true.
Proof.
  unfold datetime_lt, datetime_le. by destruct (datetime_compare a b).
Qed.

Lemma datetime_not_lt_le a b : datetime_lt a b = false → datetime_le b a = true.
Proof.
  unfold datetime_lt, datetime_le, datetime_compare.
  rewrite (cmp_antisym (cmp_pair date_compare date_compare)
             (date_of a, time_of a) (date_of b, time_of b)).
  by destruct (cmp_pair date_compare date_compare _ _).
Qed.

Lemma min_datetime_spec t ts :
  min_datetime t ts ∈ t :: ts ∧
  ∀ x, x ∈ t :: ts → datetime_le (min_datetime t ts) x = true.
Proof.
  unfold min_datetime. revert t. induction ts as [|y ts IH]; intros t.
  - simpl. split; [apply elem_of_cons; by left|].
    intros x ->%list_elem_of_singleton. apply datetime_le_refl.
  - cbn [foldl]. destruct (datetime_lt y t) eqn:Hlt.
    + destruct (IH y) as [Hin Hle]. split.
      * apply elem_of_cons. right. done.
      * intros x [->|Hx]%elem_of_cons; [|by apply Hle].
        eapply datetime_le_trans; [apply Hle, elem_of_cons; by left|].
        by apply datetime_lt_le.
    + destruct (IH t) as [Hin Hle]. split.
      * apply elem_of_cons in Hin as [->|Hin]; [apply elem_of_cons; by left|].
        apply elem_of_cons. right. apply elem_of_cons. by right.
      * intros x [->|[->|Hx]%elem_of_cons]%elem_of_cons.
        -- apply Hle, elem_of_cons; by left.
        -- eapply datetime_le_trans; [apply Hle, elem_of_cons; by left|].
           by apply datetime_not_lt_le.
        -- apply Hle, elem_of_cons. by right.
Qed.

Lemma max_datetime_spec t ts :
  max_datetime t ts ∈ t :: ts ∧
  ∀ x, x ∈ t :: ts → datetime_le x (max_datetime t ts) = true.
Proof.
  unfold max_datetime. revert t. induction ts as [|y ts IH]; intros t.
  - simpl. split; [apply elem_of_cons; by left|].
    intros x ->%list_elem_of_singleton. apply datetime_le_refl.
  - cbn [foldl]. destruct (datetime_lt t y) eqn:Hlt.
    + destruct (IH y) as [Hin Hle]. split.
      * apply elem_of_cons. right. done.
      * intros x [->|Hx]%elem_of_cons; [|by apply Hle].
        eapply datetime_le_trans; [by apply datetime_lt_le|].
        apply Hle, elem_of_cons; by left.
    + destruct (IH t) as [Hin Hle]. split.
      * apply elem_of_cons in Hin as [->|Hin]; [apply elem_of_cons; by left|].
        apply elem_of_cons. right. apply elem_of_cons. by right.
      * intros x [->|[->|Hx]%elem_of_cons]%elem_of_cons.
        -- apply Hle, elem_of_cons; by left.
        -- eapply datetime_le_trans; [by apply datetime_not_lt_le|].
           apply Hle, elem_of_cons; by left.
        -- apply Hle, elem_of_cons. by right.
Qed.
(** X10: the date range of an empty history runs from the first day of
    the current month, at the current time of day, up to now; the date
    range of a history whose timestamps are read is made of
    two timestamps of the history, the first not after and the second not
    before any timestamp of the history; a first record without timestamp
    is a missing key. *)
Theorem get_date_range_covers_history (history : list dict) (now : datetime) :
  (get_date_range_from_history [] now = inr (first_of_month now, now) ∧
   ((1 ≤ day now)%nat → datetime_le (first_of_month now) now = true)) ∧
  (∀ ts, history ≠ [] → history_timestamps history = inr ts →
     ∃ start_date end_date,
       get_date_range_from_history history now = inr (start_date, end_date) ∧
       start_date ∈ ts ∧ end_date ∈ ts ∧
       ∀ t, t ∈ ts → datetime_le start_date t = true ∧
                     datetime_le t end_date = true) ∧
  (∀ record, record !! "timestamp" = None →
     get_date_range_from_history (record :: history) now
       = inl (MissingKey "timestamp")).
Proof.
  split; [|split].
  - split; [done|]. intros Hd. destruct now as [y m d h n c]. simpl in Hd.
    destruct d as [|[|d]]; [lia|apply datetime_le_refl|].
    unfold datetime_le, datetime_compare, first_of_month, date_of, time_of,
      date_compare, cmp_pair. simpl.
    by rewrite !Nat.compare_refl.
  - intros ts Hne Hts. unfold get_date_range_from_history.
    destruct history as [|r history]; [done|]. rewrite Hts.
    destruct ts as [|t ts].
    { simpl in Hts. destruct (r !! "timestamp") as [[]|]; try done.
      destruct (timestamp_to_datetime s); [done|].
      destruct (history_timestamps history); done. }
    destruct (min_datetime_spec t ts) as [Hmin Hmin'].
    destruct (max_datetime_spec t ts) as [Hmax Hmax'].
    eexists _, _. split; [done|]. split; [done|]. split; [done|].
    intros x Hx. split; [by apply Hmin'|by apply Hmax'].
  - intros record Hr. simpl. by rewrite Hr.
Qed.

(** A text that [pd.to_datetime] reads in the application's format is
    read as the same instant by [timestamp_to_datetime]. *)
Lemma to_datetime_timestamp s t :
  to_datetime s = Some t → timestamp_to_datetime s = inr t.
Proof.
  unfold to_datetime, timestamp_to_datetime.
  destruct (list_ascii_of_string s)
    as [|y1 [|y2 [|y3 [|y4 [|s1 [|m1 [|m2 [|s2 [|d1 [|d2 [|s3 [|h1 [|h2 [|s4
        [|n1 [|n2 [|s5 [|c1 [|c2 [|x l]]]]]]]]]]]]]]]]]]]]; try done.
  case_bool_decide; [|done].
  destruct (number [y1; y2; y3; y4] 0) as [y|]; [|done].
  destruct (number [m1; m2] 0) as [m|]; [|done].
  destruct (number [d1; d2] 0) as [d|]; [|done].
  destruct (number [h1; h2] 0) as [h|]; [|done].
  destruct (number [n1; n2] 0) as [n|]; [|done].
  destruct (number [c1; c2] 0) as [c|]; [|done].
  simpl. destruct (valid_datetime _) eqn:Hv; [|done].
  intros [= <-]. by rewrite (valid_datetime_fields _ Hv).
Qed.

Lemma history_timestamps_column (h : list dict) col :
  mapM row_datetime h = Some col → history_timestamps h = inr col.
Proof.
  intros HF%mapM_Some. induction HF as [|d t h col Hd _ IH]; [done|].
  simpl. unfold row_datetime, cell in Hd.
  destruct (d !! "timestamp") as [[]|]; try done. simpl in Hd.
  by rewrite (to_datetime_timestamp _ _ Hd), IH.
Qed.

(** X11: the date range computed from a history selects the whole
    history: an export bounded by the two instants that
    [get_date_range_from_history] returns writes the rows of the frame of
    the log at every position, in log order. *)
Theorem export_of_date_range_is_whole_log (σ σ0 : store) (h : list dict)
    (format : string) (today now : datetime) (output_dir : string) :
  load_detection_history σ = (Return (Log h), σ0) →
  h ≠ [] →
  is_Some (mapM row_datetime h) →
  write_ok σ = true →
  ∃ start_date end_date path σ' x,
    get_date_range_from_history h today = inr (start_date, end_date) ∧
    export_detection_data (Some (Datetime start_date))
      (Some (Datetime end_date)) format now output_dir σ
      = (Return (Some path), σ') ∧
    exports σ' !! path = Some x ∧
    ex_frame x = h ∧
    ex_index x = seq 0 (length h).
Proof.
  intros Hload Hne [col Hcol] Hw.
  pose proof (history_timestamps_column h col Hcol) as Hts.
  assert (Hrange : ∃ start_date end_date,
    get_date_range_from_history h today = inr (start_date, end_date) ∧
    ∀ t, t ∈ col → datetime_le start_date t = true ∧
                   datetime_le t end_date = true).
  { unfold get_date_range_from_history.
    destruct h as [|r h]; [done|]. rewrite Hts.
    destruct col as [|t ts]; [by apply mapM_Some, Forall2_nil_inv_r in Hcol|].
    destruct (min_datetime_spec t ts) as [_ Hmin].
    destruct (max_datetime_spec t ts) as [_ Hmax].
    eexists _, _. split; [done|]. intros x Hx. split; eauto. }
  destruct Hrange as (s & e & Hrange & Hin).
  exists s, e. eexists _, _, _. split; [done|].
  split; [by eapply export_detection_data_written|].
  split; [apply lookup_insert_eq|]. split; [done|]. simpl.
  apply positions_all. apply mapM_Some in Hcol.
  clear -Hcol Hin. induction Hcol as [|d t h col Hd _ IH]; constructor.
  - unfold row_within, within. rewrite Hd. simpl.
    destruct (Hin t) as [-> ->]; [apply elem_of_cons; by left|done].
  - apply IH. intros x Hx. apply Hin, elem_of_cons. by right.
Qed.

(** The theorem at the three winter entries. *)
Lemma export_of_date_range_is_whole_log_witness :
  load_detection_history (store_of winter_log true)
    = (Return (Log winter_log), store_of winter_log true) ∧
  winter_log ≠ [] ∧
  is_Some (mapM row_datetime winter_log) ∧
  write_ok (store_of winter_log true) = true ∧
  ∃ start_date end_date path σ' x,
    get_date_range_from_history winter_log (at_time 2025 3 1 9 0 0)
      = inr (start_date, end_date) ∧
    export_detection_data (Some (Datetime start_date))
      (Some (Datetime end_date)) "csv"
      (at_time 2025 3 1 9 0 0) "data" (store_of winter_log true)
      = (Return (Some path), σ') ∧
    exports σ' !! path = Some x ∧
    ex_frame x = winter_log ∧
    ex_index x = seq 0 (length winter_log).
Proof.
  assert (H1 : load_detection_history (store_of winter_log true)
                 = (Return (Log winter_log), store_of winter_log true))
    by reflexivity.
  assert (H2 : winter_log ≠ []) by discriminate.
  assert (H3 : is_Some (mapM row_datetime winter_log))
    by (eexists; vm_compute; reflexivity).
  assert (H4 : write_ok (store_of winter_log true) = true) by reflexivity.
  split; [exact H1|]. split; [exact H2|]. split; [exact H3|].
  split; [exact H4|].
  exact (export_of_date_range_is_whole_log (store_of winter_log true)
           (store_of winter_log true) winter_log "csv"
           (at_time 2025 3 1 9 0 0) (at_time 2025 3 1 9 0 0) "data"
           H1 H2 H3 H4).
Defined.

(** ** The names of the exports *)

Lemma strftime_compact_chars t :
  (1000 ≤ year t)%nat → valid_fields t = true →
  ∃ y1 y2 y3 y4 m1 m2 d1 d2 h1 h2 n1 n2 c1 c2,
    list_ascii_of_string (strftime_compact t) =
      [y1; y2; y3; y4; m1; m2; d1; d2; "_"; h1; h2; n1; n2; c1; c2]%char ∧
    number [y1; y2; y3; y4] 0 = Some (year t) ∧
    number [m1; m2] 0 = Some (month t) ∧
    number [d1; d2] 0 = Some (day t) ∧
    number [h1; h2] 0 = Some (hour t) ∧
    number [n1; n2] 0 = Some (minute t) ∧
    number [c1; c2] 0 = Some (second t).
Proof.
  intros Hy (? & ? & ? & ? & ? & ? & ?)%valid_fields_bounds.
  destruct (four_digits (year t)) as (y1 & y2 & y3 & y4 & Hys & Hyn); [done..|].
  destruct (two_digits (month t)) as (m1 & m2 & Hms & Hmn); [done|].
  destruct (two_digits (day t)) as (d1 & d2 & Hds & Hdn); [done|].
  destruct (two_digits (hour t)) as (h1 & h2 & Hhs & Hhn); [done|].
  destruct (two_digits (minute t)) as (n1 & n2 & Hns & Hnn); [done|].
  destruct (two_digits (second t)) as (c1 & c2 & Hcs & Hcn); [done|].
  exists y1, y2, y3, y4, m1, m2, d1, d2, h1, h2, n1, n2, c1, c2.
  split; [|done]. unfold strftime_compact.
  rewrite !list_ascii_of_string_app, Hys, Hms, Hds, Hhs, Hns, Hcs. done.
Qed.

Lemma strftime_compact_inj t1 t2 :
  (1000 ≤ year t1)%nat → valid_fields t1 = true →
  (1000 ≤ year t2)%nat → valid_fields t2 = true →
  strftime_compact t1 = strftime_compact t2 → t1 = t2.
Proof.
  intros Hy1 Hv1 Hy2 Hv2 Heq.
  destruct (strftime_compact_chars t1 Hy1 Hv1)
    as (y1 & y2 & y3 & y4 & m1 & m2 & d1 & d2 & h1 & h2 & n1 & n2 & c1 & c2
        & Hs & Hyn & Hmn & Hdn & Hhn & Hnn & Hcn).
  destruct (strftime_compact_chars t2 Hy2 Hv2)
    as (y1' & y2' & y3' & y4' & m1' & m2' & d1' & d2' & h1' & h2' & n1' & n2'
        & c1' & c2' & Hs' & Hyn' & Hmn' & Hdn' & Hhn' & Hnn' & Hcn').
  rewrite Heq, Hs' in Hs.
  injection Hs as -> -> -> -> -> -> -> -> -> -> -> -> -> ->.
  destruct t1, t2; simpl in *. f_equal; congruence.
Qed.

Lemma string_app_inj_l (p s1 s2 : string) : p +:+ s1 = p +:+ s2 → s1 = s2.
Proof. induction p as [|c p IH]; simpl; [done|]. intros [= H]. by apply IH. Qed.

Lemma string_app_inj_r (s1 s2 e : string) :
  String.length s1 = String.length s2 → s1 +:+ e = s2 +:+ e → s1 = s2.
Proof.
  revert s2. induction s1 as [|c s1 IH]; intros [|c' s2]; simpl; try done.
  intros [= Hl] [= -> H]. f_equal. by apply IH.
Qed.

Lemma strftime_compact_length t :
  (1000 ≤ year t)%nat → valid_fields t = true →
  String.length (strftime_compact t) = 15%nat.
Proof.
  intros Hy Hv.
  destruct (strftime_compact_chars t Hy Hv)
    as (y1 & y2 & y3 & y4 & m1 & m2 & d1 & d2 & h1 & h2 & n1 & n2 & c1 & c2
        & Hs & _).
  rewrite <- (string_of_list_ascii_of_string (strftime_compact t)), Hs. done.
Qed.

Lemma export_path_inj format t1 t2 dir :
  (1000 ≤ year t1)%nat → valid_fields t1 = true →
  (1000 ≤ year t2)%nat → valid_fields t2 = true →
  export_path format t1 dir = export_path format t2 dir → t1 = t2.
Proof.
  intros Hy1 Hv1 Hy2 Hv2. unfold export_path, path_join.
  intros H%string_app_inj_l%string_app_inj_l%string_app_inj_l.
  apply string_app_inj_r in H.
  - by apply strftime_compact_inj.
  - by rewrite !strftime_compact_length.
Qed.

(** X12: the name of an export tells the second it was made: of two exports
    of a non-empty log made with the same format at two different
    instants, the second leaves the file of the first in place; made at
    the same instant, the second replaces the file of the first. *)
Theorem exports_at_other_seconds_are_kept (σ σ0 : store) (h : list dict)
    (s1 e1 s2 e2 : option bound) (format : string)
    (now1 now2 : datetime) (output_dir : string) :
  load_detection_history σ = (Return (Log h), σ0) →
  h ≠ [] →
  is_Some (mapM row_datetime h) →
  write_ok σ = true →
  (1000 ≤ year now1)%nat → valid_fields now1 = true →
  (1000 ≤ year now2)%nat → valid_fields now2 = true →
  ∃ path1 path2 σ1 σ2 x1 x2,
    export_detection_data s1 e1 format now1 output_dir σ
      = (Return (Some path1), σ1) ∧
    exports σ1 !! path1 = Some x1 ∧
    export_detection_data s2 e2 format now2 output_dir σ1
      = (Return (Some path2), σ2) ∧
    exports σ2 !! path2 = Some x2 ∧
    (now1 ≠ now2 → path1 ≠ path2 ∧ exports σ2 !! path1 = Some x1) ∧
    (now1 = now2 → path1 = path2).
Proof.
  intros Hload Hne [col Hcol] Hw Hy1 Hv1 Hy2 Hv2.
  destruct (load_nonempty_keeps_store _ _ _ Hload Hne) as [-> Hfile].
  pose proof (export_detection_data_written s1 e1 format now1 output_dir
                σ σ h col Hload Hne Hcol Hw) as H1.
  set (σ1 := add_export (export_path format now1 output_dir)
     {| ex_format := export_kind format;
        ex_frame := h;
        ex_index := positions (row_within (Timestamp <$> s1)
                                 (Timestamp <$> e1)) h |} σ) in *.
  assert (Hload1 : load_detection_history σ1 = (Return (Log h), σ1)).
  { rewrite load_detection_history_eq. unfold σ1. simpl.
    by rewrite Hfile. }
  pose proof (export_detection_data_written s2 e2 format now2 output_dir
                σ1 σ1 h col Hload1 Hne Hcol Hw) as H2.
  eexists _, _, _, _, _, _. split; [exact H1|].
  split; [apply lookup_insert_eq|]. split; [exact H2|].
  split; [apply lookup_insert_eq|]. split.
  - intros Hnow.
    assert (Hp : export_path format now1 output_dir
                 ≠ export_path format now2 output_dir)
      by (intros Hp; by apply Hnow, (export_path_inj format _ _ output_dir)).
    split; [done|]. simpl. rewrite lookup_insert_ne by done.
    apply lookup_insert_eq.
  - by intros ->.
Qed.

(** The theorem at the three winter entries, for exports made one second
    apart. *)
Lemma exports_at_other_seconds_are_kept_witness :
  load_detection_history (store_of winter_log true)
    = (Return (Log winter_log), store_of winter_log true) ∧
  winter_log ≠ [] ∧
  is_Some (mapM row_datetime winter_log) ∧
  write_ok (store_of winter_log true) = true ∧
  (1000 ≤ year (at_time 2025 3 1 9 0 0))%nat ∧
  valid_fields (at_time 2025 3 1 9 0 0) = true ∧
  (1000 ≤ year (at_time 2025 3 1 9 0 1))%nat ∧
  valid_fields (at_time 2025 3 1 9 0 1) = true ∧
  ∃ path1 path2 σ1 σ2 x1 x2,
    export_detection_data None None "csv" (at_time 2025 3 1 9 0 0) "data"
      (store_of winter_log true) = (Return (Some path1), σ1) ∧
    exports σ1 !! path1 = Some x1 ∧
    export_detection_data None (Some (Date (2025, 1, 31)%nat)) "csv"
      (at_time 2025 3 1 9 0 1) "data" σ1 = (Return (Some path2), σ2) ∧
    exports σ2 !! path2 = Some x2 ∧
    (at_time 2025 3 1 9 0 0 ≠ at_time 2025 3 1 9 0 1 →
       path1 ≠ path2 ∧ exports σ2 !! path1 = Some x1) ∧
    (at_time 2025 3 1 9 0 0 = at_time 2025 3 1 9 0 1 → path1 = path2).
Proof.
  assert (H1 : load_detection_history (store_of winter_log true)
                 = (Return (Log winter_log), store_of winter_log true))
    by reflexivity.
  assert (H2 : winter_log ≠ []) by discriminate.
  assert (H3 : is_Some (mapM row_datetime winter_log))
    by (eexists; vm_compute; reflexivity).
  assert (H4 : write_ok (store_of winter_log true) = true) by reflexivity.
  assert (H5 : (1000 ≤ year (at_time 2025 3 1 9 0 0))%nat) by (simpl; lia).
  assert (H6 : valid_fields (at_time 2025 3 1 9 0 0) = true)
    by (vm_compute; reflexivity).
  assert (H7 : (1000 ≤ year (at_time 2025 3 1 9 0 1))%nat) by (simpl; lia).
  assert (H8 : valid_fields (at_time 2025 3 1 9 0 1) = true)
    by (vm_compute; reflexivity).
  repeat (split; [eassumption|]).
  exact (exports_at_other_seconds_are_kept (store_of winter_log true)
           (store_of winter_log true) winter_log None None None
           (Some (Date (2025, 1, 31)%nat)) "csv" (at_time 2025 3 1 9 0 0)
           (at_time 2025 3 1 9 0 1) "data" H1 H2 H3 H4 H5 H6 H7 H8).
Defined.


(** ** The detector *)

Lemma randint_in_range (a b : Z) (n : nat) :
  a ≤ b → ∃ v, randint a b n = inr v ∧ a ≤ v ≤ b.
Proof.
  intros Hab. unfold randint. rewrite (proj2 (Z.leb_le a b) Hab).
  eexists. split; [done|].
  pose proof (Z.mod_pos_bound (Z.of_nat n) (b - a + 1)). lia.
Qed.

Lemma randint_empty (a b : Z) (n : nat) : b < a → randint a b n = inl ValueError.
Proof. intros Hab. unfold randint. by rewrite (proj2 (Z.leb_gt a b) Hab). Qed.

Lemma SPECIES_CLASSES_NoDup : NoDup SPECIES_CLASSES.
Proof. apply (bool_decide_unpack _). by vm_compute. Qed.

Lemma SPECIES_CLASSES_length : length SPECIES_CLASSES = 13%nat.
Proof. reflexivity. Qed.

Lemma species_lookup_class name :
  name ∈ SPECIES_CLASSES → is_Some (species_lookup name).
Proof.
  unfold SPECIES_CLASSES. intros Hin.
  repeat (apply elem_of_cons in Hin as [->|Hin]; [by eexists|]).
  by apply elem_of_nil in Hin.
Qed.

(** While fewer species are used than the table has, one is available. *)
Lemma available_species_nonempty (used : list string) :
  (length used < 13)%nat →
  filter (λ s, s ∉ used) SPECIES_CLASSES ≠ [].
Proof.
  intros Hlen Hnil.
  assert (Hsub : SPECIES_CLASSES ⊆ used).
  { intros s Hs. destruct (decide (s ∈ used)) as [|Hn]; [done|].
    assert (s ∈ filter (λ s, s ∉ used) SPECIES_CLASSES)
      by (by apply list_elem_of_filter).
    rewrite Hnil in *. by apply elem_of_nil in H. }
  pose proof (submseteq_length _ _
    (NoDup_submseteq _ _ SPECIES_CLASSES_NoDup Hsub)) as Hl.
  rewrite SPECIES_CLASSES_length in Hl. lia.
Qed.

Lemma box_in_image width height bx by_ bw bh :
  20 ≤ width → 20 ≤ height →
  10 ≤ bx → 10 ≤ by_ →
  width / 8 ≤ bw ≤ width / 3 → height / 8 ≤ bh ≤ height / 3 →
  in_image width height (Z.min bx (width - bw - 5))
    (Z.min by_ (height - bh - 5)) bw bh.
Proof.
  intros Hw Hh Hx Hy Hbw Hbh. unfold in_image.
  assert (0 ≤ width / 8) by (apply Z.div_pos; lia).
  assert (0 ≤ height / 8) by (apply Z.div_pos; lia).
  assert (3 * (width / 3) ≤ width) by (apply Z.mul_div_le; lia).
  assert (3 * (height / 3) ≤ height) by (apply Z.mul_div_le; lia).
  lia.
Qed.

(** The loop, for an image of at least 20 by 20 pixels: each of its [k]
    iterations adds the detection of a species not used before. *)
Lemma detect_loop_detections draws width height location k i used results :
  20 ≤ width → 20 ≤ height →
  NoDup used → (length used + k ≤ 13)%nat →
  ∃ new names,
    detect_loop draws width height location k i used results
      = inr (results ++ new) ∧
    length names = k ∧
    Forall2 (is_detection width height location) new names ∧
    NoDup (names ++ used) ∧
    names ⊆ SPECIES_CLASSES.
Proof.
  intros Hw Hh. revert i used results.
  induction k as [|k IH]; intros i used results Hnd Hlen.
  - exists [], []. simpl. rewrite app_nil_r.
    split; [done|]. split; [done|]. split; [constructor|].
    split; [done|]. by intros x ?%elem_of_nil.
  - cbn [detect_loop].
    pose proof (available_species_nonempty used ltac:(lia)) as Hav.
    destruct (filter (λ s, s ∉ used) SPECIES_CLASSES) as [|s0 av] eqn:Hf;
      [done|]. clear Hav.
    destruct (randint_in_range 0 (Z.of_nat (length (s0 :: av)) - 1)
                (pick (draws i))) as (idx & -> & Hidx);
      [simpl; lia|]. cbn [and_then].
    destruct (lookup_lt_is_Some_2 (s0 :: av) (Z.to_nat idx)) as [name Hname];
      [simpl in *; lia|]. rewrite Hname.
    assert (Hin : name ∈ filter (λ s, s ∉ used) SPECIES_CLASSES).
    { rewrite Hf. by eapply list_elem_of_lookup_2. }
    apply list_elem_of_filter in Hin as [Hnew Hclass].
    destruct (randint_in_range 10 (width / 2) (rand_x (draws i)))
      as (bx & -> & Hbx); [apply Z.div_le_lower_bound; lia|].
    destruct (randint_in_range 10 (height / 2) (rand_y (draws i)))
      as (by_ & -> & Hby); [apply Z.div_le_lower_bound; lia|].
    destruct (randint_in_range (width / 8) (width / 3) (rand_w (draws i)))
      as (bw & -> & Hbw).
    { apply Z.div_le_compat_l; lia. }
    destruct (randint_in_range (height / 8) (height / 3) (rand_h (draws i)))
      as (bh & -> & Hbh).
    { apply Z.div_le_compat_l; lia. }
    cbn [and_then].
    destruct (species_lookup_class name Hclass) as [info Hinfo].
    rewrite Hinfo.
    destruct (IH (S i) (name :: used)
                (results ++
                 [with_location location
                    (detection_result name info
                       (random_uniform CONFIDENCE_THRESHOLD (95 # 100)
                          (uniform (draws i)))
                       (Z.min bx (width - bw - 5))
                       (Z.min by_ (height - bh - 5)) bw bh
                       (clock (draws i)))]))
      as (new & names & Hloop & Hn & HF & Hnd' & Hsub).
    { by constructor. }
    { simpl. lia. }
    rewrite Hloop, <- app_assoc.
    eexists (_ :: new), (name :: names). split; [done|].
    split; [simpl; by rewrite Hn|]. split; [|split].
    + constructor; [|done].
      exists info, (uniform (draws i)), (Z.min bx (width - bw - 5)),
        (Z.min by_ (height - bh - 5)), bw, bh, (clock (draws i)).
      split; [done|]. split; [|done].
      apply box_in_image; lia.
    + simpl. apply NoDup_app in Hnd' as (Hn1 & Hn2 & Hn3).
      apply NoDup_cons in Hn3 as [_ Hn3].
      constructor.
      * rewrite elem_of_app. intros [Hx|Hx]; [|done].
        apply (Hn2 _ Hx). apply elem_of_cons. by left.
      * apply NoDup_app. split; [done|]. split; [|done].
        intros x Hx Hx'. apply (Hn2 _ Hx). apply elem_of_cons. by right.
    + intros x [->|Hx]%elem_of_cons; [done|by apply Hsub].
Qed.

(** X13.  An image narrower or lower than 20 pixels makes the detector
    raise [ValueError], whatever is drawn: the first box of the loop is
    drawn from the empty range [10 .. width // 2] or [10 .. height // 2]. *)
Theorem detect_species_small_image first draws now width height location :
  width < 20 ∨ height < 20 →
  detect_species first draws now width height location = inl ValueError.
Proof.
  intros Hsmall. unfold detect_species.
  destruct (randint_in_range 1 3 first) as (n & -> & Hn); [lia|].
  cbn [and_then].
  destruct (Z.to_nat n) as [|k] eqn:Hk; [lia|]. cbn [detect_loop].
  pose proof (available_species_nonempty [] ltac:(simpl; lia)) as Hav.
  destruct (filter (λ s, s ∉ []) SPECIES_CLASSES) as [|s0 av] eqn:Hf;
    [done|]. clear Hav.
  destruct (randint_in_range 0 (Z.of_nat (length (s0 :: av)) - 1)
              (pick (draws 0%nat))) as (idx & -> & Hidx);
    [simpl; lia|]. cbn [and_then].
  destruct (lookup_lt_is_Some_2 (s0 :: av) (Z.to_nat idx)) as [name Hname];
    [simpl in *; lia|]. rewrite Hname.
  destruct (decide (width < 20)) as [Hw|Hw].
  - rewrite randint_empty; [done|].
    apply Z.div_lt_upper_bound; lia.
  - destruct (randint_in_range 10 (width / 2) (rand_x (draws 0%nat)))
      as (bx & -> & Hbx); [apply Z.div_le_lower_bound; lia|].
    cbn [and_then]. rewrite randint_empty; [done|].
    apply Z.div_lt_upper_bound; lia.
Qed.

Lemma detect_species_small_image_witness :
  (16 < 20 ∨ 480 < 20) ∧
  detect_species 0 (λ _, {| pick := 0; uniform := 0; rand_x := 0;
                            rand_y := 0; rand_w := 0; rand_h := 0;
                            clock := at_time 2025 1 15 10 30 0 |})
    (at_time 2025 1 15 10 30 0) 16 480 None = inl ValueError.
Proof.
  assert (H1 : 16 < 20 ∨ 480 < 20) by (left; lia).
  split; [exact H1|].
  exact (detect_species_small_image _ _ _ _ _ _ H1).
Defined.

(** The run of the detector on an image of at least 20 by 20 pixels. *)
Lemma detect_species_run first draws now width height location :
  20 ≤ width → 20 ≤ height →
  ∃ results names,
    detect_species first draws now width height location = inr results ∧
    length results = Z.to_nat (1 + Z.of_nat first mod 3) ∧
    Forall2 (is_detection width height location) results names ∧
    NoDup names ∧
    names ⊆ SPECIES_CLASSES.
Proof.
  intros Hw Hh. unfold detect_species.
  assert (Hr : randint 1 3 first = inr (1 + Z.of_nat first mod 3))
    by reflexivity.
  rewrite Hr. cbn [and_then].
  pose proof (Z.mod_pos_bound (Z.of_nat first) 3 ltac:(lia)) as Hm.
  destruct (detect_loop_detections draws width height location
              (Z.to_nat (1 + Z.of_nat first mod 3)) 0 [] [] Hw Hh)
    as (new & names & -> & Hn & HF & Hnd & Hsub).
  { constructor. }
  { simpl. lia. }
  cbn [and_then app].
  pose proof (Forall2_length _ _ _ HF) as Hlen.
  destruct new as [|r new]; [simpl in Hlen; lia|].
  exists (r :: new), names.
  split; [done|]. split; [lia|]. split; [done|].
  split; [by rewrite app_nil_r in Hnd|done].
Qed.

(** X14.  On an image of at least 20 by 20 pixels the detector returns
    between one and three results, each the detection of a species of the
    table with a box inside the image, no species twice; the result that
    stands for "No wildlife detected" is never produced. *)
Theorem detect_species_detections first draws now width height location :
  20 ≤ width → 20 ≤ height →
  ∃ results names,
    detect_species first draws now width height location = inr results ∧
    (1 ≤ length results ≤ 3)%nat ∧
    length results = Z.to_nat (1 + Z.of_nat first mod 3) ∧
    Forall2 (is_detection width height location) results names ∧
    NoDup names ∧
    names ⊆ SPECIES_CLASSES ∧
    "No wildlife detected" ∉ names.
Proof.
  intros Hw Hh.
  destruct (detect_species_run first draws now width height location Hw Hh)
    as (results & names & Hdet & Hlen & HF & Hnd & Hsub).
  pose proof (Z.mod_pos_bound (Z.of_nat first) 3 ltac:(lia)) as Hm.
  exists results, names.
  split; [done|]. split; [lia|]. split; [done|]. split; [done|].
  split; [done|]. split; [done|].
  intros Hin%Hsub. revert Hin. apply (bool_decide_unpack _). by vm_compute.
Qed.

Lemma detect_species_detections_witness :
  20 ≤ 640 ∧ 20 ≤ 480 ∧
  ∃ results names,
    detect_species 1 (λ _, {| pick := 0; uniform := 0; rand_x := 0;
                              rand_y := 0; rand_w := 0; rand_h := 0;
                              clock := at_time 2025 1 15 10 30 0 |})
      (at_time 2025 1 15 10 30 0) 640 480 (Some yellowstone_north)
      = inr results ∧
    (1 ≤ length results ≤ 3)%nat ∧
    length results = Z.to_nat (1 + Z.of_nat 1 mod 3) ∧
    Forall2 (is_detection 640 480 (Some yellowstone_north)) results names ∧
    NoDup names ∧
    names ⊆ SPECIES_CLASSES ∧
    "No wildlife detected" ∉ names.
Proof.
  assert (H1 : 20 ≤ 640) by lia.
  assert (H2 : 20 ≤ 480) by lia.
  split; [exact H1|]. split; [exact H2|].
  exact (detect_species_detections _ _ _ _ _ _ H1 H2).
Defined.

Lemma with_location_lookup location (r : dict) k :
  location_only location → k ∉ location_fields →
  with_location location r !! k = r !! k.
Proof.
  intros Hloc Hk. unfold with_location.
  destruct location as [l|]; [|done].
  destruct (map_to_list l); [done|].
  rewrite lookup_union_r; [done|].
  destruct (l !! k) eqn:Hl; [|done].
  destruct Hk. by apply (Hloc l k).
Qed.

Lemma detection_result_lookup name info q x y w h now :
  let r := detection_result name info q x y w h now in
  r !! "species" = Some (VStr name) ∧
  r !! "confidence" = Some (VFloat q) ∧
  r !! "count" = Some (VInt 1) ∧
  ∀ k, k ∈ optional_fields → is_Some (r !! k).
Proof.
  unfold detection_result. cbn zeta.
  split; [by simplify_map_eq|]. split; [by simplify_map_eq|].
  split; [by simplify_map_eq|].
  unfold optional_fields. intros k Hk.
  repeat (apply elem_of_cons in Hk as [->|Hk];
          [simplify_map_eq; by eexists|]).
  by apply elem_of_nil in Hk.
Qed.

Lemma not_location_field k :
  k ∈ "species" :: "confidence" :: "count" :: optional_fields →
  k ∉ location_fields.
Proof.
  intros Hk.
  repeat (apply elem_of_cons in Hk as [->|Hk];
          [apply (bool_decide_unpack _); by vm_compute|]).
  by apply elem_of_nil in Hk.
Qed.

Lemma is_detection_lookup width height location r name :
  location_only location →
  is_detection width height location r name →
  r !! "species" = Some (VStr name) ∧
  (∃ q, r !! "confidence" = Some (VFloat q)) ∧
  r !! "count" = Some (VInt 1) ∧
  ∀ k, k ∈ optional_fields → is_Some (r !! k).
Proof.
  intros Hloc (info & u & x & y & w & h & now & _ & _ & ->).
  destruct (detection_result_lookup name info
              (random_uniform CONFIDENCE_THRESHOLD (95 # 100) u) x y w h now)
    as (Hs & Hc & Hn & Ho).
  split; [|split; [|split]].
  - rewrite with_location_lookup; [done..|].
    apply not_location_field. rewrite !elem_of_cons. tauto.
  - eexists. rewrite with_location_lookup; [done..|].
    apply not_location_field. rewrite !elem_of_cons. tauto.
  - rewrite with_location_lookup; [done..|].
    apply not_location_field. rewrite !elem_of_cons. tauto.
  - intros k Hk. rewrite with_location_lookup; [by apply Ho|done|].
    apply not_location_field. rewrite !elem_of_cons. tauto.
Qed.

Lemma entry_of_detection width height location id ts img loc r name :
  location_only location →
  is_detection width height location r name →
  ∃ e,
    make_entry id ts img loc r = Return e ∧
    e !! "species" = Some (VStr name) ∧
    e !! "count" = Some (VInt 1) ∧
    e !! "bounding_box" = None ∧
    ∀ k, k ∈ entry_fields → is_Some (e !! k).
Proof.
  intros Hloc Hdet.
  destruct (is_detection_lookup _ _ _ _ _ Hloc Hdet)
    as (Hs & [q Hq] & Hc & Ho).
  destruct (make_entry_Return id ts img loc r) as [e He]; [by eexists..|].
  exists e. split; [done|].
  split; [|split; [|split]].
  - rewrite (make_entry_lookup _ _ _ _ _ _ _ He), Hs. by decide_closed.
  - rewrite (make_entry_lookup _ _ _ _ _ _ _ He). unfold get. rewrite Hc.
    by decide_closed.
  - rewrite (make_entry_lookup _ _ _ _ _ _ _ He). by decide_closed.
  - intros k Hk. rewrite (make_entry_lookup _ _ _ _ _ _ _ He).
    destruct (decide (k ∈ optional_fields)) as [Hopt|Hopt]; [by apply Ho|].
    apply elem_of_app in Hk as [Hk|Hk]; [|done].
    destruct (decide (k ∈ core_fields)); [by eexists|done].
Qed.

(** X15.  The upload flow, detection followed by save with the same
    location: for an image of at least 20 by 20 pixels, a location that
    has no other key than latitude, longitude and location_name, and a
    data directory that accepts the write and whose history file is
    absent or can be read and loads as a log, the detector returns, the
    save of its results succeeds, and the log gains between one and
    three entries, of pairwise different species, each with count 1,
    every core and descriptive key, and no bounding box. *)
Theorem detect_then_save first draws now width height (location : dict)
    id ts img σ σ0 h :
  20 ≤ width → 20 ≤ height →
  location_only (Some location) →
  load_detection_history σ = (Return (Log h), σ0) →
  readable_store σ = true → write_ok σ = true →
  ∃ results names entries σ',
    detect_species first draws now width height (Some location)
      = inr results ∧
    save_detection_results id ts img location results σ = (Return (), σ') ∧
    load_detection_history σ' = (Return (Log (h ++ entries)), σ') ∧
    (1 ≤ length entries ≤ 3)%nat ∧
    NoDup names ∧
    Forall2 (λ (e : dict) name,
               e !! "species" = Some (VStr name) ∧
               e !! "count" = Some (VInt 1) ∧
               e !! "bounding_box" = None ∧
               ∀ k, k ∈ entry_fields → is_Some (e !! k)) entries names.
Proof.
  intros Hw Hh Hloc Hload Hr Hwr.
  destruct (detect_species_run first draws now width height
              (Some location) Hw Hh)
    as (results & names & Hdet & Hlen & HF & Hnd & _).
  pose proof (Z.mod_pos_bound (Z.of_nat first) 3 ltac:(lia)) as Hm.
  assert (∃ entries,
    Forall2 (λ r e, make_entry id ts img location r = Return e)
      results entries ∧
    Forall2 (λ (e : dict) name,
               e !! "species" = Some (VStr name) ∧
               e !! "count" = Some (VInt 1) ∧
               e !! "bounding_box" = None ∧
               ∀ k, k ∈ entry_fields → is_Some (e !! k)) entries names)
    as (entries & HE & HN).
  { clear Hdet Hlen Hnd.
    induction HF as [|r name results names Hd _ (entries & HE & HN)].
    - exists []. split; constructor.
    - destruct (entry_of_detection _ _ _ id ts img location _ _ Hloc Hd)
        as (e & He & Hprops).
      exists (e :: entries). split; by constructor. }
  destruct (save_detection_results_entries _ _ _ _ _ _ _ _ _ Hload Hwr HE)
    as (σ' & Hsave & _ & Hload' & _).
  rewrite Hr in Hload'.
  exists results, names, entries, σ'.
  split; [done|]. split; [done|]. split; [done|].
  split; [rewrite <- (Forall2_length _ _ _ HE); lia|]. by split.
Qed.

Lemma yellowstone_north_location_only : location_only (Some yellowstone_north).
Proof.
  intros l k [= <-] Hk. unfold yellowstone_north in Hk.
  destruct (decide (k = "latitude")) as [->|?];
    [unfold location_fields; rewrite !elem_of_cons; tauto|].
  destruct (decide (k = "longitude")) as [->|?];
    [unfold location_fields; rewrite !elem_of_cons; tauto|].
  destruct (decide (k = "location_name")) as [->|?];
    [unfold location_fields; rewrite !elem_of_cons; tauto|].
  exfalso. by simplify_map_eq.
Qed.

Lemma detect_then_save_witness :
  20 ≤ 640 ∧ 20 ≤ 480 ∧
  location_only (Some yellowstone_north) ∧
  load_detection_history (fresh_store true)
    = (Return (Log []), store_of [] true) ∧
  readable_store (fresh_store true) = true ∧
  write_ok (fresh_store true) = true ∧
  ∃ results names entries σ',
    detect_species 1 (λ _, {| pick := 0; uniform := 0; rand_x := 0;
                              rand_y := 0; rand_w := 0; rand_h := 0;
                              clock := at_time 2025 1 15 10 30 0 |})
      (at_time 2025 1 15 10 30 0) 640 480 (Some yellowstone_north)
      = inr results ∧
    save_detection_results "id-1" "2025-01-15 10:30:00" "fox.jpg"
      yellowstone_north results (fresh_store true) = (Return (), σ') ∧
    load_detection_history σ' = (Return (Log ([] ++ entries)), σ') ∧
    (1 ≤ length entries ≤ 3)%nat ∧
    NoDup names ∧
    Forall2 (λ (e : dict) name,
               e !! "species" = Some (VStr name) ∧
               e !! "count" = Some (VInt 1) ∧
               e !! "bounding_box" = None ∧
               ∀ k, k ∈ entry_fields → is_Some (e !! k)) entries names.
Proof.
  assert (H1 : 20 ≤ 640) by lia.
  assert (H2 : 20 ≤ 480) by lia.
  assert (H0 : load_detection_history (fresh_store true)
    = (Return (Log []), store_of [] true)) by reflexivity.
  assert (H3 : readable_store (fresh_store true) = true) by reflexivity.
  assert (H4 : write_ok (fresh_store true) = true) by reflexivity.
  split; [exact H1|]. split; [exact H2|].
  split; [exact yellowstone_north_location_only|].
  split; [exact H0|]. split; [exact H3|]. split; [exact H4|].
  exact (detect_then_save _ _ _ _ _ _ _ _ _ _ _ _ H1 H2
           yellowstone_north_location_only H0 H3 H4).
Defined.


(** ** The table of the trends chart *)

Section groupby_selection.
Context {K A : Type} (cmp : K → K → comparison) `{!CmpOrder cmp}.
Context (key : A → option K) (P : K → bool).
Hypothesis P_compat : ∀ k k', cmp k k' = Eq → P k = P k'.

Lemma filter_selected (x : K * list A) gs :
  P x.1 = true →
  filter (λ x, P x.1) (x :: gs) = x :: filter (λ x, P x.1) gs.
Proof. intros HP. rewrite filter_cons_True; [done|]. by rewrite HP. Qed.

Lemma filter_not_selected (x : K * list A) gs :
  P x.1 = false →
  filter (λ x, P x.1) (x :: gs) = filter (λ x, P x.1) gs.
Proof.
  intros HP. rewrite filter_cons_False; [done|]. rewrite HP. simpl. tauto.
Qed.

Lemma group_insert_selection (k : K) (a : A) gs :
  concat (filter (λ x, P x.1) (group_insert cmp k a gs)).*2 ≡ₚ
  concat (filter (λ x, P x.1) gs).*2 ++ (if P k then [a] else []).
Proof.
  induction gs as [|[k' g] gs IH]; simpl.
  - destruct (P k) eqn:HP.
    + by rewrite filter_selected.
    + by rewrite filter_not_selected.
  - destruct (cmp k k') eqn:Hc.
    + rewrite (P_compat _ _ Hc). destruct (P k') eqn:HP.
      * rewrite !filter_selected by done. simpl.
        rewrite <- !app_assoc. apply Permutation_app_head.
        apply Permutation_app_comm.
      * rewrite !filter_not_selected by done. by rewrite app_nil_r.
    + destruct (P k) eqn:HP.
      * rewrite (filter_selected (k, [a])) by done. simpl.
        change (a :: ?l) with ([a] ++ l). apply Permutation_app_comm.
      * rewrite (filter_not_selected (k, [a])) by done. by rewrite app_nil_r.
    + destruct (P k') eqn:HP'.
      * rewrite !(filter_selected (k', g)) by done. simpl.
        rewrite IH. by rewrite app_assoc.
      * rewrite !(filter_not_selected (k', g)) by done. done.
Qed.

(** The groups whose key is selected hold the rows whose key is. *)
Lemma groupby_selection df :
  concat (filter (λ x, P x.1) (groupby cmp key df)).*2 ≡ₚ
  filter (λ a, from_option P false (key a)) df.
Proof.
  induction df as [|a df IH] using rev_ind; [done|].
  rewrite groupby_snoc, filter_app.
  destruct (key a) as [k|] eqn:Hk.
  - rewrite group_insert_selection, IH. apply Permutation_app_head.
    destruct (P k) eqn:HP.
    + rewrite filter_cons_True; [done|]. rewrite Hk. simpl. by rewrite HP.
    + rewrite filter_cons_False; [done|]. rewrite Hk. simpl. rewrite HP.
      simpl. tauto.
  - rewrite IH. rewrite filter_cons_False; [|rewrite Hk; simpl; tauto].
    by rewrite filter_nil, app_nil_r.
Qed.
End groupby_selection.

Lemma filter_fmap {A B} (f : A → B) (P : B → Prop) `{!∀ x, Decision (P x)}
    (l : list A) :
  filter P (f <$> l) = f <$> filter (λ x, P (f x)) l.
Proof.
  induction l as [|x l IH]; [done|].
  rewrite fmap_cons, !filter_cons, IH. by destruct (decide (P (f x))).
Qed.

Lemma daily_compare_eq_iff (k k' : date * string) :
  daily_compare k k' = Eq ↔ k = k'.
Proof.
  destruct k as [d s], k' as [d' s']. unfold daily_compare, cmp_pair. simpl.
  split.
  - destruct (date_compare d d') eqn:Hd; try discriminate.
    apply date_compare_eq_iff in Hd as ->.
    by intros ->%String.compare_eq_iff.
  - intros [= -> ->].
    rewrite (proj2 (date_compare_eq_iff d' d') eq_refl).
    apply string_compare_refl.
Qed.

Lemma daily_has_key k e :
  has_key daily_compare daily_key k e = true ↔
  (date_of (timestamp e), species e) = k.
Proof.
  unfold has_key, daily_key. rewrite <- daily_compare_eq_iff.
  by destruct (daily_compare _ k).
Qed.

(** The groups of one date, one per species seen on that date. *)
Lemma daily_groups_of_date d df :
  let groups := filter (λ x : date * string * list DetectionEvent,
                          bool_decide (x.1.1 = d))
                  (groupby daily_compare daily_key df) in
  let rows := filter (λ e, date_of (timestamp e) = d) df in
  concat groups.*2 ≡ₚ rows ∧
  (λ x, x.1.2) <$> groups ≡ₚ remove_dups (species <$> rows).
Proof.
  intros groups rows. split.
  - pose proof (groupby_selection daily_compare daily_key
                  (λ k : date * string, bool_decide (k.1 = d))) as Hsel.
    etrans.
    + apply Hsel. by intros k k' ->%daily_compare_eq_iff.
    + unfold rows. erewrite list_filter_iff; [done|].
      intros e. simpl. by rewrite bool_decide_spec.
  - assert (Hgroup : ∀ x, x ∈ groups →
      x.1.1 = d ∧ x.2 = rows_of daily_compare daily_key x.1 df ∧ x.2 ≠ []).
    { intros [k g] [Hd Hin]%list_elem_of_filter. simpl in *.
      apply bool_decide_unpack in Hd.
      by destruct (groupby_group daily_compare daily_key df k g Hin). }
    apply NoDup_Permutation.
    + apply NoDup_fmap_2_strong.
      * intros [[d1 s1] g1] [[d2 s2] g2] H1 H2 Hs. simpl in Hs. subst s2.
        destruct (Hgroup _ H1) as (Hd1 & Hg1 & _).
        destruct (Hgroup _ H2) as (Hd2 & Hg2 & _).
        simpl in *. by subst.
      * apply NoDup_filter.
        eapply NoDup_fmap_1, (groupby_keys_NoDup daily_compare).
    + apply NoDup_remove_dups.
    + intros s. rewrite elem_of_remove_dups, !list_elem_of_fmap. split.
      * intros ([[d' s'] g] & -> & Hin). simpl.
        destruct (Hgroup _ Hin) as (Hd & Hg & Hne). simpl in *. subst d'.
        destruct g as [|e g]; [done|].
        assert (He : e ∈ rows_of daily_compare daily_key (d, s') df)
          by (rewrite <- Hg; apply elem_of_cons; by left).
        apply list_elem_of_filter in He as [Hk He].
        apply Is_true_true, daily_has_key in Hk. injection Hk as Hd Hs.
        exists e. split; [done|]. by apply list_elem_of_filter.
      * intros (e & -> & [Hd He]%list_elem_of_filter).
        destruct (groupby_complete daily_compare daily_key df e
                    (date_of (timestamp e), species e) He eq_refl)
          as (k' & g & Hin & ->%daily_compare_eq_iff & _).
        exists (date_of (timestamp e), species e, g). split; [done|].
        apply list_elem_of_filter. split; [|done].
        simpl. by apply bool_decide_pack.
Qed.

(** X16.  The table of the trends chart refines the detection timeline:
    for each row of the timeline, the rows of the table that have its
    date are one per species, as many as the timeline counts species on
    that date, and their counts add up, as an [int64] sum, to the total
    detections of the timeline for that date. *)
Theorem daily_counts_refine_timeline df row :
  row ∈ timeline_summary df →
  let days := filter (λ r, dc_date r = tl_date row) (daily_counts df) in
  plot_detection_trends df = Chart (daily_counts df) ∧
  length days = tl_species_count row ∧
  agg_sum (dc_count <$> days) = tl_total_detections row ∧
  NoDup (dc_species <$> days).
Proof.
  intros (d & Hne & ->)%timeline_summary_elem. cbn zeta. simpl.
  destruct (daily_groups_of_date d df) as [Hrows Hspecies].
  cbn zeta in Hrows, Hspecies.
  set (f := (λ '(k, g), {| dc_date := k.1; dc_species := k.2;
                           dc_count := agg_sum (count <$> g) |})
            : date * string * list DetectionEvent → daily_row).
  assert (Hdays : filter (λ r, dc_date r = d) (daily_counts df) =
    f <$> filter (λ x : date * string * list DetectionEvent,
                    bool_decide (x.1.1 = d))
            (groupby daily_compare daily_key df)).
  { unfold daily_counts. fold f. rewrite filter_fmap. f_equal.
    apply list_filter_iff. intros [[d' s] g]. simpl.
    by rewrite bool_decide_spec. }
  rewrite Hdays. split; [|split; [|split]].
  - by destruct df.
  - rewrite length_fmap, <- (length_fmap (λ x, x.1.2)).
    by rewrite Hspecies.
  - rewrite (agg_sum_groups f dc_count); [|by intros [[??]?]].
    apply agg_sum_Permutation. by rewrite Hrows.
  - rewrite <- list_fmap_compose.
    rewrite (list_fmap_ext (dc_species ∘ f) (λ x, x.1.2));
      [|by intros ? [[??]?]].
    rewrite Hspecies. apply NoDup_remove_dups.
Qed.

Lemma daily_counts_refine_timeline_witness :
  {| tl_date := (2025, 1, 1)%nat; tl_species_count := 1;
     tl_total_detections := 1; tl_images := 1 |}
    ∈ timeline_summary late_then_early ∧
  plot_detection_trends late_then_early
    = Chart (daily_counts late_then_early) ∧
  length (filter (λ r, dc_date r = (2025, 1, 1)%nat)
            (daily_counts late_then_early)) = 1%nat ∧
  agg_sum (dc_count <$> filter (λ r, dc_date r = (2025, 1, 1)%nat)
                          (daily_counts late_then_early)) = 1 ∧
  NoDup (dc_species <$> filter (λ r, dc_date r = (2025, 1, 1)%nat)
                          (daily_counts late_then_early)).
Proof.
  assert (H1 : {| tl_date := (2025, 1, 1)%nat; tl_species_count := 1;
                  tl_total_detections := 1; tl_images := 1 |}
               ∈ timeline_summary late_then_early)
    by (vm_compute; constructor).
  split; [exact H1|].
  exact (daily_counts_refine_timeline _ _ H1).
Defined.

(** ** The richness chart *)

Lemma site_rows_of n df :
  rows_of String.compare (λ e, Some (location_name e)) n df =
  filter (λ e, location_name e = n) df.
Proof.
  unfold rows_of. apply list_filter_iff. intros e. unfold has_key.
  destruct (String.compare (location_name e) n) eqn:Hc.
  - apply String.compare_eq_iff in Hc. by split.
  - split; [done|]. intros <-. by rewrite string_compare_refl in Hc.
  - split; [done|]. intros <-. by rewrite string_compare_refl in Hc.
Qed.

Lemma agg_nunique_le `{Countable A} (l l' : list A) :
  l ⊆ l' → (agg_nunique l ≤ agg_nunique l')%nat.
Proof.
  intros Hsub. rewrite !agg_nunique_distinct.
  apply subseteq_size. intros x. rewrite !elem_of_list_to_set. apply Hsub.
Qed.

(** X17.  The richness chart bounds the location summary: for every row
    of the location summary there is a bar of the chart for its site
    name, and the bar counts at least as many species as the row, since it
    counts over all the events of that name, whatever their coordinates,
    those without coordinates too. *)
Theorem richness_bounds_location_summary df r :
  r ∈ location_summary df →
  ∃ bar,
    plot_location_heatmap df = Chart (location_species df) ∧
    bar ∈ location_species df ∧
    rc_location_name bar = loc_location_name r ∧
    rc_species_count bar =
      agg_nunique (species <$> filter (λ e, location_name e = loc_location_name r) df) ∧
    (loc_species_count r ≤ rc_species_count bar)%nat.
Proof.
  unfold location_summary.
  intros ([k g] & -> & Hin)%list_elem_of_fmap. simpl.
  destruct (groupby_group location_compare location_key df k g Hin)
    as [Hg Hne].
  assert (Hsite : ∀ e, e ∈ g → e ∈ df ∧ location_name e = k.1.1).
  { intros e He. rewrite Hg in He.
    apply list_elem_of_filter in He as [Hk He]. split; [done|].
    apply Is_true_true, location_has_key in Hk. apply Hk. }
  destruct g as [|e0 g0] eqn:Eg; [done|]. rewrite <- Eg in *.
  destruct (Hsite e0) as [He0 Hn0]; [rewrite Eg; apply elem_of_cons; by left|].
  destruct (groupby_complete String.compare (λ e, Some (location_name e))
              df e0 (location_name e0) He0 eq_refl)
    as (n & g' & Hin' & Hn & _).
  apply String.compare_eq_iff in Hn. rewrite Hn0 in Hn. subst n.
  destruct (groupby_group String.compare _ df _ g' Hin') as [Hg' _].
  rewrite site_rows_of in Hg'.
  exists {| rc_location_name := k.1.1;
            rc_species_count := agg_nunique (species <$> g') |}.
  split; [by destruct df|]. split; [|split; [done|]].
  - unfold location_species. apply list_elem_of_fmap.
    by exists (k.1.1, g').
  - simpl. split; [by rewrite Hg'|].
    apply agg_nunique_le. intros s (e & -> & He)%list_elem_of_fmap.
    apply list_elem_of_fmap. exists e. split; [done|].
    rewrite Hg'. apply list_elem_of_filter.
    destruct (Hsite e He). by split.
Qed.

Lemma richness_bounds_location_summary_witness :
  {| loc_location_name := "Ridge"; loc_latitude := 44 # 1;
     loc_longitude := -110 # 1; loc_species_count := 1;
     loc_total_detections := 1 |} ∈ location_summary moved_site_log ∧
  ∃ bar,
    plot_location_heatmap moved_site_log
      = Chart (location_species moved_site_log) ∧
    bar ∈ location_species moved_site_log ∧
    rc_location_name bar = "Ridge" ∧
    rc_species_count bar =
      agg_nunique (species <$> filter (λ e, location_name e = "Ridge")
                                 moved_site_log) ∧
    (1 ≤ rc_species_count bar)%nat.
Proof.
  assert (H1 : {| loc_location_name := "Ridge"; loc_latitude := 44 # 1;
     loc_longitude := -110 # 1; loc_species_count := 1;
     loc_total_detections := 1 |} ∈ location_summary moved_site_log)
    by (vm_compute; constructor).
  split; [exact H1|].
  exact (richness_bounds_location_summary _ _ H1).
Defined.

(** ** The map *)


(** ** The map *)

Lemma sum_values_snoc values v :
  sum_values (values ++ [v]) =
  and_then (sum_values values) (λ s,
    if is_nan v then inr None
    else match as_number v with
         | Some q => inr ((λ x, x + q)%Q <$> s)
         | None => inl TypeError
         end).
Proof. unfold sum_values. by rewrite foldl_snoc. Qed.

(** A sum returns a finite number exactly when all its terms are finite
    numbers; otherwise it is NaN or fails with [TypeError]. *)
Lemma sum_values_numbers values :
  (Forall (λ v, is_Some (as_number v)) values ∧
     ∃ q, sum_values values = inr (Some q)) ∨
  (¬ Forall (λ v, is_Some (as_number v)) values ∧
     (sum_values values = inl TypeError ∨ sum_values values = inr None)).
Proof.
  induction values as [|v values IH] using rev_ind.
  - left. split; [constructor|by eexists].
  - rewrite sum_values_snoc, Forall_app, Forall_singleton.
    destruct IH as [[Hall [q ->]]|[Hnot [->| ->]]]; simpl.
    + destruct (as_number v) as [r|] eqn:Hv.
      * left. destruct v; try done; (split; [by split|by eexists]).
      * right. split; [by intros [_ [? [=]]]|].
        destruct (is_nan v); [by right|by left].
    + right. split; [tauto|by left].
    + right. split; [tauto|].
      destruct (is_nan v); [by right|].
      destruct (as_number v); [by right|by left].
Qed.

Lemma omap_length_le {A B} (f : A → option B) (l : list A) :
  (length (omap f l) ≤ length l)%nat.
Proof.
  induction l as [|x l IH]; csimpl; [done|].
  destruct (f x); csimpl; lia.
Qed.

Lemma truthy_number v q :
  truthy v = true → as_number v = Some q → ¬ (q == 0)%Q.
Proof.
  destruct v as [|[]|z|r| |s|l]; simpl; try done.
  - by intros _ [= <-].
  - intros Hz [= <-]. apply negb_true_iff, Z.eqb_neq in Hz.
    unfold Qeq. simpl. lia.
  - intros Hr [= <-]. apply negb_true_iff in Hr.
    intros Heq. apply Qeq_bool_iff in Heq. congruence.
Qed.

Lemma get_truthy_Some loc k v :
  get_truthy loc k = Some v ↔ loc !! k = Some v ∧ truthy v = true.
Proof.
  unfold get_truthy. destruct (loc !! k) as [w|].
  - destruct (truthy w) eqn:Hw.
    + split; [by intros [= <-]|by intros [[= <-] _]].
    + split; [done|]. intros [[= <-] Hv]. congruence.
  - split; [done|]. by intros [? _].
Qed.

(** X18.  A map that is shown has the zoom level and height asked for,
    and its markers are the locations whose two coordinates are true, in
    order: for every marker both coordinates are numbers other than zero,
    so a location on the equator or on the prime meridian, or with a
    missing coordinate, has no marker; a popup is attached only when
    asked for. *)
Theorem display_map_markers locations zoom height info c z ms h :
  display_map locations zoom height info = inr (FoliumMap c z ms h) →
  z = zoom ∧ h = height ∧
  (length ms ≤ length locations)%nat ∧
  Forall (λ m, ∃ la lo,
            as_number (marker_location m).1 = Some la ∧
            as_number (marker_location m).2 = Some lo ∧
            ¬ (la == 0)%Q ∧ ¬ (lo == 0)%Q ∧
            (info = false → marker_popup m = None)) ms ∧
  ∀ loc lat lng,
    loc ∈ locations →
    loc !! "latitude" = Some lat → truthy lat = true →
    loc !! "longitude" = Some lng → truthy lng = true →
    ∃ m, m ∈ ms ∧ marker_location m = (lat, lng).
Proof.
  unfold display_map.
  destruct locations as [|loc0 rest] eqn:El; [done|]. rewrite <- El.
  set (locs := locations).
  destruct (omap (λ loc, get_truthy loc "latitude") locs)
    as [|la0 las] eqn:Hlat; [done|].
  destruct (omap (λ loc, get_truthy loc "longitude") locs)
    as [|lo0 los] eqn:Hlng; [done|].
  rewrite <- Hlat, <- Hlng.
  destruct (sum_values_numbers (omap (λ loc, get_truthy loc "latitude") locs))
    as [[Hlats [qa ->]]|[_ [->| ->]]]; [|done|];
  destruct (sum_values_numbers (omap (λ loc, get_truthy loc "longitude") locs))
    as [[Hlngs [qo ->]]|[_ [->| ->]]]; try done.
  simpl. intros [= <- <- <- <-].
  split; [done|]. split; [done|]. split; [|split].
  - apply omap_length_le.
  - apply Forall_forall. intros m (loc & Hloc & Hm)%list_elem_of_omap.
    unfold marker_of in Hm.
    destruct (get_truthy loc "latitude") as [lat|] eqn:Ha; [|done].
    destruct (get_truthy loc "longitude") as [lng|] eqn:Ho; [|done].
    injection Hm as <-. simpl.
    rewrite Forall_forall in Hlats, Hlngs.
    destruct (Hlats lat) as [la Hla].
    { apply list_elem_of_omap. by exists loc. }
    destruct (Hlngs lng) as [lo Hlo].
    { apply list_elem_of_omap. by exists loc. }
    apply get_truthy_Some in Ha as [_ Ha], Ho as [_ Ho].
    exists la, lo. split; [done|]. split; [done|].
    split; [exact (truthy_number _ _ Ha Hla)|].
    split; [exact (truthy_number _ _ Ho Hlo)|].
    by intros ->.
  - intros loc lat lng Hloc Hlat' Ht Hlng' Ht'.
    exists {| marker_location := (lat, lng);
              marker_popup := if info then loc !! "info" else None |}.
    split; [|done].
    apply list_elem_of_omap. exists loc. split; [exact Hloc|].
    unfold marker_of.
    rewrite (proj2 (get_truthy_Some loc "latitude" lat) (conj Hlat' Ht)).
    rewrite (proj2 (get_truthy_Some loc "longitude" lng) (conj Hlng' Ht')).
    reflexivity.
Qed.



(** A location with a NaN coordinate, which Python takes for true, makes
    the centre of the map NaN, and [folium.Map] refuses it. *)
Example display_map_nan :
  display_map [ {[ "latitude" := VNaN; "longitude" := VFloat (10 # 1) ]} ]
    5 400 false = inl ValueError.
Proof. vm_compute. reflexivity. Qed.

Lemma display_map_markers_witness :
  display_map [yellowstone_north; equator_station] 5 400 false
    = inr (FoliumMap (449631 # 10000, -1005989 # 20000) 5
             [{| marker_location := (VFloat (449631 # 10000),
                                     VFloat (-1105989 # 10000));
                 marker_popup := None |}] 400) ∧
  5 = 5 ∧ 400 = 400 ∧
  (length [{| marker_location := (VFloat (449631 # 10000),
                                  VFloat (-1105989 # 10000));
              marker_popup := None |}]
     ≤ length [yellowstone_north; equator_station])%nat ∧
  Forall (λ m, ∃ la lo,
            as_number (marker_location m).1 = Some la ∧
            as_number (marker_location m).2 = Some lo ∧
            ¬ (la == 0)%Q ∧ ¬ (lo == 0)%Q ∧
            (false = false → marker_popup m = None))
    [{| marker_location := (VFloat (449631 # 10000),
                            VFloat (-1105989 # 10000));
        marker_popup := None |}] ∧
  ∀ loc lat lng,
    loc ∈ [yellowstone_north; equator_station] →
    loc !! "latitude" = Some lat → truthy lat = true →
    loc !! "longitude" = Some lng → truthy lng = true →
    ∃ m, m ∈ [{| marker_location := (VFloat (449631 # 10000),
                                     VFloat (-1105989 # 10000));
                 marker_popup := None |}] ∧
         marker_location m = (lat, lng).
Proof.
  assert (H1 : display_map [yellowstone_north; equator_station] 5 400 false
    = inr (FoliumMap (449631 # 10000, -1005989 # 20000) 5
             [{| marker_location := (VFloat (449631 # 10000),
                                     VFloat (-1105989 # 10000));
                 marker_popup := None |}] 400))
    by (vm_compute; reflexivity).
  split; [exact H1|].
  exact (display_map_markers _ _ _ _ _ _ _ _ H1).
Defined.



(** ** Accepted image files *)

Lemma rfind_from_app c l1 l2 i found :
  rfind_from c (l1 ++ l2) i found =
  rfind_from c l2 (i + Z.of_nat (length l1)) (rfind_from c l1 i found).
Proof.
  revert i found. induction l1 as [|x l1 IH]; intros i found; simpl.
  - by rewrite Z.add_0_r.
  - rewrite IH. f_equal. lia.
Qed.

Lemma rfind_from_notin c l i found :
  c ∉ l → rfind_from c l i found = found.
Proof.
  revert i found. induction l as [|x l IH]; intros i found Hc; simpl; [done|].
  apply not_elem_of_cons in Hc as [Hx Hc]. rewrite IH by done.
  destruct (Ascii.eqb_spec x c); [congruence|done].
Qed.

(** The last occurrence. *)
Lemma rfind_last c l1 l2 :
  c ∉ l2 → rfind c (l1 ++ (c :: l2)) = Z.of_nat (length l1).
Proof.
  intros Hc. unfold rfind. rewrite rfind_from_app. simpl.
  rewrite Ascii.eqb_refl. by rewrite rfind_from_notin.
Qed.

Lemma rfind_app_notin c l1 l2 : c ∉ l2 → rfind c (l1 ++ l2) = rfind c l1.
Proof.
  intros Hc. unfold rfind. rewrite rfind_from_app. by apply rfind_from_notin.
Qed.

Lemma rfind_from_in c l i found :
  c ∈ l → i ≤ rfind_from c l i found.
Proof.
  revert i found. induction l as [|x l IH]; intros i found Hc; simpl.
  - by apply elem_of_nil in Hc.
  - destruct (decide (c ∈ l)) as [Hl|Hl].
    + specialize (IH (i + 1) (if Ascii.eqb x c then i else found) Hl). lia.
    + apply elem_of_cons in Hc as [->|Hc]; [|done].
      rewrite rfind_from_notin by done. rewrite Ascii.eqb_refl. lia.
Qed.

Lemma rfind_app_in c l1 l2 :
  c ∈ l2 → Z.of_nat (length l1) ≤ rfind c (l1 ++ l2).
Proof.
  intros Hc. unfold rfind. rewrite rfind_from_app.
  by apply rfind_from_in.
Qed.

Lemma rfind_inv c l :
  (rfind c l = -1 ∧ c ∉ l) ∨
  ∃ l1 l2, l = l1 ++ (c :: l2) ∧ (c ∉ l2) ∧ rfind c l = Z.of_nat (length l1).
Proof.
  induction l as [|x l IH] using rev_ind.
  - left. split; [done|]. apply not_elem_of_nil.
  - destruct (decide (x = c)) as [->|Hx].
    + right. exists l, []. split; [done|]. split; [apply not_elem_of_nil|].
      apply rfind_last, not_elem_of_nil.
    + assert (Hn : c ∉ [x]).
      { intros Hin. apply elem_of_cons in Hin as [->|Hin]; [done|].
        by apply elem_of_nil in Hin. }
      rewrite (rfind_app_notin c l [x] Hn).
      destruct IH as [[Hr Hc]|(l1 & l2 & -> & Hc & Hr)].
      * left. split; [done|]. rewrite elem_of_app. tauto.
      * right. exists l1, (l2 ++ [x]). split; [by rewrite <- app_assoc|].
        split; [|done]. rewrite elem_of_app. tauto.
Qed.

Lemma rfind_lt_length c l : rfind c l < Z.of_nat (length l).
Proof.
  destruct (rfind_inv c l) as [[-> _]|(l1 & l2 & -> & _ & ->)]; [lia|].
  rewrite length_app. simpl. lia.
Qed.

Lemma forallb_dots_false (l : list ascii) :
  forallb (λ x, Ascii.eqb x ".") l = false ↔ ∃ c, c ∈ l ∧ c ≠ "."%char.
Proof.
  induction l as [|x l IH]; simpl.
  - split; [done|]. by intros (c & ?%elem_of_nil & _).
  - destruct (Ascii.eqb_spec x ".") as [->|Hx]; simpl.
    + rewrite IH. split.
      * intros (c & Hc & Hd). exists c. split; [by right|done].
      * intros (c & [->|Hc]%elem_of_cons & Hd); [done|]. by exists c.
    + split; [|done]. intros _. exists x. split; [by left|done].
Qed.

(** An extension is split off where the path ends in a dot followed by
    characters other than dots and slashes, and the last component has a
    character other than a dot before that dot. *)
Lemma splitext_ext (stem e : list ascii) :
  "."%char ∉ e → "/"%char ∉ e →
  splitext (stem ++ "."%char :: e) =
  if forallb (λ x, Ascii.eqb x ".") (last_component stem)
  then (stem ++ "."%char :: e, [])
  else (stem, "."%char :: e).
Proof.
  intros Hdot Hsep. unfold splitext.
  assert (Hs : "/"%char ∉ "."%char :: e).
  { intros [[=]|?]%elem_of_cons. done. }
  rewrite (rfind_last "." stem e Hdot), (rfind_app_notin "/" stem _ Hs).
  pose proof (rfind_lt_length "/" stem) as Hlt.
  rewrite (proj2 (Z.ltb_lt _ _) Hlt).
  unfold slice, last_component.
  rewrite Nat2Z.id, take_app_length, drop_app_length.
  by destruct (forallb _ _).
Qed.

Lemma valid_extension_shape ext :
  ext ∈ valid_extensions →
  ∃ e, list_ascii_of_string ext = ("."%char :: e) ∧
       ("."%char ∉ e) ∧ ("/"%char ∉ e).
Proof.
  unfold valid_extensions. intros Hin.
  repeat (apply elem_of_cons in Hin as [->|Hin];
          [eexists; split; [reflexivity|];
           split; apply (bool_decide_unpack _); by vm_compute|]).
  by apply elem_of_nil in Hin.
Qed.

Lemma splitext_app p : (splitext p).1 ++ (splitext p).2 = p.
Proof.
  unfold splitext. destruct (_ <? _); [|by rewrite app_nil_r].
  destruct (forallb _ _); simpl; [by rewrite app_nil_r|].
  apply take_drop.
Qed.

(** Where an extension is split off, the rest has a character other than
    a dot in its last component. *)
Lemma splitext_nonempty p :
  (splitext p).2 ≠ [] →
  ∃ e, (splitext p).2 = ("."%char :: e) ∧ ("."%char ∉ e) ∧
       forallb (λ x, Ascii.eqb x ".") (last_component (splitext p).1) = false.
Proof.
  destruct (rfind_inv "." p) as [[Hr Hdot]|(stem & e & -> & Hdot & Hr)].
  - unfold splitext. rewrite Hr.
    pose proof (rfind_lt_length "/" p).
    destruct (rfind_inv "/" p) as [[-> _]|(l1 & l2 & _ & _ & ->)]; simpl;
      [done|].
    destruct (_ <? _) eqn:Hlt; [|done]. apply Z.ltb_lt in Hlt. lia.
  - destruct (decide ("/"%char ∈ e)) as [Hsep|Hsep].
    + unfold splitext. rewrite Hr.
      assert (Hs : "/"%char ∈ "."%char :: e) by (by right).
      pose proof (rfind_app_in "/" stem _ Hs) as Hge.
      destruct (_ <? _) eqn:Hlt; [|done]. apply Z.ltb_lt in Hlt. lia.
    + rewrite (splitext_ext stem e Hdot Hsep).
      destruct (forallb _ _) eqn:Hf; simpl; [done|]. intros _.
      exists e. by rewrite Hf.
Qed.

Lemma string_of_list_ascii_app l1 l2 :
  string_of_list_ascii (l1 ++ l2)
  = string_of_list_ascii l1 +:+ string_of_list_ascii l2.
Proof. induction l1 as [|c l1 IH]; simpl; [done|]. by rewrite IH. Qed.

(** X20.  A missing file is refused; a file is accepted exactly when its
    name, in lower case, is a stem followed by [.jpg], [.jpeg] or [.png],
    and the last component of the stem has a character other than a
    dot. *)
Theorem validate_image_format_accepts name :
  validate_image_format None = false ∧
  (validate_image_format (Some name) = true ↔
   ∃ stem ext,
     lower name = stem +:+ ext ∧ ext ∈ valid_extensions ∧
     ∃ c, c ∈ last_component (list_ascii_of_string stem) ∧ c ≠ "."%char).
Proof.
  split; [done|]. unfold validate_image_format.
  set (p := list_ascii_of_string (lower name)).
  rewrite bool_decide_eq_true. split.
  - intros Hext.
    destruct (splitext_nonempty p) as (e & He & _ & Hf).
    { intros Hnil. rewrite Hnil in Hext. revert Hext.
      apply (bool_decide_unpack _). by vm_compute. }
    exists (string_of_list_ascii (splitext p).1),
           (string_of_list_ascii (splitext p).2).
    split; [|split; [done|]].
    + rewrite <- string_of_list_ascii_app, splitext_app.
      unfold p. by rewrite string_of_list_ascii_of_string.
    + rewrite list_ascii_of_string_of_list_ascii.
      by apply forallb_dots_false.
  - intros (stem & ext & Hname & Hext & Hc).
    destruct (valid_extension_shape ext Hext) as (e & He & Hdot & Hsep).
    assert (Hp : p = list_ascii_of_string stem ++ "."%char :: e).
    { unfold p. by rewrite Hname, list_ascii_of_string_app, He. }
    rewrite Hp, (splitext_ext _ e Hdot Hsep).
    rewrite (proj2 (forallb_dots_false _) Hc). simpl.
    change (string_of_list_ascii ("."%char :: e) ∈ valid_extensions).
    by rewrite <- He, string_of_list_ascii_of_string.
Qed.

(** An extension in capitals is accepted; a name that is only an
    extension, a name of dots before the extension, an extension followed
    by another one and an extension in a directory name are refused. *)
Example validate_image_format_names :
  validate_image_format (Some "Photo.JPG") = true ∧
  validate_image_format (Some "traps/site.1/deer.jpeg") = true ∧
  validate_image_format (Some ".png") = false ∧
  validate_image_format (Some "..jpg") = false ∧
  validate_image_format (Some "photo.jpg.txt") = false ∧
  validate_image_format (Some "traps.png/deer") = false.
Proof. by vm_compute. Qed.

(** ** The sample locations *)

Lemma sample_location_lookup name la lo k :
  sample_location name la lo !! k =
  if decide (k = "latitude") then Some (VFloat la)
  else if decide (k = "longitude") then Some (VFloat lo)
  else if decide (k = "location_name") then Some (VStr name)
  else None.
Proof.
  unfold sample_location.
  destruct (decide (k = "latitude")) as [->|?]; [by simplify_map_eq|].
  destruct (decide (k = "longitude")) as [->|?]; [by simplify_map_eq|].
  destruct (decide (k = "location_name")) as [->|?]; [by simplify_map_eq|].
  by simplify_map_eq.
Qed.

Lemma sample_location_only name la lo :
  location_only (Some (sample_location name la lo)).
Proof.
  intros l k [= <-] Hk. rewrite sample_location_lookup in Hk.
  unfold location_fields. rewrite !elem_of_cons.
  repeat case_decide; try tauto. by destruct Hk.
Qed.

(** The map of one location with two coordinates other than zero. *)
Lemma display_map_sample name la lo zoom height :
  ¬ (la == 0)%Q → ¬ (lo == 0)%Q →
  display_map [sample_location name la lo] zoom height false =
  inr (FoliumMap ((0 + la) / 1, (0 + lo) / 1)%Q zoom
         [{| marker_location := (VFloat la, VFloat lo);
             marker_popup := None |}] height).
Proof.
  intros Hla Hlo. unfold display_map, marker_of.
  assert (Ha : get_truthy (sample_location name la lo) "latitude"
               = Some (VFloat la)).
  { apply get_truthy_Some. split; [by rewrite sample_location_lookup|].
    simpl. apply negb_true_iff. apply not_true_is_false.
    by rewrite Qeq_bool_iff. }
  assert (Ho : get_truthy (sample_location name la lo) "longitude"
               = Some (VFloat lo)).
  { apply get_truthy_Some. split; [by rewrite sample_location_lookup|].
    simpl. apply negb_true_iff. apply not_true_is_false.
    by rewrite Qeq_bool_iff. }
  csimpl. rewrite Ha, Ho. reflexivity.
Qed.

(** X21.  Every location that can be selected carries its key as its
    name, has no other key than latitude, longitude and location_name, so
    that a detection on it can be saved, and is drawn by the sidebar as a
    map with one marker, at its coordinates. *)
Theorem sample_locations_are_shown name loc :
  (name, loc) ∈ get_sample_locations →
  loc !! "location_name" = Some (VStr name) ∧
  location_only (Some loc) ∧
  numeric_coordinates loc ∧
  ∃ lat lng c,
    loc !! "latitude" = Some lat ∧ loc !! "longitude" = Some lng ∧
    display_map [loc] 10 200 false =
      inr (FoliumMap c 10 [{| marker_location := (lat, lng);
                              marker_popup := None |}] 200).
Proof.
  unfold get_sample_locations. intros Hin.
  assert (∃ la lo, loc = sample_location name la lo ∧
                   ¬ (la == 0)%Q ∧ ¬ (lo == 0)%Q) as (la & lo & -> & Hla & Hlo).
  { repeat (apply elem_of_cons in Hin as [[= -> ->]|Hin];
            [eexists _, _; split; [reflexivity|];
             split; unfold Qeq; simpl; lia|]).
    by apply elem_of_nil in Hin. }
  split; [by rewrite sample_location_lookup|].
  split; [apply sample_location_only|]. split.
  - intros k v Hk. rewrite sample_location_lookup.
    repeat (apply elem_of_cons in Hk as [->|Hk]);
      [| |by apply elem_of_nil in Hk];
      simpl; intros [= <-]; right; by eexists.
  - exists (VFloat la), (VFloat lo). eexists.
    split; [by rewrite sample_location_lookup|].
    split; [by rewrite sample_location_lookup|].
    by apply display_map_sample.
Qed.

Lemma sample_locations_are_shown_witness :
  ("Everglades", sample_location "Everglades" (252866 # 10000)
                   (-808987 # 10000)) ∈ get_sample_locations ∧
  sample_location "Everglades" (252866 # 10000) (-808987 # 10000)
    !! "location_name" = Some (VStr "Everglades") ∧
  location_only
    (Some (sample_location "Everglades" (252866 # 10000) (-808987 # 10000))) ∧
  numeric_coordinates
    (sample_location "Everglades" (252866 # 10000) (-808987 # 10000)) ∧
  ∃ lat lng c,
    sample_location "Everglades" (252866 # 10000) (-808987 # 10000)
      !! "latitude" = Some lat ∧
    sample_location "Everglades" (252866 # 10000) (-808987 # 10000)
      !! "longitude" = Some lng ∧
    display_map
      [sample_location "Everglades" (252866 # 10000) (-808987 # 10000)]
      10 200 false =
      inr (FoliumMap c 10 [{| marker_location := (lat, lng);
                              marker_popup := None |}] 200).
Proof.
  assert (H1 : ("Everglades", sample_location "Everglades" (252866 # 10000)
                   (-808987 # 10000)) ∈ get_sample_locations).
  { unfold get_sample_locations. rewrite !elem_of_cons. tauto. }
  split; [exact H1|].
  exact (sample_locations_are_shown _ _ H1).
Defined.


(** ** History files that do not hold a log *)

(** X22.  A history file whose bytes are not text in the encoding of
    [open] stops every operation that loads the log: the
    [UnicodeDecodeError] of the read is not among the exceptions that
    [load_detection_history] catches, so the load, the save, the two
    summaries and the export raise it and leave the data directory as it
    was. *)
Theorem undecodable_history_raises (σ : store) :
  history_file σ = File true Undecodable →
  load_detection_history σ = (Raise UnicodeDecodeError, σ) ∧
  (∀ id ts img loc results,
     save_detection_results id ts img loc results σ
       = (Raise UnicodeDecodeError, σ)) ∧
  get_species_summary σ = (Raise UnicodeDecodeError, σ) ∧
  get_location_summary σ = (Raise UnicodeDecodeError, σ) ∧
  (∀ start_date end_date format now output_dir,
     export_detection_data start_date end_date format now output_dir σ
       = (Raise UnicodeDecodeError, σ)).
Proof.
  intros Hfile.
  assert (Hload : load_detection_history σ = (Raise UnicodeDecodeError, σ))
    by (by rewrite load_detection_history_eq, Hfile).
  split; [done|]. split; [|split; [|split]].
  - intros. by rewrite save_detection_results_eq, Hload.
  - unfold get_species_summary, mbind, M_bind. by rewrite Hload.
  - unfold get_location_summary, mbind, M_bind. by rewrite Hload.
  - intros. unfold export_detection_data, mbind, M_bind. by rewrite Hload.
Qed.

(** The theorem at a data directory whose history file is not text. *)
Lemma undecodable_history_raises_witness :
  history_file (store_with true Undecodable true) = File true Undecodable ∧
  load_detection_history (store_with true Undecodable true)
    = (Raise UnicodeDecodeError, store_with true Undecodable true) ∧
  (∀ id ts img loc results,
     save_detection_results id ts img loc results
       (store_with true Undecodable true)
       = (Raise UnicodeDecodeError, store_with true Undecodable true)) ∧
  get_species_summary (store_with true Undecodable true)
    = (Raise UnicodeDecodeError, store_with true Undecodable true) ∧
  get_location_summary (store_with true Undecodable true)
    = (Raise UnicodeDecodeError, store_with true Undecodable true) ∧
  (∀ start_date end_date format now output_dir,
     export_detection_data start_date end_date format now output_dir
       (store_with true Undecodable true)
       = (Raise UnicodeDecodeError, store_with true Undecodable true)).
Proof.
  assert (H1 : history_file (store_with true Undecodable true)
               = File true Undecodable) by reflexivity.
  split; [exact H1|].
  exact (undecodable_history_raises _ H1).
Defined.

(** X23.  A history file that holds a JSON document other than a list is
    loaded as that document, and a save onto it fails: the first result
    that has a species and a confidence is appended to a value without
    [append], which is an [AttributeError], and nothing is written. *)
Theorem save_onto_other_document (σ σ0 : store) (doc : document)
    (id ts img : string) (loc r : dict) (rest : list dict) :
  load_detection_history σ = (Return doc, σ0) →
  (∀ h, doc ≠ Log h) →
  is_Some (r !! "species") → is_Some (r !! "confidence") →
  save_detection_results id ts img loc (r :: rest) σ
    = (Raise AttributeError, σ0) ∧
  load_detection_history σ0 = (Return doc, σ0).
Proof.
  intros Hload Hdoc Hs Hc. split.
  - rewrite save_detection_results_eq, Hload. simpl.
    destruct (make_entry_Return id ts img loc r Hs Hc) as [e ->].
    destruct doc; try done. by destruct (Hdoc entries).
  - by apply load_detection_history_Return in Hload as [? _].
Qed.

(** The theorem at a history file that holds an object. *)
Lemma save_onto_other_document_witness :
  load_detection_history (object_store true)
    = (Return (Object {[ "species" := VStr "elk" ]}), object_store true) ∧
  (∀ h, Object {[ "species" := VStr "elk" ]} ≠ Log h) ∧
  is_Some (bare_result !! "species") ∧
  is_Some (bare_result !! "confidence") ∧
  save_detection_results "id-1" "2025-01-15 10:30:00" "fox.jpg"
    yellowstone_north (bare_result :: [named_result]) (object_store true)
    = (Raise AttributeError, object_store true) ∧
  load_detection_history (object_store true)
    = (Return (Object {[ "species" := VStr "elk" ]}), object_store true).
Proof.
  assert (H1 : load_detection_history (object_store true)
    = (Return (Object {[ "species" := VStr "elk" ]}), object_store true))
    by reflexivity.
  assert (H2 : ∀ h, Object {[ "species" := VStr "elk" ]} ≠ Log h)
    by discriminate.
  assert (H3 : is_Some (bare_result !! "species"))
    by (eexists; vm_compute; reflexivity).
  assert (H4 : is_Some (bare_result !! "confidence"))
    by (eexists; vm_compute; reflexivity).
  split; [exact H1|]. split; [exact H2|]. split; [exact H3|].
  split; [exact H4|].
  exact (save_onto_other_document _ _ _ "id-1" "2025-01-15 10:30:00"
           "fox.jpg" yellowstone_north _ [named_result] H1 H2 H3 H4).
Defined.
